(** * kernelstub: drive resolution and boot-entry reconciliation

    A shallow embedding of [kernelstub/kernelstub.py] (the NVRAM
    reconciliation script) and [kernelstub/mbdrive.py] (the [Drive]
    class), with the properties of the specification stated over it.

    Conventions of the embedding.
    - Python [str] values are [string]s (sequences of bytes); the text the
      program reads (/proc/partitions, efibootmgr and lsblk output) is ASCII.
    - Python [int] values are [Z].
    - A [dict] keyed by tuples is a [gmap]; a [dict] whose iteration order
      matters is an association list in insertion order.
    - Code that talks to the host (firmware, file system, /proc, external
      processes) runs in a state-and-exception monad over an explicit
      [World]; a raised exception keeps the effects made before it.
    - Calls to [logging] are not modelled: no property below reads the log. *)

From Stdlib Require Import ZArith Ascii String List Lia.
From stdpp Require Import base option list strings gmap.

(** ** Python string primitives *)

Module Py.

(** [c.isspace()] on ASCII. *)
Definition isspace (c : ascii) : bool :=
  match c with
  | "009" | "010" | "011" | "012" | "013"
  | "028" | "029" | "030" | "031" | " " => true
  | _ => false
  end%char.

(** [s.split(sep)] for a one-character separator: never returns [[]]. *)
Fixpoint split_on (sep : ascii) (s : string) : list string :=
  match s with
  | EmptyString => [""]
  | String c s' =>
      if Ascii.eqb c sep then "" :: split_on sep s'
      else match split_on sep s' with
           | w :: ws => String c w :: ws
           | [] => [String c ""]
           end
  end.

(** [sep.join(l)] for a one-character separator. *)
Fixpoint join (sep : ascii) (l : list string) : string :=
  match l with
  | [] => ""
  | [w] => w
  | w :: ws => w +:+ String sep (join sep ws)
  end.

(** [s.split()]: maximal runs of non-whitespace characters.  [cur] is the
    field being read, [None] between fields. *)
Fixpoint split_go (cur : option string) (s : string) : list string :=
  match s with
  | EmptyString => option_list cur
  | String c s' =>
      if isspace c then option_list cur ++ split_go None s'
      else split_go (Some (default "" cur +:+ String c "")) s'
  end.

Definition split (s : string) : list string := split_go None s.

(** [s.startswith(p)]. *)
Fixpoint startswith (p s : string) : bool :=
  match p, s with
  | EmptyString, _ => true
  | String a p', String b s' => Ascii.eqb a b && startswith p' s'
  | String _ _, EmptyString => false
  end.

(** [sub in s]: [sub] starts at some position of [s]. *)
Fixpoint contains (sub s : string) : bool :=
  startswith sub s ||
  match s with
  | EmptyString => false
  | String _ s' => contains sub s'
  end.

(** What [sub in s] decides: [sub] occurs in [s] as a contiguous run. *)
Definition is_substring (sub s : string) : Prop :=
  ∃ pre post, s = pre +:+ sub +:+ post.

(** [s] holds no line break. *)
Fixpoint one_line (s : string) : bool :=
  match s with
  | EmptyString => true
  | String c s' => negb (Ascii.eqb c "010") && one_line s'
  end.

(** [s[lo:hi]] for [0 <= lo <= hi]; like Python it clamps to the string. *)
Definition slice (lo hi : nat) (s : string) : string :=
  String.substring lo (hi - lo) s.

(** [l[i]] with Python's negative indices; [None] is [IndexError]. *)
Definition getitem {A} (l : list A) (i : Z) : option A :=
  if (0 <=? i)%Z then l !! Z.to_nat i
  else if (- Z.of_nat (length l) <=? i)%Z
       then l !! Z.to_nat (Z.of_nat (length l) + i)
       else None.

Definition digit (c : ascii) : option Z :=
  let code := Z.of_N (N_of_ascii c) in
  if (48 <=? code)%Z && (code <=? 57)%Z then Some (code - 48)%Z else None.

(** The digits of an [int] literal: decimal digits, with single
    underscores allowed between two digits.  [after_digit] tells whether
    the previous character was a digit. *)
Fixpoint int_digits (acc : Z) (after_digit : bool) (s : string) : option Z :=
  match s with
  | EmptyString => if after_digit then Some acc else None
  | String c s' =>
      match digit c with
      | Some d => int_digits (10 * acc + d) true s'
      | None =>
          if Ascii.eqb c "_" && after_digit then int_digits acc false s'
          else None
      end
  end.

(** [int(s)] on a field without surrounding whitespace; [None] is
    [ValueError].  (CPython's cap on the length of the literal is not
    modelled.) *)
Definition int (s : string) : option Z :=
  match s with
  | String "+" s' => int_digits 0 false s'
  | String "-" s' => Z.opp <$> int_digits 0 false s'
  | _ => int_digits 0 false s
  end.

(** [os.path.basename(p)]: what follows the last slash. *)
Definition basename (p : string) : string :=
  default "" (last (split_on "/" p)).

Fixpoint all_slashes (s : string) : bool :=
  match s with
  | EmptyString => true
  | String c s' => Ascii.eqb c "/" && all_slashes s'
  end.

(** [p[:p.rfind('/') + 1]]: up to and including the last slash. *)
Fixpoint upto_last_slash (p : string) : string :=
  match p with
  | EmptyString => ""
  | String c p' => if contains "/" p then String c (upto_last_slash p') else ""
  end.

(** [s.rstrip('/')]. *)
Fixpoint rstrip_slashes (s : string) : string :=
  match s with
  | EmptyString => ""
  | String c s' => if all_slashes s then "" else String c (rstrip_slashes s')
  end.

(** [os.path.dirname(p)]: what precedes the last slash, without trailing
    slashes unless it consists of slashes only. *)
Definition dirname (p : string) : string :=
  let head := upto_last_slash p in
  if all_slashes head then head else rstrip_slashes head.

(** The exceptions raised in the two modules.  [KeyError] is what a failed
    dictionary lookup raises: the not-found error of the partition
    queries.  [DriveError] is declared in mbdrive.py.  [NameError] is what
    evaluating a name that is bound nowhere raises: kernelstub.py uses
    [FileOpsError], [ConfigError] and [CmdLineError] but neither defines nor
    imports them. *)
Inductive exn : Set :=
| KeyError
| IndexError
| TypeError
| OSError
| NameError
| DriveError
| RecursionError.

(** The outcome of a call: a value or a raised exception. *)
Inductive result (A : Type) : Type :=
| Ok (a : A)
| Raise (e : exn).
Arguments Ok {A} a.
Arguments Raise {A} e.

End Py.


(** ** kernelstub.py *)

Module Kernelstub.

Import Py.

(** *** The host *)

(** One entry of the firmware boot manager: its boot number and its
    description (the label given at creation). *)
Record BootEntry : Set := { boot_num : nat; description : string }.

(** The external commands the script builds, with their arguments. *)
Inductive Command : Set :=
| Efibootmgr
| EfibootmgrDelete (index : string)
| EfibootmgrCreate (device partition label loader root initrd cmdline : string).

(** What the script can observe and change on the host. *)
Record World : Type := {
  firmware : list BootEntry;          (* NVRAM boot entries, in listing order *)
  executed : list Command;            (* commands run, most recent first *)
  shell : list string;                (* their command lines, as handed to the shell *)
  proc_partitions : option (list string); (* lines of /proc/partitions, if readable *)
  st_dev : string -> option (Z * Z);  (* (major, minor) of a path's file system *)
  dirs : list string;                 (* existing directories *)
  makedirs_ok : string -> bool;       (* whether os.makedirs succeeds *)
  copy_ok : string -> string -> bool; (* whether shutil.copy succeeds *)
  copied : list (string * string);    (* copies made, most recent first *)
}.

(** The double-quote character. *)
Definition dquote : ascii := "034"%char.

(** The command line, as the script concatenates it: the string that
    [run_command] is called with. *)
Definition command_line (c : Command) : string :=
  match c with
  | Efibootmgr => "efibootmgr"
  | EfibootmgrDelete index => "efibootmgr -B -b " +:+ index
  | EfibootmgrCreate device partition label loader root initrd cmdline =>
      "efibootmgr -d " +:+ device +:+ " -p " +:+ partition +:+ " -c -L " +:+
      String dquote label +:+ String dquote " -l " +:+ loader +:+ " -u " +:+
      String dquote "root=UUID=" +:+ root +:+ " initrd=" +:+ initrd +:+
      " ro " +:+ cmdline +:+ String dquote EmptyString
  end.

(** The world after command [c] ran and left the boot entries [fw]: its
    command line went to the shell. *)
Definition after_command (c : Command) (fw : list BootEntry) (w : World)
  : World :=
  {| firmware := fw; executed := c :: executed w;
     shell := command_line c :: shell w;
     proc_partitions := proc_partitions w;
     st_dev := st_dev w; dirs := dirs w; makedirs_ok := makedirs_ok w;
     copy_ok := copy_ok w; copied := copied w |}.

Definition add_dir (d : string) (w : World) : World :=
  {| firmware := firmware w; executed := executed w; shell := shell w;
     proc_partitions := proc_partitions w;
     st_dev := st_dev w; dirs := d :: dirs w; makedirs_ok := makedirs_ok w;
     copy_ok := copy_ok w; copied := copied w |}.

Definition add_copy (src dest : string) (w : World) : World :=
  {| firmware := firmware w; executed := executed w; shell := shell w;
     proc_partitions := proc_partitions w;
     st_dev := st_dev w; dirs := dirs w; makedirs_ok := makedirs_ok w;
     copy_ok := copy_ok w; copied := (src, dest) :: copied w |}.

(** *** State and exceptions *)

Definition M (A : Type) : Type := World -> result A * World.

Definition ret {A} (a : A) : M A := fun w => (Ok a, w).
Definition raise {A} (e : exn) : M A := fun w => (Raise e, w).
Definition bind {A B} (m : M A) (k : A -> M B) : M B :=
  fun w => match m w with
           | (Ok a, w') => k a w'
           | (Raise e, w') => (Raise e, w')
           end.

(** [try: x = m  except E: ...] followed by [k x], for a name [E] that is
    bound nowhere in the script.  When [m] raises, the [except] clause
    evaluates [E] to match the exception, and that raises [NameError]: the
    handler is never entered, whatever it says. *)
Definition try_except_unbound {A B} (m : M A) (k : A -> M B) : M B :=
  fun w => match m w with
           | (Ok a, w') => k a w'
           | (Raise _, w') => (Raise NameError, w')
           end.

(** [try: m  except: h], the bare [except] that catches everything. *)
Definition try_except_all {A} (m : M A) (h : M A) : M A :=
  fun w => match m w with
           | (Ok a, w') => (Ok a, w')
           | (Raise _, w') => h w'
           end.

Declare Scope py_scope.
Delimit Scope py_scope with py.
Notation "'let*' x := m 'in' k" := (bind m (fun x => k))
  (at level 10, x name, m at level 100, k at level 200) : py_scope.
Notation "m ;; k" := (bind m (fun _ => k))
  (at level 100, k at level 200, right associativity) : py_scope.
Local Open Scope py_scope.

(** *** The firmware boot manager *)

Definition hex_digit (n : nat) : ascii :=
  nth (n mod 16)
      (list_ascii_of_string "0123456789ABCDEF") "0"%char.

(** A boot number as the boot manager prints it: four hex digits. *)
Definition hex4 (n : nat) : string :=
  String (hex_digit (n / 4096)) (String (hex_digit (n / 256))
    (String (hex_digit (n / 16)) (String (hex_digit n) ""))).

(** The line of the listing for one entry, such as [Boot0001* Ubuntu]. *)
Definition entry_line (e : BootEntry) : string :=
  "Boot" +:+ hex4 (boot_num e) +:+ "* " +:+ description e.

Definition listing (fw : list BootEntry) : string :=
  Py.join "010" (map entry_line fw).

(** The lowest boot number not in use. *)
Definition free_num (fw : list BootEntry) : nat :=
  default 0
    (List.find (fun n => negb (existsb (Nat.eqb n) (map boot_num fw)))
               (seq 0 (S (length fw)))).

(** Deleting removes the entry printed with the given boot number. *)
Definition delete_entry (index : string) (fw : list BootEntry)
  : list BootEntry :=
  List.filter (fun e => negb (String.eqb (hex4 (boot_num e)) index)) fw.

(** Creating appends an entry under the lowest free boot number. *)
Definition create_entry (label : string) (fw : list BootEntry)
  : list BootEntry :=
  fw ++ [{| boot_num := free_num fw; description := label |}].

(** A stand-in for the firmware tool: what [subprocess.getoutput] of a
    command does to the boot entries and prints.  It acts on the
    command's arguments; quoting by the shell is outside the model.
    Deleting and creating print the new listing. *)
Definition efibootmgr (c : Command) (fw : list BootEntry)
  : string * list BootEntry :=
  match c with
  | Efibootmgr => (listing fw, fw)
  | EfibootmgrDelete index =>
      let fw' := delete_entry index fw in
      (listing fw', fw')
  | EfibootmgrCreate _ _ label _ _ _ _ =>
      let fw' := create_entry label fw in
      (listing fw', fw')
  end.

(** [subprocess.getoutput(command)]. *)
Definition getoutput (c : Command) : M string :=
  fun w => let '(out, fw) := efibootmgr c (firmware w) in
           (Ok out, after_command c fw w).

(** *** The functions of the script *)

(** [run_command(command, simulate)]: run or simulate a command. *)
Definition run_command (command : Command) (simulate : bool) : M string :=
  if simulate then
    let output := "Simulating: " +:+ command_line command in
    ret output
  else getoutput command.

(** [os.stat(path).st_dev]; a path that cannot be examined raises. *)
Definition os_stat_dev (path : string) : M (Z * Z) :=
  fun w => match st_dev w path with
           | Some dev => (Ok dev, w)
           | None => (Raise OSError, w)
           end.

Definition get_maj (path : string) : M Z :=
  let* dev := os_stat_dev path in
  let major := fst dev in
  ret major.

Definition get_min (path : string) : M Z :=
  let* dev := os_stat_dev path in
  let minor := snd dev in
  ret minor.

(** The body of the [try] of [_parse_proc_partitions]: [None] stands for
    any exception, from [int] or from an index out of range. *)
Definition parse_line (line : string) : option ((Z * Z) * string) :=
  let fields := Py.split line in
  tmaj ← fields !! 0%nat ≫= Py.int;
  tmin ← fields !! 1%nat ≫= Py.int;
  name ← fields !! 3%nat;
  Some ((tmaj, tmin), name).

(** The loop of [_parse_proc_partitions] over the lines of the file. *)
Fixpoint parse_lines (res : gmap (Z * Z) string) (f : list string)
  : gmap (Z * Z) string :=
  match f with
  | [] => res
  | line :: f' =>
      match parse_line line with
      | Some (key, name) => parse_lines (<[key := name]> res) f'
      | None => parse_lines res f'
      end
  end.

(** A data line of the partition table, in the words of the specification:
    at least four whitespace-delimited fields, the first two of them
    integers [major] and [minor], the fourth the [name]. *)
Definition data_line (line : string) (major minor : Z) (name : string) : Prop :=
  ∃ f0 f1 f2 rest,
    Py.split line = f0 :: f1 :: f2 :: name :: rest ∧
    Py.int f0 = Some major ∧ Py.int f1 = Some minor.

(** No line of [f] makes an entry for [key]. *)
Definition no_line_for (key : Z * Z) (f : list string) : Prop :=
  ∀ line name, line ∈ f → parse_line line ≠ Some (key, name).

Definition _parse_proc_partitions : M (gmap (Z * Z) string) :=
  fun w => match proc_partitions w with
           | Some f => (Ok (parse_lines ∅ f), w)
           | None => (Raise OSError, w)
           end.

(** [d[key]]. *)
Definition dict_get {K V} `{Countable K} (d : gmap K V) (key : K) : M V :=
  match d !! key with
  | Some v => ret v
  | None => raise KeyError
  end.

Definition get_drive_name (path : string) : M string :=
  let* major := get_maj path in
  let* dInfo := _parse_proc_partitions in
  let* name := dict_get dInfo (major, 0%Z) in
  ret name.

Definition get_part_name (path : string) : M string :=
  let* major := get_maj path in
  let* minor := get_min path in
  let* pInfo := _parse_proc_partitions in
  let* name := dict_get pInfo (major, minor) in
  ret name.

(** The loop of [find_os_entry], entered with the current [findIndex]. *)
Fixpoint find_os_entry_from (findIndex : Z) (nvram : list string)
    (osLabel : string) : Z :=
  match nvram with
  | [] => (-1)%Z
  | i :: nvram' =>
      if Py.contains osLabel i then findIndex
      else find_os_entry_from (findIndex + 1)%Z nvram' osLabel
  end.

Definition find_os_entry (nvram : list string) (osLabel : string) : Z :=
  find_os_entry_from 0%Z nvram osLabel.

Definition del_boot_entry (index : string) (sim : bool) : M string :=
  let command := EfibootmgrDelete index in
  run_command command sim.

Definition add_boot_entry
    (device partition label loader root initrd cmdline : string)
    (sim : bool) : M string :=
  let command :=
    EfibootmgrCreate device partition label loader root initrd cmdline in
  run_command command sim.

(** [shutil.copy(src, dest)]. *)
Definition shutil_copy (src dest : string) : M unit :=
  fun w => if copy_ok w src dest then (Ok tt, add_copy src dest w)
           else (Raise OSError, w).

(** The handler of [copy_files] reads [raise FileOpsError(...)]: the name
    is not bound, so what it raises is [NameError]. *)
Definition copy_files (src dest : string) (simulate : bool) : M bool :=
  if simulate then ret true
  else try_except_all (shutil_copy src dest ;; ret true)
                      (raise NameError).

Definition ensure_dir (file_path : string) : M unit :=
  let directory := Py.dirname file_path in
  fun w =>
    if bool_decide (directory ∈ dirs w) then (Ok tt, w)
    else if makedirs_ok w directory then (Ok tt, add_dir directory w)
    else (Raise OSError, w).

(** *** [main], from the NVRAM query on

    The first part of [main] (argument parsing, logging set-up, discovery
    of the kernel and initrd paths, the kernel options, the partition and
    OS look-ups) only computes the values below. *)
Record Resolved : Set := {
  linuxPath : string;
  initrdPath : string;
  kernelOpts : string;
  driveName : string;
  espNum : string;
  rootUuid : string;
  osName : string;
  osVer : string;
  noRun : bool;
}.

Definition osLabel (a : Resolved) : string := osName a +:+ " " +:+ osVer a.
Definition osDirName (a : Resolved) : string := osName a +:+ "-kernelstub/".
Definition workDir (a : Resolved) : string := "/boot/efi/EFI/" +:+ osDirName a.
Definition linuxName : string := "linux64.efi".
Definition linuxDest (a : Resolved) : string := workDir a +:+ linuxName.
Definition initrdName : string := "initrd.img".
Definition initrdDest (a : Resolved) : string := workDir a +:+ initrdName.

(** "NVRAM information": the listing, the index of the OS entry and the
    boot number read off the line at that index. *)
Definition nvram_information (a : Resolved) : M (Z * string) :=
  let* out := run_command Efibootmgr false in
  let nvram := Py.split_on "010" out in
  let entryIndex := find_os_entry nvram (osLabel a) in
  match Py.getitem nvram entryIndex with
  | Some line => let orderNum := Py.slice 4 8 line in
                 ret (entryIndex, orderNum)
  | None => raise IndexError
  end.

(** "Check for an existing NVRAM entry and remove it if present", then
    add the new entry. *)
Definition replace_entry (a : Resolved) (entryIndex : Z) (orderNum : string)
  : M unit :=
  (if (entryIndex >=? 0)%Z
   then del_boot_entry orderNum (noRun a) ;; ret tt
   else ret tt) ;;
  add_boot_entry ("/dev/" +:+ driveName a) (espNum a) (osLabel a)
                 ("/EFI/" +:+ osDirName a +:+ linuxName) (rootUuid a)
                 ("EFI/" +:+ osDirName a +:+ initrdName) (kernelOpts a)
                 (noRun a) ;;
  ret tt.

(** The three copies stand in [try: ... except FileOpsError:]; the
    handlers ([return 2], [return 3] and [pass]) are never entered. *)
Definition main (a : Resolved) : M Z :=
  let* info := nvram_information a in
  let entryIndex := fst info in
  let orderNum := snd info in
  ensure_dir (workDir a) ;;
  try_except_unbound
    (copy_files (linuxPath a) (linuxDest a) (noRun a)) (fun _ =>
  try_except_unbound
    (copy_files (initrdPath a) (initrdDest a) (noRun a)) (fun _ =>
  replace_entry a entryIndex orderNum ;;
  try_except_unbound
    (copy_files "/proc/cmdline" (workDir a +:+ "cmdline.txt") (noRun a))
    (fun _ => ret 0%Z))).

(** [if __name__ == '__main__': main()]: the value [main] returns is
    dropped, so the process ends with status 0 when [main] returns and
    with status 1, after a traceback, when an exception leaves it. *)
Definition exit_status (r : result Z) : Z :=
  match r with
  | Ok _ => 0
  | Raise _ => 1
  end.

(** The reconciliation step on its own: the NVRAM query followed by the
    replacement, as [main] runs them when the copies succeed. *)
Definition reconcile (a : Resolved) : M unit :=
  let* info := nvram_information a in
  replace_entry a (fst info) (snd info).

(** The entries whose line of the listing contains [label]. *)
Definition matching (label : string) (fw : list BootEntry) : list BootEntry :=
  List.filter (fun e => Py.contains label (entry_line e)) fw.

(** The directory of [workDir] exists or can be made, so that [ensure_dir]
    succeeds and [main] reaches the copies. *)
Definition dir_ready (a : Resolved) (w : World) : Prop :=
  Py.dirname (workDir a) ∈ dirs w ∨ makedirs_ok w (Py.dirname (workDir a)) = true.

(** Every entry is printed on one line of the listing. *)
Definition one_per_line (fw : list BootEntry) : bool :=
  forallb (fun e => Py.one_line (description e)) fw.

(** *** Sample hosts *)

(** A host with the boot entries [fw], the partition table [table], every
    path on device [dev], and a file system on which [src] cannot be copied
    when [unreadable src] holds. *)
Definition host (fw : list BootEntry) (table : list string) (dev : Z * Z)
    (unreadable : string -> bool) : World :=
  {| firmware := fw; executed := []; shell := [];
     proc_partitions := Some table; st_dev := fun _ => Some dev;
     dirs := []; makedirs_ok := fun _ => true;
     copy_ok := fun src _ => negb (unreadable src); copied := [] |}.

Definition sda1_table : list string := ["8 1 104857600 sda1"].

Definition windows_ubuntu : list BootEntry :=
  [ {| boot_num := 0; description := "Windows" |};
    {| boot_num := 1; description := "Ubuntu 22.04" |} ].

Definition ubuntu_twice : list BootEntry :=
  [ {| boot_num := 0; description := "Ubuntu 22.04" |};
    {| boot_num := 1; description := "Ubuntu 22.04" |} ].

Definition ubuntu (simulate : bool) : Resolved :=
  {| linuxPath := "/boot/vmlinuz"; initrdPath := "/boot/initrd.img";
     kernelOpts := "quiet splash"; driveName := "sda"; espNum := "1";
     rootUuid := "0a1b2c3d"; osName := "Ubuntu"; osVer := "22.04";
     noRun := simulate |}.

End Kernelstub.

(** ** mbdrive.py *)

Module Mbdrive.
Import Py.

(** Modelled from the spec: [util.get_drives], which the [mtab] property
    returns, is not part of the sources.  Its result is a dictionary in
    insertion order whose values are the mount records
    [{node, mount_point, fs_type}]. *)
Record MountRecord : Set := {
  node : string;
  mount_point : string;
  fs_type : string;
}.

Definition Mtab : Set := list (string * MountRecord).

(** What a [Drive] reads from the host. *)
Record Host : Type := {
  mtab : Mtab;                        (* util.get_drives() *)
  lsblk : option string;              (* stdout of the probe, if it can run *)
  realpath : string -> string;        (* os.path.realpath *)
  readlink : string -> option string; (* os.readlink *)
}.

(** The attributes [_node] and [_mount_point]; [None] when unset, which
    is what the [node] and [mount_point] properties then return. *)
Record Drive : Set := {
  _node : option string;
  _mount_point : option string;
}.

(** Truth value of an optional string: [None] and the empty string are
    false. *)
Definition truthy (s : option string) : bool :=
  match s with
  | Some (String _ _) => true
  | _ => false
  end.

(** [mtab[mount]]. *)
Definition mtab_getitem (m : Mtab) (mount : string) : option MountRecord :=
  snd <$> List.find (fun kv => String.eqb (fst kv) mount) m.

(** The values of a record, which the inner loop compares with [part]. *)
Definition values (r : MountRecord) : list string :=
  [node r; mount_point r; fs_type r].

(** [part] is one of the values of [r]. *)
Definition carries (part : string) (r : MountRecord) : bool :=
  existsb (String.eqb part) (values r).

(** The outer loop of [equate_node_mountpoint] over the keys of [m]. *)
Fixpoint equate_loop (m : Mtab) (keys : list string) (part : string)
  : result (string * string) :=
  match keys with
  | [] => Raise DriveError
  | mount :: keys' =>
      match mtab_getitem m mount with
      | Some r =>
          if carries part r
          then Ok (node r, mount_point r)
          else equate_loop m keys' part
      | None => Raise KeyError
      end
  end.

Definition equate_node_mountpoint (h : Host) (part : string)
  : result (string * string) :=
  equate_loop (mtab h) (map fst (mtab h)) part.

(** [self.node in self.mtab]: membership among the keys. *)
Definition is_mounted (h : Host) (self : Drive) : bool :=
  match _node self with
  | Some n => existsb (String.eqb n) (map fst (mtab h))
  | None => false
  end.

(** [Drive(node, mount_point)].  The constructor calls
    [equate_node_mountpoint] and drops what it returns; no statement of
    it assigns [node] or [mount_point]. *)
Definition __init__ (h : Host) (node mount_point : option string)
  : result Drive :=
  let self := {| _node := None; _mount_point := None |} in
  let step (cond : bool) (part : option string) (k : result Drive) :=
    if cond then
      match equate_node_mountpoint h (default "" part) with
      | Ok _ => k
      | Raise e => Raise e
      end
    else k in
  step (negb (truthy node) && truthy mount_point) mount_point
    (step (negb (truthy mount_point) && truthy node) node
      (if is_mounted h self then
         if negb (truthy node) && truthy mount_point
         then step true mount_point (Ok self)
         else if negb (truthy mount_point) && truthy node
              then step true node (Ok self)
              else Ok self
       else Ok self)).

(** The two attributes that have a setter. *)
Inductive attr : Set := Node | MountPoint.

(** The [node] and [mount_point] setters, which call each other: setting
    one attribute to a non-empty [value] resolves the other one through
    [equate_node_mountpoint] when it is not set yet.  [depth] bounds the
    nesting of calls, as the interpreter's recursion limit does. *)
Fixpoint set_attr (depth : nat) (h : Host) (which : attr) (self : Drive)
    (value : string) : result Drive :=
  match depth with
  | O => Raise RecursionError
  | S depth' =>
      match which with
      | Node =>
          if truthy (Some value) then
            let self := {| _node := Some value;
                           _mount_point := _mount_point self |} in
            if negb (truthy (_mount_point self)) then
              match equate_node_mountpoint h value with
              | Ok found => set_attr depth' h MountPoint self (snd found)
              | Raise e => Raise e
              end
            else Ok self
          else Raise DriveError
      | MountPoint =>
          if truthy (Some value) then
            let self := {| _node := _node self;
                           _mount_point := Some value |} in
            if negb (truthy (_node self)) then
              match equate_node_mountpoint h value with
              | Ok found => set_attr depth' h Node self (fst found)
              | Raise e => Raise e
              end
            else Ok self
          else Raise DriveError
      end
  end.

(** The loop of [uuid] over the lines of the probe's output. *)
Fixpoint uuid_loop (self : Drive) (fs_list : list string)
  : result (option string) :=
  match fs_list with
  | [] => Ok None
  | fs :: fs_list' =>
      match _node self with
      | None => Raise TypeError
      | Some n =>
          if contains (basename n) fs then
            match last (split fs) with
            | Some uuid => Ok (Some uuid)
            | None => Raise IndexError
            end
          else uuid_loop self fs_list'
      end
  end.

(** The [uuid] property; a result [Ok None] is the [None] the method
    returns when it falls off its end. *)
Definition uuid (h : Host) (self : Drive) : result (option string) :=
  match lsblk h with
  | None => Raise DriveError
  | Some stdout =>
      let fs_list := split_on "010" stdout in
      uuid_loop self fs_list
  end.

(** The [drive_name] property. *)
Definition drive_name (h : Host) (self : Drive) : result string :=
  match _node self with
  | None => Raise TypeError
  | Some n =>
      let efi_name := basename (realpath h n) in
      match readlink h ("/sys/class/block/" +:+ efi_name) with
      | None => Raise OSError
      | Some efi_sys =>
          let disk_sys := dirname efi_sys in
          if contains "virtual" disk_sys then Ok (basename efi_sys)
          else let disk_name := basename disk_sys in
               Ok disk_name
      end
  end.

(** *** Sample hosts *)

Definition mounted (n mp fs : string) : string * MountRecord :=
  (n, {| node := n; mount_point := mp; fs_type := fs |}).

(** A host with the mount table [m] on which the probe prints [out]. *)
Definition host (m : Mtab) (out : string) : Host :=
  {| mtab := m; lsblk := Some out; realpath := fun p => p;
     readlink := fun _ => None |}.

Definition efi_mtab : Mtab :=
  [ mounted "/dev/sda2" "/" "ext4"; mounted "/dev/sda1" "/boot/efi" "vfat" ].

(** Two devices mounted one over the other on [/mnt]. *)
Definition overmounted : Mtab :=
  [ mounted "/dev/sda1" "/mnt" "ext4"; mounted "/dev/sdb1" "/mnt" "ext4" ].

(** The probe's output for a disk [sda] with two partitions. *)
Definition lsblk_sda : string :=
  Py.join "010" ["NAME   UUID"; "sda"; "sda1 1234-ABCD";
                 "sda2 0a1b2c3d-0000-4000-8000-123456789abc"].

End Mbdrive.

(** ** More Python primitives *)

Module PyMore.
Import Py.

(** No character of [s] is whitespace. *)
Fixpoint no_space (s : string) : bool :=
  match s with
  | EmptyString => true
  | String c s' => negb (isspace c) && no_space s'
  end.

(** A field as [split] cuts them: non-empty and free of whitespace. *)
Definition is_word (s : string) : Prop := s ≠ "" ∧ no_space s = true.

End PyMore.

(** ** Worlds reached by a real run of kernelstub.py *)

Module KernelstubRuns.
Import Py Kernelstub.

(** The command [main] builds to add the entry of the running OS. *)
Definition create_command (a : Resolved) : Command :=
  EfibootmgrCreate ("/dev/" +:+ driveName a) (espNum a) (osLabel a)
                   ("/EFI/" +:+ osDirName a +:+ linuxName) (rootUuid a)
                   ("EFI/" +:+ osDirName a +:+ initrdName) (kernelOpts a).

(** The world after the old entry, if one was found, was deleted for real. *)
Definition after_delete (entryIndex : Z) (orderNum : string) (w : World)
  : World :=
  if (entryIndex >=? 0)%Z
  then after_command (EfibootmgrDelete orderNum)
                     (delete_entry orderNum (firmware w)) w
  else w.

(** The world after the replacement ran for real. *)
Definition after_replace (a : Resolved) (entryIndex : Z) (orderNum : string)
    (w : World) : World :=
  let w' := after_delete entryIndex orderNum w in
  after_command (create_command a) (create_entry (osLabel a) (firmware w')) w'.

(** The destination of the copy of /proc/cmdline. *)
Definition cmdlineDest (a : Resolved) : string := workDir a +:+ "cmdline.txt".

End KernelstubRuns.

(** ** kernelstub.py: the first part of [main] *)

Module KernelstubStart.
Import Py PyMore Kernelstub.

(** The exceptions of this part that the later part does not know. *)
Inductive exc : Set :=
| Builtin (e : exn)
| UnboundLocalError.

Inductive outcome (A : Type) : Type :=
| Returns (a : A)
| Throws (e : exc).
Arguments Returns {A} a.
Arguments Throws {A} e.

(** [s[-1]], a one-character string; [None] is [IndexError]. *)
Definition last_char (s : string) : option string :=
  (fun c => String c "") <$> getitem (list_ascii_of_string s) (-1).

(** "Drive and partition information", up to the ESP partition number:
    [driveName], [rootFs], [espFs] and [espNum]. *)
Definition partition_information : M (string * string * string * string) :=
  bind (get_drive_name "/") (fun driveName =>
  bind (get_part_name "/") (fun rootFs =>
  bind (get_part_name "/boot/efi") (fun espFs =>
  match last_char espFs with
  | Some espNum => ret (driveName, rootFs, espFs, espNum)
  | None => raise IndexError
  end))).

(** [s[-a:-b]] for [a >= b >= 1]; like Python it clamps to the string. *)
Definition slice_from_end (a b : nat) (s : string) : string :=
  let n := String.length s in
  String.substring (n - a) ((n - b) - (n - a)) s.

(** The test of the loop of [get_uuid]: [str(i)[-6:-1] == " UUID"]. *)
Definition uuid_tag (i : string) : bool :=
  String.eqb (slice_from_end 6 1 i) " UUID".

(** The loop of [get_uuid]; [index] is [None] as long as the variable is
    not assigned. *)
Fixpoint get_uuid_loop (blockList : list string) (listIndex : nat)
    (index : option nat) : option nat :=
  match blockList with
  | [] => index
  | i :: blockList' =>
      if uuid_tag i
      then get_uuid_loop blockList' (listIndex + 1) (Some (listIndex + 1))
      else get_uuid_loop blockList' (listIndex + 1) index
  end.

(** [get_uuid(fs)].  [blkid] is what [run_command(command, False)] returns
    for a command line: the output of the external process, which does not
    change the host. *)
Definition get_uuid (blkid : string -> string) (fs : string) : outcome string :=
  let command := "blkid /dev/" +:+ fs in
  let blockId := blkid command in
  let blockList := split_on dquote blockId in
  match get_uuid_loop blockList 0 None with
  | None => Throws UnboundLocalError
  | Some index =>
      match blockList !! index with
      | Some fsUuid => Returns fsUuid
      | None => Throws (Builtin IndexError)
      end
  end.

(** A line ends at a line feed or at a carriage return: [open(path, "r")]
    reads with universal newlines. *)
Definition line_end (c : ascii) : bool :=
  Ascii.eqb c "010" || Ascii.eqb c "013".

(** [s] holds no line end. *)
Fixpoint no_line_end (s : string) : bool :=
  match s with
  | EmptyString => true
  | String c s' => negb (line_end c) && no_line_end s'
  end.

(** [f.readline()] on a file just opened in text mode: the first line
    followed by a line feed, whichever line end the file has there, or the
    whole content when it has none. *)
Fixpoint readline (content : string) : string :=
  match content with
  | EmptyString => ""
  | String c content' =>
      if line_end c then String "010" "" else String c (readline content')
  end.

(** What the script finds at a path: nothing, a file it can read, or
    something that exists and cannot be opened for reading, such as a
    directory. *)
Inductive at_path : Set :=
| Missing
| Readable (content : string)
| Unreadable.

(** [check_config(path)].  Where nothing exists at [path] the function
    reads [raise ConfigError(...)]: the name is bound nowhere, which makes
    it a [NameError]. *)
Definition check_config (files : string -> at_path) (path : string)
  : outcome string :=
  match files path with
  | Readable content => let opts := readline content in Returns opts
  | Unreadable => Throws (Builtin OSError)
  | Missing => Throws (Builtin NameError)
  end.

(** "First check for kernel parameters": the value of [kernelOpts], from
    the [--cmdline] argument ([None] when it was not given).  The call of
    [check_config] stands in [try: ... except ConfigError:]; when it
    raises, the clause evaluates the unbound name and [NameError] leaves
    [main], the handler with its [raise CmdLineError(...)] is not entered. *)
Definition kernel_options (files : string -> at_path)
    (cmdline : option string) : outcome string :=
  match cmdline with
  | Some (String c s) => Returns (String c s)
  | _ =>
      let configPath := "/etc/default/kernelstub" in
      match check_config files configPath with
      | Returns kernelOpts => Returns kernelOpts
      | Throws _ => Throws (Builtin NameError)
      end
  end.

(** No entry of [blockList] passes the test of the loop. *)
Definition untagged (blockList : list string) : Prop :=
  Forall (fun i => uuid_tag i = false) blockList.

(** [s] holds no double quote. *)
Fixpoint quote_free (s : string) : bool :=
  match s with
  | EmptyString => true
  | String c s' => negb (Ascii.eqb c dquote) && quote_free s'
  end.

(** A table with a disk and two of its partitions. *)
Definition sda_table : list string :=
  [ "major minor  #blocks  name"; "";
    "   8        0  500107608 sda";
    "   8        1     524288 sda1";
    "   8       12  104857600 sda12" ].

End KernelstubStart.

(** ** mbdrive.py: mounting *)

Module MbdriveMount.
Import Py Mbdrive.

(** The nesting of calls the interpreter allows by default. *)
Definition recursion_limit : nat := 1000.

(** What [subprocess.run] returns, as far as the class reads it. *)
Record Completed : Set := { returncode : Z; stderr : string }.

(** The external commands: from the argument list to the completed process,
    or to the exception raised when the program cannot be started. *)
Definition Runner : Type := list string -> result Completed.

(** [subprocess.run(cmd, capture_output=True)]: an argument that is [None]
    is refused with [TypeError] before anything runs. *)
Definition subprocess_run (run : Runner) (cmd : list (option string))
  : result Completed :=
  match mapM id cmd with
  | Some argv => run argv
  | None => Raise TypeError
  end.

(** [self.mount_drive(mount_point, node, type)]; the result is the drive
    with the attributes the call has set. *)
Definition mount_drive (run : Runner) (h : Host) (self : Drive)
    (mount_point node type : option string) : result Drive :=
  let node := if negb (truthy node) then _node self else node in
  let mount_point :=
    if negb (truthy mount_point) then _mount_point self else mount_point in
  match (if truthy mount_point
         then set_attr recursion_limit h MountPoint self (default "" mount_point)
         else Ok self) with
  | Raise e => Raise e
  | Ok self =>
      let mount_cmd := [Some "sudo"; Some "mount"] in
      let mount_cmd :=
        if truthy type then mount_cmd ++ [Some ("-t " +:+ default "" type)]
        else mount_cmd in
      let mount_cmd := mount_cmd ++ [node; mount_point] in
      match subprocess_run run mount_cmd with
      | Raise e => Raise e
      | Ok result =>
          if negb (returncode result =? 0)%Z then Raise DriveError
          else Ok self
      end
  end.

(** [self.unmount_drive(drive)]. *)
Definition unmount_drive (run : Runner) (self : Drive) (drive : option string)
  : result unit :=
  let drive := if negb (truthy drive) then _node self else drive in
  let umount_cmd := [Some "sudo"; Some "umount"; drive] in
  match subprocess_run run umount_cmd with
  | Raise e => Raise e
  | Ok result =>
      if negb (returncode result =? 0)%Z then Raise DriveError else Ok tt
  end.

(** A runner on which every command succeeds. *)
Definition succeeds : Runner :=
  fun _ => Ok {| returncode := 0; stderr := "" |}.

(** A runner on which every command fails with exit status 32. *)
Definition fails : Runner :=
  fun _ => Ok {| returncode := 32; stderr := "mount: permission denied" |}.

End MbdriveMount.

(** ** The system configuration (mbconfig.py) *)

From stdpp Require Import pretty.

(** [SystemConfiguration] keeps a dictionary in memory and in a JSON file,
    and writes the boot loader's [loader.conf] from it.  Conventions:
    - the values of the dictionary, and the arguments of the setters, are
      the values [json.load] can return: strings, integers, floats,
      booleans, [None], lists and dictionaries;
    - a configuration file holds a JSON object, or text that is not JSON;
    - text is ASCII;
    - the file system is the host's: what [os.path.exists], [os.makedirs]
      and [open] answer for a path is a parameter ([Env]), constant during a
      run except for what the program itself made or wrote, which a later
      read or test sees;
    - [json.load] gives back what [json.dump] wrote. *)
Module Mbconfig.
Import Py Mbdrive.

Definition CURRENT_CONFIGURATION_REVISION : Z := 4.

(** A float, by its value: [Finite m e] is [m * 2^e].  JSON as Python
    reads it also has [NaN], [Infinity] and [-Infinity]. *)
Inductive float_value : Set :=
| Finite (m e : Z)
| Infinity (negative : bool)
| NaN.

(** [printed] is the text of [repr]: Python computes the shortest text that
    reads back as the same float, which is not modelled, so that a float
    comes with it. *)
Record pyfloat : Set := { magnitude : float_value; printed : string }.

#[warnings="-register-all"]
Inductive value : Set :=
| VStr (s : string)
| VInt (z : Z)
| VFloat (f : pyfloat)
| VBool (b : bool)
| VNone
| VList (items : list value)
| VDict (items : list (string * value)).

(** [v == z] for an integer [z]: an integer equals itself, a boolean the
    integer 0 or 1, a float the integer of the same value; nothing else
    equals an integer. *)
Definition eq_int (v : value) (z : Z) : bool :=
  match v with
  | VInt x => (x =? z)%Z
  | VBool b => (Z.b2z b =? z)%Z
  | VFloat f =>
      match magnitude f with
      | Finite m e =>
          if (0 <=? e)%Z then (m * 2 ^ e =? z)%Z
          else (m =? z * 2 ^ (- e))%Z
      | _ => false
      end
  | _ => false
  end.

(** [if v:]. *)
Definition truthy_value (v : value) : bool :=
  match v with
  | VStr s => negb (String.eqb s "")
  | VInt z => negb (z =? 0)%Z
  | VFloat f =>
      match magnitude f with
      | Finite m _ => negb (m =? 0)%Z
      | _ => true
      end
  | VBool b => b
  | VNone => false
  | VList items => negb (bool_decide (length items = 0))
  | VDict items => negb (bool_decide (length items = 0))
  end.

Definition squote : ascii := "039"%char.
Definition backslash : ascii := "092"%char.

Definition hex2 (n : nat) : string :=
  let digits := list_ascii_of_string "0123456789abcdef" in
  String (nth (n / 16 mod 16) digits "0"%char)
    (String (nth (n mod 16) digits "0"%char) "").

(** One character of a string inside the quotes [q], as [repr] writes it. *)
Definition repr_char (q c : ascii) : string :=
  let code := nat_of_ascii c in
  if Ascii.eqb c q || Ascii.eqb c backslash then String backslash (String c "")
  else if Ascii.eqb c "009" then String backslash "t"
  else if Ascii.eqb c "010" then String backslash "n"
  else if Ascii.eqb c "013" then String backslash "r"
  else if (code <? 32) || (code =? 127) then String backslash ("x" +:+ hex2 code)
  else String c "".

Fixpoint repr_chars (q : ascii) (s : string) : string :=
  match s with
  | EmptyString => ""
  | String c s' => repr_char q c +:+ repr_chars q s'
  end.

(** [repr(s)]: in single quotes, or in double quotes when [s] has a single
    quote and no double quote. *)
Definition repr_str (s : string) : string :=
  let q := if contains (String squote "") s
              && negb (contains (String "034" "") s)
           then "034"%char else squote in
  String q (repr_chars q s +:+ String q "").

(** [", ".join(l)]. *)
Fixpoint comma_join (l : list string) : string :=
  match l with
  | [] => ""
  | [x] => x
  | x :: l' => x +:+ ", " +:+ comma_join l'
  end.

(** [repr(v)]. *)
Fixpoint repr (v : value) : string :=
  match v with
  | VStr s => repr_str s
  | VInt z => pretty z
  | VFloat f => printed f
  | VBool b => if b then "True" else "False"
  | VNone => "None"
  | VList items => "[" +:+ comma_join (map repr items) +:+ "]"
  | VDict items =>
      "{" +:+
      comma_join (map (fun kv => let (k, x) := kv : string * value in
                                 repr_str k +:+ ": " +:+ repr x) items)
      +:+ "}"
  end.

(** [str(v)], which is also how an f-string renders [v]. *)
Definition str (v : value) : string :=
  match v with
  | VStr s => s
  | _ => repr v
  end.

Abbreviation Config := (gmap string value).

(** What a file holds: a JSON object, or lines of text that are not JSON,
    such as those of [loader.conf], which start with [#]. *)
Inductive content : Type :=
| Json (c : Config)
| Text (lines : list string).

(** [KeyError] carries the missing key.  [ValueError] is what [int] and
    [json.load] raise, [OverflowError] what [int] raises on an infinite
    float, [AttributeError] what reading [_config_path] raises before it
    is assigned; [Builtin] holds [TypeError], [DriveError] and the
    [OSError]s other than [FileNotFoundError].  [ConfigError] is declared
    in mbconfig.py. *)
Inductive exc : Set :=
| KeyError (key : string)
| ConfigError
| ValueError
| OverflowError
| AttributeError
| FileNotFoundError
| Builtin (e : exn).

Inductive outcome (A : Type) : Type :=
| Returns (a : A)
| Throws (e : exc).
Arguments Returns {A} a.
Arguments Throws {A} e.

(** The host as a run finds it. *)
Record Env : Type := {
  os_path_exists : string -> bool;
  os_makedirs : string -> option exc;   (* [None]: the call returns *)
  open_read : string -> outcome content;
  open_write : string -> option exc;    (* [None]: the file is opened *)
  drives : Host;
}.

(** The attributes of the object; [None] is an attribute not assigned. *)
Record Self : Type := {
  config : Config;
  _config_path : option string;
  esp : option Drive;
}.

(** The object, and what the program has written and made so far, the
    latest first. *)
Record State : Type := {
  self : Self;
  written : list (string * content);
  made : list string;
}.

Definition M (A : Type) : Type := State -> outcome A * State.

Definition ret {A} (a : A) : M A := fun st => (Returns a, st).
Definition raise {A} (e : exc) : M A := fun st => (Throws e, st).
Definition bind {A B} (m : M A) (k : A -> M B) : M B :=
  fun st => match m st with
            | (Returns a, st') => k a st'
            | (Throws e, st') => (Throws e, st')
            end.
Definition lift {A} (r : outcome A) : M A := fun st => (r, st).

Declare Scope cfg_scope.
Delimit Scope cfg_scope with cfg.
Notation "'let*' x := m 'in' k" := (bind m (fun x => k))
  (at level 10, x name, m at level 100, k at level 200) : cfg_scope.
Notation "m ;; k" := (bind m (fun _ => k))
  (at level 100, k at level 200, right associativity) : cfg_scope.
Local Open Scope cfg_scope.

(** [try: body  except FileNotFoundError: handler]. *)
Definition except_FileNotFoundError {A} (body handler : M A) : M A :=
  fun st => match body st with
            | (Throws FileNotFoundError, st') => handler st'
            | r => r
            end.

(** The state after an assignment to an attribute, a write and a [makedirs]. *)
Definition assigned (f : Self -> Self) (st : State) : State :=
  {| self := f (self st); written := written st; made := made st |}.

Definition wrote (p : string) (c : content) (st : State) : State :=
  {| self := self st; written := (p, c) :: written st; made := made st |}.

Definition did_make (p : string) (st : State) : State :=
  {| self := self st; written := written st; made := p :: made st |}.

Definition with_config (c : Config) (s : Self) : Self :=
  {| config := c; _config_path := _config_path s; esp := esp s |}.

Definition with_item (key : string) (v : value) (s : Self) : Self :=
  with_config (<[key := v]> (config s)) s.

Definition with_self (f : Self -> Self) : M unit :=
  fun st => (Returns tt, assigned f st).

(** [self.config = c]. *)
Definition set_config (c : Config) : M unit := with_self (with_config c).

(** [self.config[key]]. *)
Definition getitem (key : string) : M value :=
  fun st => match config (self st) !! key with
            | Some v => (Returns v, st)
            | None => (Throws (KeyError key), st)
            end.

(** [self.config[key] = v]. *)
Definition setitem (key : string) (v : value) : M unit :=
  with_self (with_item key v).

(** *** Python and the host *)

(** The whitespace [int] drops around a literal: space, tab, line feed,
    vertical tab, form feed and carriage return. *)
Definition int_space (c : ascii) : bool :=
  let code := nat_of_ascii c in
  ((9 <=? code) && (code <=? 13)) || (code =? 32).

Fixpoint lstrip (s : string) : string :=
  match s with
  | String c s' => if int_space c then lstrip s' else s
  | EmptyString => ""
  end.

Fixpoint all_space (s : string) : bool :=
  match s with
  | EmptyString => true
  | String c s' => int_space c && all_space s'
  end.

Fixpoint rstrip (s : string) : string :=
  match s with
  | EmptyString => ""
  | String c s' => if all_space s then "" else String c (rstrip s')
  end.

(** [int(v)]: an integer as it is, a boolean as 0 or 1, a float cut
    towards zero, a string read as a literal with the whitespace around it
    dropped. *)
Definition int_of (v : value) : outcome Z :=
  match v with
  | VInt z => Returns z
  | VBool b => Returns (Z.b2z b)
  | VStr s =>
      match int (rstrip (lstrip s)) with
      | Some z => Returns z
      | None => Throws ValueError
      end
  | VFloat f =>
      match magnitude f with
      | Finite m e =>
          Returns (if (0 <=? e)%Z then m * 2 ^ e else Z.quot m (2 ^ (- e)))%Z
      | Infinity _ => Throws OverflowError
      | NaN => Throws ValueError
      end
  | VNone | VList _ | VDict _ => Throws (Builtin TypeError)
  end.

Fixpoint endswith_slash (s : string) : bool :=
  match s with
  | EmptyString => false
  | String c EmptyString => Ascii.eqb c "/"
  | String _ s' => endswith_slash s'
  end.

(** [os.path.join(a, b)], which takes strings. *)
Definition os_path_join (a : value) (b : string) : outcome string :=
  match a with
  | VStr a =>
      Returns (if startswith "/" b then b
               else if String.eqb a "" || endswith_slash a then a +:+ b
                    else a +:+ "/" +:+ b)
  | _ => Throws (Builtin TypeError)
  end.

(** [p] is [q] or a directory above it. *)
Definition above (p q : string) : bool :=
  String.eqb p q || startswith (p +:+ "/") q.

Section OnHost.
Variable env : Env.

(** [os.path.exists(p)]: the empty path never exists. *)
Definition path_exists (p : string) : M bool :=
  fun st =>
    (Returns (negb (String.eqb p "") &&
              (existsb (above p) (made st ++ map fst (written st))
               || os_path_exists env p)), st).

(** [os.makedirs(p)], which raises [FileNotFoundError] on the empty path. *)
Definition makedirs (p : string) : M unit :=
  fun st =>
    if String.eqb p "" then (Throws FileNotFoundError, st)
    else match os_makedirs env p with
         | None => (Returns tt, did_make p st)
         | Some e => (Throws e, st)
         end.

(** [with open(p) as f: json.load(f)]. *)
Definition load (p : string) : M Config :=
  fun st =>
    let found :=
      match List.find (fun w => String.eqb (fst w) p) (written st) with
      | Some w => Returns (snd w)
      | None => open_read env p
      end in
    match found with
    | Returns (Json c) => (Returns c, st)
    | Returns (Text _) => (Throws ValueError, st)
    | Throws e => (Throws e, st)
    end.

(** [with open(p, mode='w') as f:] followed by the writing of [c]. *)
Definition write (p : string) (c : content) : M unit :=
  fun st =>
    match open_write env p with
    | None => (Returns tt, wrote p c st)
    | Some e => (Throws e, st)
    end.

(** [drive.Drive(mount_point=v)].  The values of a mount record are
    strings, and nothing but a string equals one: another value that is
    true is looked up and not found, one that is false is not looked up. *)
Definition new_drive (v : value) : outcome Drive :=
  let built :=
    match v with
    | VStr s => Mbdrive.__init__ (drives env) None (Some s)
    | _ => if truthy_value v then Raise DriveError
           else Mbdrive.__init__ (drives env) None None
    end in
  match built with
  | Ok d => Returns d
  | Raise e => Throws (Builtin e)
  end.

(** *** The class *)

(** The getters. *)
Definition config_rev : M value := getitem "config_rev".
Definition esp_path : M value := getitem "esp_path".
Definition default_entry : M value := getitem "default_entry".
Definition menu_timeout : M value := getitem "menu_timeout".
Definition config_path : M string :=
  fun st => match _config_path (self st) with
            | Some p => (Returns p, st)
            | None => (Throws AttributeError, st)
            end.

Definition nl : string := String "010" "".

(** The lines of [loader.conf]. *)
Definition loader_lines (entry timeout : value) : list string :=
  [ "## THIS FILE IS AUTOMATICALLY GENERATED!" +:+ nl;
    "## To modify this file, use `kernelstub`" +:+ nl +:+ nl;
    "default " +:+ str entry +:+ nl;
    "timeout " +:+ str timeout +:+ nl ].

Definition save_loader_conf : M unit :=
  let* e := esp_path in
  let* loader_conf_path := lift (os_path_join e "loader/loader.conf") in
  let* entry := default_entry in
  let* timeout := menu_timeout in
  write loader_conf_path (Text (loader_lines entry timeout)).

Definition save_config : M unit :=
  let* p := config_path in
  (fun st => write p (Json (config (self st))) st) ;;
  save_loader_conf.

(** The setters. *)
Definition set_config_rev (revision : value) : M unit :=
  setitem "config_rev" revision.

Definition set_esp_path (v : value) : M unit :=
  if truthy_value v then setitem "esp_path" v ;; save_config else ret tt.

Definition set_default_entry (entry_id : value) : M unit :=
  if truthy_value entry_id
  then setitem "default_entry" entry_id ;; save_config
  else ret tt.

Definition set_menu_timeout (timeout : value) : M unit :=
  let* z := lift (int_of timeout) in
  setitem "menu_timeout" (VInt z) ;;
  save_config.

Definition update_config : M unit :=
  let* rev := config_rev in
  if eq_int rev CURRENT_CONFIGURATION_REVISION then ret tt
  else raise ConfigError.

Definition load_config : M unit :=
  let* p := config_path in
  let config_dir := dirname p in
  let* there := path_exists config_dir in
  (if there then ret tt else makedirs config_dir) ;;
  except_FileNotFoundError
    (let* p := config_path in
     let* c := load p in
     set_config c)
    (set_esp_path (VStr "/boot/efi") ;;
     set_menu_timeout (VInt 0) ;;
     set_config_rev (VInt CURRENT_CONFIGURATION_REVISION)).

Definition set_config_path (path : string) : M unit :=
  if negb (String.eqb path "")
  then with_self (fun s => {| config := config s; _config_path := Some path;
                              esp := esp s |}) ;;
       load_config
  else ret tt.

(** [SystemConfiguration.__init__], run on an object without attributes. *)
Definition __init__ (path : string) : M unit :=
  set_config ∅ ;;
  set_config_path path ;;
  update_config ;;
  set_config_rev (VInt CURRENT_CONFIGURATION_REVISION) ;;
  let* e := esp_path in
  let* d := lift (new_drive e) in
  with_self (fun s => {| config := config s; _config_path := _config_path s;
                         esp := Some d |}).

End OnHost.

(** An object before [__init__], on a host where the program has written
    [w] and made [m]. *)
Definition blank (w : list (string * content)) (m : list string) : State :=
  {| self := {| config := ∅; _config_path := None; esp := None |};
     written := w; made := m |}.

(** [SystemConfiguration(path)] on a host the program has not touched, and
    the same in a later run of the program. *)
Definition construct (env : Env) (path : string) : outcome unit * State :=
  __init__ env path (blank [] []).

Definition construct_again (env : Env) (path : string) (st : State)
  : outcome unit * State :=
  __init__ env path (blank (written st) (made st)).

(** *** Sample host *)

(** A host with the directories [/etc/kernelstub] and [/boot/efi/loader],
    on which [/etc/kernelstub/system] holds [c] if any. *)
Definition sample (c : option Config) : Env :=
  {| os_path_exists := fun p =>
       bool_decide (p ∈ ["/etc/kernelstub"; "/boot/efi/loader"]);
     os_makedirs := fun _ => None;
     open_read := fun p =>
       match c with
       | Some c => if String.eqb p "/etc/kernelstub/system"
                   then Returns (Json c) else Throws FileNotFoundError
       | None => Throws FileNotFoundError
       end;
     open_write := fun p =>
       if bool_decide (dirname p ∈ ["/etc/kernelstub"; "/boot/efi/loader"])
       then None else Some FileNotFoundError;
     drives := Mbdrive.host efi_mtab lsblk_sda |}.

End Mbconfig.

(** * Properties *)

(** ** Strings *)

Section StringFacts.
Import Py.

Lemma sapp_nil_l (s : string) : "" +:+ s = s.
Proof. reflexivity. Qed.

Lemma sapp_cons (c : ascii) (s t : string) :
  String c s +:+ t = String c (s +:+ t).
Proof. reflexivity. Qed.

Lemma sapp_nil_r (s : string) : s +:+ "" = s.
Proof. induction s as [|c s IH]; [done|]. by rewrite sapp_cons, IH. Qed.

Lemma sapp_assoc (s t u : string) : (s +:+ t) +:+ u = s +:+ t +:+ u.
Proof.
  induction s as [|c s IH]; [done|]. by rewrite !sapp_cons, IH.
Qed.

Lemma startswith_spec (p s : string) :
  startswith p s = true ↔ ∃ post, s = p +:+ post.
Proof.
  revert s. induction p as [|a p IH]; intros s; simpl.
  - split; [intros _; by exists s | done].
  - destruct s as [|b s].
    + split; [done | intros [post Hp]; discriminate Hp].
    + rewrite andb_true_iff, Ascii.eqb_eq, IH. split.
      * intros [-> [post ->]]. by exists post.
      * intros [post Hp]. rewrite sapp_cons in Hp.
        injection Hp as -> ->. eauto.
Qed.

(** [contains] decides [is_substring]. *)
Lemma contains_spec (sub s : string) :
  contains sub s = true ↔ is_substring sub s.
Proof.
  unfold is_substring. induction s as [|c s IH].
  - simpl. rewrite orb_false_r, startswith_spec. split.
    + intros [post Hp]. by exists "", post.
    + intros [[|a pre] [post Hp]]; [by exists post|discriminate Hp].
  - cbn [contains]. rewrite orb_true_iff, startswith_spec, IH. split.
    + intros [[post Hp] | (pre & post & Hp)].
      * by exists "", post.
      * exists (String c pre), post. by rewrite sapp_cons, Hp.
    + intros [[|a pre] [post Hp]].
      * left. by exists post.
      * right. rewrite sapp_cons in Hp. injection Hp as -> ->. eauto.
Qed.

Lemma contains_false (sub s : string) :
  contains sub s = false ↔ ¬ is_substring sub s.
Proof. rewrite <- contains_spec. by destruct (contains sub s). Qed.

Lemma contains_empty (s : string) : contains "" s = true.
Proof. by destruct s. Qed.

End StringFacts.

(** ** Looking up the OS entry *)

Section FindOsEntry.
Import Py Kernelstub.

Lemma find_os_entry_from_range (k : Z) (nvram : list string) (l : string) :
  find_os_entry_from k nvram l = (-1)%Z ∨
  (k ≤ find_os_entry_from k nvram l < k + Z.of_nat (length nvram))%Z.
Proof.
  revert k. induction nvram as [|i nvram IH]; intros k; simpl; [by left|].
  destruct (contains l i); [right; lia|].
  destruct (IH (k + 1)%Z) as [->|?]; [by left | right; lia].
Qed.

(** The loop returns [k + n] exactly when line [n] is the first one that
    contains the label. *)
Lemma find_os_entry_from_first (k : Z) (nvram : list string) (l : string)
    (n : nat) :
  (0 ≤ k)%Z →
  find_os_entry_from k nvram l = (k + Z.of_nat n)%Z ↔
    (∃ line, nvram !! n = Some line ∧ is_substring l line) ∧
    (∀ j line, j < n → nvram !! j = Some line → ¬ is_substring l line).
Proof.
  revert k n. induction nvram as [|i nvram IH]; intros k n Hk; simpl.
  - split; [lia | by intros [(line & Hl & _) _]].
  - destruct (contains l i) eqn:Hc.
    + apply contains_spec in Hc. split.
      * intros Hn. assert (n = 0) as -> by lia. split; [eauto|]. lia.
      * intros [_ Hfirst]. destruct n as [|n]; [lia|].
        destruct (Hfirst 0 i); [lia | done | done].
    + apply contains_false in Hc. destruct n as [|n].
      * split.
        -- intros Hn. destruct (find_os_entry_from_range (k + 1) nvram l); lia.
        -- intros [(line & [= <-] & Hl) _]. done.
      * replace (k + Z.of_nat (S n))%Z with (k + 1 + Z.of_nat n)%Z by lia.
        rewrite IH by lia. simpl. split.
        -- intros [Hex Hfirst]. split; [done|].
           intros [|j] line Hj; simpl; [by intros [= <-]|].
           apply Hfirst. lia.
        -- intros [Hex Hfirst]. split; [done|].
           intros j line Hj Hline. apply (Hfirst (S j)); [lia | done].
Qed.

Lemma find_os_entry_from_none (k : Z) (nvram : list string) (l : string) :
  (0 ≤ k)%Z →
  find_os_entry_from k nvram l = (-1)%Z ↔
    ∀ line, line ∈ nvram → ¬ is_substring l line.
Proof.
  revert k. induction nvram as [|i nvram IH]; intros k Hk; simpl.
  - split; [|done]. intros _ line Hin. by apply elem_of_nil in Hin.
  - destruct (contains l i) eqn:Hc.
    + apply contains_spec in Hc. split; [lia|].
      intros Hall. destruct (Hall i); [left | done].
    + apply contains_false in Hc. rewrite IH by lia. split.
      * intros Hall line [->|Hin]%elem_of_cons; auto.
      * intros Hall line Hin. apply Hall. by right.
Qed.

Lemma find_os_entry_first (nvram : list string) (l : string) (n : nat) :
  find_os_entry nvram l = Z.of_nat n ↔
    (∃ line, nvram !! n = Some line ∧ is_substring l line) ∧
    (∀ j line, j < n → nvram !! j = Some line → ¬ is_substring l line).
Proof.
  unfold find_os_entry. by rewrite <- (find_os_entry_from_first 0 nvram l n).
Qed.

Lemma find_os_entry_none (nvram : list string) (l : string) :
  find_os_entry nvram l = (-1)%Z ↔
    ∀ line, line ∈ nvram → ¬ is_substring l line.
Proof. by apply find_os_entry_from_none. Qed.

(** C6: [find_os_entry] returns the 0-based position of the first line
    that contains the label as a substring, and [-1] (not found) exactly
    when no line contains it.  For the listing [Boot0000* Windows],
    [Boot0001* Ubuntu 22.04] and the label [Ubuntu 22.04] it returns 1,
    and characters 4 to 8 of that line, which [main] takes as the boot
    number, are [0001]; so does the NVRAM query of [main] on a firmware
    that prints this listing. *)
Theorem find_os_entry_first_match :
  (∀ (nvram : list string) (osLabel : string) (n : nat),
      find_os_entry nvram osLabel = Z.of_nat n ↔
        (∃ line, nvram !! n = Some line ∧ is_substring osLabel line) ∧
        (∀ j line, j < n → nvram !! j = Some line →
                   ¬ is_substring osLabel line)) ∧
  (∀ (nvram : list string) (osLabel : string),
      find_os_entry nvram osLabel = (-1)%Z ↔
        ∀ line, line ∈ nvram → ¬ is_substring osLabel line) ∧
  (∀ (nvram : list string) (osLabel : string),
      find_os_entry nvram osLabel = (-1)%Z ∨
      ∃ n : nat, find_os_entry nvram osLabel = Z.of_nat n) ∧
  let nvram := ["Boot0000* Windows"; "Boot0001* Ubuntu 22.04"] in
  find_os_entry nvram "Ubuntu 22.04" = 1%Z ∧
  slice 4 8 <$> getitem nvram (find_os_entry nvram "Ubuntu 22.04")
    = Some "0001" ∧
  split_on "010" (listing windows_ubuntu) = nvram ∧
  fst (nvram_information (ubuntu false)
         (host windows_ubuntu [] (8, 1)%Z (fun _ => false)))
    = Ok (1%Z, "0001").
Proof.
  split; [|split; [|split]].
  - apply find_os_entry_first.
  - apply find_os_entry_none.
  - intros nvram osLabel. unfold find_os_entry.
    destruct (find_os_entry_from_range 0 nvram osLabel) as [?|?]; [by left|].
    right. exists (Z.to_nat (find_os_entry_from 0 nvram osLabel)). lia.
  - by vm_compute.
Qed.

(** C10: on a non-empty listing the empty label is found at index 0: the
    empty string is a substring of every line. *)
Theorem find_os_entry_empty_label (nvram : list string) :
  nvram ≠ [] → find_os_entry nvram "" = 0%Z.
Proof.
  destruct nvram as [|i nvram]; [done|]. intros _.
  unfold find_os_entry. simpl. by rewrite contains_empty.
Qed.

Lemma find_os_entry_empty_label_witness :
  ["Boot0000* Windows"; "Boot0001* Ubuntu 22.04"] ≠ [] ∧
  find_os_entry ["Boot0000* Windows"; "Boot0001* Ubuntu 22.04"] "" = 0%Z.
Proof.
  split; [discriminate|].
  apply (find_os_entry_empty_label
           ["Boot0000* Windows"; "Boot0001* Ubuntu 22.04"]).
  discriminate.
Defined.

End FindOsEntry.

(** ** Dry run *)

Section DryRun.
Import Py Kernelstub.

(** C7: with [dry_run] set, [del_boot_entry] and [add_boot_entry] run no
    external command: the world, with its boot entries, its record of
    executed commands and of what went to the shell, is unchanged, so a
    listing taken afterwards is the listing taken before.  They return the
    placeholder [Simulating: ] followed by the command line the script
    builds, which is the very string a real call hands to the shell. *)
Theorem dry_run_no_effect :
  let del_line (index : string) := "efibootmgr -B -b " +:+ index in
  let add_line (device partition label loader root initrd cmdline : string) :=
    "efibootmgr -d " +:+ device +:+ " -p " +:+ partition +:+ " -c -L " +:+
    String dquote label +:+ String dquote " -l " +:+ loader +:+ " -u " +:+
    String dquote "root=UUID=" +:+ root +:+ " initrd=" +:+ initrd +:+
    " ro " +:+ cmdline +:+ String dquote "" in
  (∀ (index : string) (w : World),
      del_boot_entry index true w
        = (Ok ("Simulating: " +:+ del_line index), w) ∧
      shell (snd (del_boot_entry index false w)) = del_line index :: shell w ∧
      executed (snd (del_boot_entry index false w))
        = EfibootmgrDelete index :: executed w) ∧
  (∀ (device partition label loader root initrd cmdline : string) (w : World),
      add_boot_entry device partition label loader root initrd cmdline true w
        = (Ok ("Simulating: " +:+
               add_line device partition label loader root initrd cmdline),
           w) ∧
      shell (snd (add_boot_entry device partition label loader root initrd
                                 cmdline false w))
        = add_line device partition label loader root initrd cmdline
            :: shell w ∧
      executed (snd (add_boot_entry device partition label loader root initrd
                                    cmdline false w))
        = EfibootmgrCreate device partition label loader root initrd cmdline
            :: executed w) ∧
  (∀ (index : string) (w : World),
      let w' := snd (del_boot_entry index true w) in
      executed w' = executed w ∧ shell w' = shell w ∧
      firmware w' = firmware w ∧
      fst (run_command Efibootmgr false w')
        = fst (run_command Efibootmgr false w)) ∧
  (∀ (device partition label loader root initrd cmdline : string) (w : World),
      let w' := snd (add_boot_entry device partition label loader root initrd
                                    cmdline true w) in
      executed w' = executed w ∧ shell w' = shell w ∧
      firmware w' = firmware w ∧
      fst (run_command Efibootmgr false w')
        = fst (run_command Efibootmgr false w)).
Proof.
  intros del_line add_line. split_and!; done.
Qed.

(** By contrast a real call runs its command and records it. *)
Lemma real_run_executes (c : Command) (w : World) :
  executed (snd (run_command c false w)) = c :: executed w ∧
  firmware (snd (run_command c false w)) = snd (efibootmgr c (firmware w)).
Proof.
  unfold run_command, getoutput. by destruct (efibootmgr c (firmware w)).
Qed.

End DryRun.

(** ** The partition table *)

Section Partitions.
Import Py Kernelstub.

(** The [try] body succeeds exactly on the data lines. *)
Lemma parse_line_spec (line : string) (major minor : Z) (name : string) :
  parse_line line = Some ((major, minor), name) ↔
  data_line line major minor name.
Proof.
  unfold parse_line, data_line.
  destruct (split line) as [|f0 [|f1 [|f2 [|f3 rest]]]]; simpl.
  1-4: split; [try done | intros (? & ? & ? & ? & [=] & _)].
  1-3: destruct (int f0); simpl; try done; destruct (int f1); done.
  split.
  - destruct (int f0) as [a|] eqn:H0; simpl; [|done].
    destruct (int f1) as [b|] eqn:H1; simpl; [|done].
    intros [= -> -> ->]. by exists f0, f1, f2, rest.
  - intros (g0 & g1 & g2 & rest' & [= <- <- <- <- <-] & -> & ->). done.
Qed.

Lemma snoc_case {A} (l : list A) : l = [] ∨ ∃ l' x, l = l' ++ [x].
Proof. induction l using rev_ind; eauto. Qed.

Lemma parse_lines_app (res : gmap (Z * Z) string) (f1 f2 : list string) :
  parse_lines res (f1 ++ f2) = parse_lines (parse_lines res f1) f2.
Proof.
  revert res. induction f1 as [|line f1 IH]; intros res; simpl; [done|].
  destruct (parse_line line) as [[key name]|]; apply IH.
Qed.

(** The entry under [key] comes from the last data line for [key], or from
    the initial dictionary when there is none. *)
Lemma parse_lines_lookup (res : gmap (Z * Z) string) (f : list string)
    (key : Z * Z) (name : string) :
  parse_lines res f !! key = Some name ↔
    (∃ pre line post, f = pre ++ line :: post ∧
                      parse_line line = Some (key, name) ∧
                      no_line_for key post) ∨
    (res !! key = Some name ∧ no_line_for key f).
Proof.
  induction f as [|l f IH] using rev_ind.
  - simpl. split.
    + intros Hres. right. split; [done|]. intros ?? Hin.
      by apply elem_of_nil in Hin.
    + intros [(pre & line & post & Hf & _) | [Hres _]]; [|done].
      by destruct pre.
  - rewrite parse_lines_app. simpl.
    destruct (parse_line l) as [[key' name']|] eqn:Hl.
    + destruct (decide (key' = key)) as [->|Hne].
      * clear IH. rewrite lookup_insert_eq. split.
        -- intros [= ->]. left. exists f, l, []. split_and!; [done..|].
           intros ?? Hin. by apply elem_of_nil in Hin.
        -- intros [(pre & line & post & Hf & Hline & Hpost) | [_ Hnone]].
           ++ destruct (snoc_case post) as [->|(post' & p & ->)].
              ** apply app_inj_tail in Hf as [_ ->]. congruence.
              ** destruct (Hpost p name'); [set_solver|].
                 rewrite app_comm_cons, app_assoc in Hf.
                 apply app_inj_tail in Hf as [_ ->]. done.
           ++ destruct (Hnone l name'); [set_solver | done].
      * rewrite lookup_insert_ne by done. rewrite IH. clear IH. split.
        -- intros [(pre & line & post & -> & Hline & Hpost) | [Hres Hnone]].
           ++ left. exists pre, line, (post ++ [l]).
              rewrite <- app_assoc. split_and!; [done..|].
              intros l' n' [Hin | ->%list_elem_of_singleton]%elem_of_app;
                [by apply Hpost | congruence].
           ++ right. split; [done|].
              intros l' n' [Hin | ->%list_elem_of_singleton]%elem_of_app;
                [by apply Hnone | congruence].
        -- intros [(pre & line & post & Hf & Hline & Hpost) | [Hres Hnone]].
           ++ destruct (snoc_case post) as [->|(post' & p & ->)].
              ** apply app_inj_tail in Hf as [_ ->]. congruence.
              ** rewrite app_comm_cons, app_assoc in Hf.
                 apply app_inj_tail in Hf as [-> ->].
                 left. exists pre, line, post'. split_and!; [done..|].
                 intros l' n' Hin. apply Hpost. set_solver.
           ++ right. split; [done|]. intros l' n' Hin. apply Hnone. set_solver.
    + rewrite IH. clear IH. split.
      * intros [(pre & line & post & -> & Hline & Hpost) | [Hres Hnone]].
        -- left. exists pre, line, (post ++ [l]).
           rewrite <- app_assoc. split_and!; [done..|].
           intros l' n' [Hin | ->%list_elem_of_singleton]%elem_of_app;
             [by apply Hpost | congruence].
        -- right. split; [done|].
           intros l' n' [Hin | ->%list_elem_of_singleton]%elem_of_app;
             [by apply Hnone | congruence].
      * intros [(pre & line & post & Hf & Hline & Hpost) | [Hres Hnone]].
        -- destruct (snoc_case post) as [->|(post' & p & ->)].
           ++ apply app_inj_tail in Hf as [_ ->]. congruence.
           ++ rewrite app_comm_cons, app_assoc in Hf.
              apply app_inj_tail in Hf as [-> ->].
              left. exists pre, line, post'. split_and!; [done..|].
              intros l' n' Hin. apply Hpost. set_solver.
        -- right. split; [done|]. intros l' n' Hin. apply Hnone. set_solver.
Qed.



End Partitions.

Section PartitionClaims.
Import Py Kernelstub.


(** C4: when the parsed table has no entry for [(major, 0)], the whole-disk
    name query fails with [KeyError], the not-found error of a dictionary;
    when it has none for [(major, minor)], so does the partition name query.
    The world is left as it was. *)
Theorem name_queries_not_found (w : World) (path : string) (major minor : Z)
    (f : list string) :
  st_dev w path = Some (major, minor) →
  proc_partitions w = Some f →
  (parse_lines ∅ f !! (major, 0%Z) = None →
   get_drive_name path w = (Raise KeyError, w)) ∧
  (parse_lines ∅ f !! (major, minor) = None →
   get_part_name path w = (Raise KeyError, w)).
Proof.
  intros Hdev Hf. split; intros Hnone.
  - unfold get_drive_name, get_maj, bind, os_stat_dev.
    rewrite Hdev. simpl. unfold _parse_proc_partitions. rewrite Hf.
    unfold dict_get. simpl. by rewrite Hnone.
  - unfold get_part_name, get_maj, get_min, bind, os_stat_dev.
    rewrite Hdev. simpl. rewrite Hdev. simpl.
    unfold _parse_proc_partitions. rewrite Hf.
    unfold dict_get. simpl. by rewrite Hnone.
Qed.

Lemma name_queries_not_found_witness :
  let w := host [] sda1_table (8, 0)%Z (fun _ => false) in
  (st_dev w "/" = Some (8, 0)%Z ∧ proc_partitions w = Some sda1_table ∧
   parse_lines ∅ sda1_table !! (8, 0)%Z = None) ∧
  get_drive_name "/" w = (Raise KeyError, w) ∧
  get_part_name "/" w = (Raise KeyError, w).
Proof.
  intros w.
  pose proof (name_queries_not_found w "/" 8 0 sda1_table eq_refl eq_refl)
    as [Hdrive Hpart].
  split; [split_and!; by vm_compute|].
  split; [apply Hdrive | apply Hpart]; by vm_compute.
Defined.

End PartitionClaims.

(** ** Copy failures in [main] *)

Section CopyFailures.
Import Py Kernelstub.
Local Open Scope py_scope.

Lemma split_on_nonempty (sep : ascii) (s : string) : split_on sep s ≠ [].
Proof.
  induction s as [|c s IH]; simpl; [done|].
  destruct (Ascii.eqb c sep); [done|]. by destruct (split_on sep s).
Qed.

(** Indexing a non-empty list by a result of [find_os_entry] never raises:
    [-1] is Python's index of the last element. *)
Lemma getitem_in_range {A} (l : list A) (i : Z) :
  l ≠ [] → (i = -1 ∨ 0 ≤ i < Z.of_nat (length l))%Z → is_Some (getitem l i).
Proof.
  intros Hl Hi. unfold getitem.
  assert (0 < length l) by (destruct l; [done | simpl; lia]).
  destruct (Z.leb_spec 0 i).
  - apply lookup_lt_is_Some. lia.
  - assert (i = -1)%Z as -> by lia.
    destruct (Z.leb_spec (- Z.of_nat (length l)) (-1)); [|lia].
    apply lookup_lt_is_Some. lia.
Qed.

(** The NVRAM query always succeeds and only runs the listing command. *)
Lemma nvram_information_ok (a : Resolved) (w : World) :
  ∃ line,
    let nvram := split_on "010" (listing (firmware w)) in
    let entryIndex := find_os_entry nvram (osLabel a) in
    getitem nvram entryIndex = Some line ∧
    nvram_information a w
      = (Ok (entryIndex, slice 4 8 line),
         after_command Efibootmgr (firmware w) w).
Proof.
  set (nvram := split_on "010" (listing (firmware w))).
  destruct (getitem_in_range nvram (find_os_entry nvram (osLabel a)))
    as [line Hline].
  - apply split_on_nonempty.
  - unfold find_os_entry.
    destruct (find_os_entry_from_range 0 nvram (osLabel a)); [by left | right; lia].
  - exists line. simpl. split; [done|].
    unfold nvram_information, bind, run_command, getoutput. simpl.
    fold nvram. by rewrite Hline.
Qed.

Lemma ensure_dir_ok (file_path : string) (w : World) :
  dirname file_path ∈ dirs w ∨ makedirs_ok w (dirname file_path) = true →
  ∃ w', ensure_dir file_path w = (Ok tt, w') ∧
        firmware w' = firmware w ∧ executed w' = executed w ∧
        copy_ok w' = copy_ok w.
Proof.
  intros Hdir. unfold ensure_dir. case_bool_decide as Hin.
  - by exists w.
  - destruct Hdir as [?| ->]; [done|]. by eexists.
Qed.

Lemma run_command_ok (c : Command) (sim : bool) (w : World) :
  ∃ out w', run_command c sim w = (Ok out, w') ∧ copy_ok w' = copy_ok w.
Proof.
  unfold run_command, getoutput, ret. destruct sim; [by eexists _, _|].
  destruct (efibootmgr c (firmware w)) as [out fw]. by eexists _, _.
Qed.

Lemma replace_entry_ok (a : Resolved) (entryIndex : Z) (orderNum : string)
    (w : World) :
  ∃ w', replace_entry a entryIndex orderNum w = (Ok tt, w') ∧
        copy_ok w' = copy_ok w.
Proof.
  unfold replace_entry, bind, del_boot_entry, add_boot_entry.
  destruct (entryIndex >=? 0)%Z.
  - destruct (run_command_ok (EfibootmgrDelete orderNum) (noRun a) w)
      as (out & w1 & -> & Hc1). simpl.
    match goal with |- context [run_command ?c ?s w1] =>
      destruct (run_command_ok c s w1) as (out2 & w2 & -> & Hc2) end.
    exists w2. split; [done | congruence].
  - simpl.
    match goal with |- context [run_command ?c ?s w] =>
      destruct (run_command_ok c s w) as (out2 & w2 & -> & Hc2) end.
    exists w2. split; [done | congruence].
Qed.

Lemma bind_Ok {A B} (m : M A) (k : A → M B) (w w' : World) (x : A) :
  m w = (Ok x, w') → bind m k w = k x w'.
Proof. unfold bind. by intros ->. Qed.

Lemma try_except_unbound_Ok {A B} (m : M A) (k : A → M B)
    (w w' : World) (x : A) :
  m w = (Ok x, w') → try_except_unbound m k w = k x w'.
Proof. unfold try_except_unbound. by intros ->. Qed.

Lemma try_except_unbound_raised {A B} (m : M A) (k : A → M B)
    (w w' : World) (e : exn) :
  m w = (Raise e, w') → try_except_unbound m k w = (Raise NameError, w').
Proof. unfold try_except_unbound. by intros ->. Qed.

Lemma copy_files_done (src dest : string) (w : World) :
  copy_ok w src dest = true →
  copy_files src dest false w = (Ok true, add_copy src dest w).
Proof.
  intros Hok. unfold copy_files, try_except_all, bind, shutil_copy.
  by rewrite Hok.
Qed.

Lemma copy_files_failed (src dest : string) (w : World) :
  copy_ok w src dest = false →
  copy_files src dest false w = (Raise NameError, w).
Proof.
  intros Hok. unfold copy_files, try_except_all, bind, shutil_copy.
  by rewrite Hok.
Qed.

(** A real replacement ends with the creation of the new entry. *)
Lemma replace_entry_creates (a : Resolved) (entryIndex : Z)
    (orderNum : string) (w : World) :
  noRun a = false →
  ∃ w' fw, replace_entry a entryIndex orderNum w = (Ok tt, w') ∧
           copy_ok w' = copy_ok w ∧
           firmware w' = create_entry (osLabel a) fw.
Proof.
  intros Hrun.
  unfold replace_entry, del_boot_entry, add_boot_entry, run_command, bind,
    getoutput. rewrite Hrun.
  destruct (entryIndex >=? 0)%Z; cbn; by eexists _, _.
Qed.

(** C2 fails on the code.  [FileOpsError] is bound nowhere in
    kernelstub.py, so in a real run that reaches the copies a failed copy
    makes [main] raise [NameError]: it returns neither 2 for the kernel
    image nor 3 for the initrd image (the boot entries are untouched and
    only the listing query has run), and a failed copy of /proc/cmdline is
    fatal as well, after the old entry was deleted and the new one
    created.  The process then ends with status 1. *)
Theorem copy_failures_name_error :
  (∀ (a : Resolved) (w : World),
      noRun a = false →
      dir_ready a w →
      (copy_ok w (linuxPath a) (linuxDest a) = false →
       ∃ w', main a w = (Raise NameError, w') ∧
             firmware w' = firmware w ∧
             executed w' = Efibootmgr :: executed w) ∧
      (copy_ok w (linuxPath a) (linuxDest a) = true →
       copy_ok w (initrdPath a) (initrdDest a) = false →
       ∃ w', main a w = (Raise NameError, w') ∧
             firmware w' = firmware w ∧
             executed w' = Efibootmgr :: executed w) ∧
      (copy_ok w (linuxPath a) (linuxDest a) = true →
       copy_ok w (initrdPath a) (initrdDest a) = true →
       copy_ok w "/proc/cmdline" (workDir a +:+ "cmdline.txt") = false →
       ∃ w', main a w = (Raise NameError, w') ∧
             ∃ fw, firmware w' = create_entry (osLabel a) fw)) ∧
  (let a := ubuntu false in
   let no_kernel :=
     host windows_ubuntu [] (8, 1)%Z (String.eqb "/boot/vmlinuz") in
   let no_initrd :=
     host windows_ubuntu [] (8, 1)%Z (String.eqb "/boot/initrd.img") in
   let no_cmdline :=
     host windows_ubuntu [] (8, 1)%Z (String.eqb "/proc/cmdline") in
   (fst (main a no_kernel) = Raise NameError ∧
    exit_status (fst (main a no_kernel)) = 1%Z ∧
    firmware (snd (main a no_kernel)) = windows_ubuntu ∧
    executed (snd (main a no_kernel)) = [Efibootmgr]) ∧
   (fst (main a no_initrd) = Raise NameError ∧
    exit_status (fst (main a no_initrd)) = 1%Z ∧
    firmware (snd (main a no_initrd)) = windows_ubuntu ∧
    executed (snd (main a no_initrd)) = [Efibootmgr]) ∧
   (fst (main a no_cmdline) = Raise NameError ∧
    exit_status (fst (main a no_cmdline)) = 1%Z ∧
    firmware (snd (main a no_cmdline))
      = [ {| boot_num := 0; description := "Windows" |};
          {| boot_num := 1; description := "Ubuntu 22.04" |} ] ∧
    map command_line (executed (snd (main a no_cmdline)))
      = [ command_line
            (EfibootmgrCreate "/dev/sda" "1" "Ubuntu 22.04"
               "/EFI/Ubuntu-kernelstub/linux64.efi" "0a1b2c3d"
               "EFI/Ubuntu-kernelstub/initrd.img" "quiet splash");
          "efibootmgr -B -b 0001"; "efibootmgr" ])).
Proof.
  split; [|by vm_compute].
  intros a w Hrun Hdir.
  destruct (nvram_information_ok a w) as (line & _ & Hinfo). simpl in Hinfo.
  set (w1 := after_command Efibootmgr (firmware w) w) in *.
  destruct (ensure_dir_ok (workDir a) w1) as (w2 & Hens & Hfw & Hex & Hcopy);
    [exact Hdir|].
  change (copy_ok w1) with (copy_ok w) in Hcopy.
  unfold main. rewrite (bind_Ok _ _ _ _ _ Hinfo), (bind_Ok _ _ _ _ _ Hens).
  rewrite Hrun. simpl fst. simpl snd. split_and!.
  - intros Hk.
    erewrite try_except_unbound_raised
      by (apply copy_files_failed; by rewrite Hcopy).
    exists w2. by rewrite Hfw, Hex.
  - intros Hk Hi.
    erewrite try_except_unbound_Ok by (apply copy_files_done; by rewrite Hcopy).
    erewrite try_except_unbound_raised
      by (apply copy_files_failed; simpl; by rewrite Hcopy).
    eexists. split; [done|]. simpl. by rewrite Hfw, Hex.
  - intros Hk Hi Hc.
    erewrite try_except_unbound_Ok by (apply copy_files_done; by rewrite Hcopy).
    erewrite try_except_unbound_Ok
      by (apply copy_files_done; simpl; by rewrite Hcopy).
    match goal with |- context [replace_entry a ?i ?n] =>
      destruct (replace_entry_creates a i n
                  (add_copy (initrdPath a) (initrdDest a)
                     (add_copy (linuxPath a) (linuxDest a) w2)) Hrun)
        as (w4 & fw & Hrep & Hc4 & Hfw4) end.
    rewrite (bind_Ok _ _ _ _ _ Hrep).
    simpl in Hc4. rewrite Hcopy in Hc4.
    erewrite try_except_unbound_raised
      by (apply copy_files_failed; by rewrite Hc4).
    exists w4. split; [done|]. by exists fw.
Qed.

End CopyFailures.

(** ** Reconciliation *)

Section Reconciliation.
Import Py Kernelstub.
Local Open Scope py_scope.

Lemma one_line_app (s t : string) :
  one_line (s +:+ t) = one_line s && one_line t.
Proof.
  induction s as [|c s IH]; [done|].
  rewrite sapp_cons. simpl. rewrite IH. by rewrite andb_assoc.
Qed.

Lemma hex_digit_not_newline (n : nat) : Ascii.eqb (hex_digit n) "010" = false.
Proof.
  unfold hex_digit. pose proof (Nat.mod_upper_bound n 16) as Hlt.
  generalize dependent (n mod 16). intros k Hk.
  do 16 (destruct k as [|k]; [reflexivity|]). lia.
Qed.

Lemma one_line_entry_line (e : BootEntry) :
  one_line (entry_line e) = one_line (description e).
Proof.
  unfold entry_line, hex4. rewrite !one_line_app. simpl.
  by rewrite !hex_digit_not_newline.
Qed.

Lemma split_on_one_line (s : string) :
  one_line s = true → split_on "010" s = [s].
Proof.
  induction s as [|c s IH]; simpl; [done|].
  intros [Hc Hs]%andb_true_iff. apply negb_true_iff in Hc.
  by rewrite Hc, (IH Hs).
Qed.

Lemma split_on_line_break (s t : string) :
  one_line s = true →
  split_on "010" (s +:+ String "010" t) = s :: split_on "010" t.
Proof.
  induction s as [|c s IH]; simpl.
  - done.
  - intros [Hc Hs]%andb_true_iff. apply negb_true_iff in Hc.
    by rewrite Hc, (IH Hs).
Qed.

(** Splitting the printed listing gives back its lines. *)
Lemma split_on_join (lines : list string) :
  lines ≠ [] → forallb one_line lines = true →
  split_on "010" (join "010" lines) = lines.
Proof.
  induction lines as [|l lines IH]; [done|]. intros _.
  simpl. intros [Hl Hlines]%andb_true_iff.
  destruct lines as [|l' lines]; [by apply split_on_one_line|].
  rewrite split_on_line_break by done. f_equal. by apply IH.
Qed.

Lemma listing_lines (fw : list BootEntry) :
  fw ≠ [] → one_per_line fw = true →
  split_on "010" (listing fw) = map entry_line fw.
Proof.
  intros Hfw Hone. unfold listing. apply split_on_join.
  - by destruct fw.
  - unfold one_per_line in Hone. rewrite forallb_forall in *.
    intros l (e & <- & He)%in_map_iff. rewrite one_line_entry_line. by apply Hone.
Qed.

(** Characters 4 to 8 of an entry's line are its boot number. *)
Lemma slice_entry_line (e : BootEntry) :
  slice 4 8 (entry_line e) = hex4 (boot_num e).
Proof. reflexivity. Qed.

Lemma entry_line_contains_description (e : BootEntry) :
  contains (description e) (entry_line e) = true.
Proof.
  apply contains_spec. exists ("Boot" +:+ hex4 (boot_num e) +:+ "* "), "".
  unfold entry_line. by rewrite sapp_nil_r, !sapp_assoc.
Qed.

Lemma filter_filter_comm {A} (p q : A → bool) (l : list A) :
  List.filter p (List.filter q l) = List.filter q (List.filter p l).
Proof.
  induction l as [|x l IH]; [done|]. simpl.
  destruct (q x) eqn:Hq, (p x) eqn:Hp; simpl; rewrite ?Hq, ?Hp, IH; done.
Qed.

Lemma getitem_nat {A} (l : list A) (n : nat) :
  getitem l (Z.of_nat n) = l !! n.
Proof.
  unfold getitem. destruct (Z.leb_spec 0 (Z.of_nat n)); [|lia].
  by rewrite Nat2Z.id.
Qed.

Lemma matching_nil (label : string) (fw : list BootEntry) :
  (∀ e, e ∈ fw → contains label (entry_line e) = false) →
  matching label fw = [].
Proof.
  unfold matching. induction fw as [|e fw IH]; intros Hall; [done|].
  cbn [List.filter]. rewrite (Hall e) by left.
  apply IH. intros e' He'. apply Hall. by right.
Qed.

(** When the label is not found, no entry matches it. *)
Lemma not_found_no_match (fw : list BootEntry) (label : string) :
  one_per_line fw = true →
  find_os_entry (split_on "010" (listing fw)) label = (-1)%Z →
  matching label fw = [].
Proof.
  intros Hone Hfind. destruct (decide (fw = [])) as [->|Hfw]; [done|].
  rewrite listing_lines in Hfind by done.
  rewrite find_os_entry_none in Hfind.
  apply matching_nil. intros e He. apply contains_false, Hfind.
  by apply list_elem_of_fmap_2.
Qed.

(** When the label is found and at most one entry matches it, deleting the
    boot number read off the line found leaves no matching entry. *)
Lemma found_then_deleted (fw : list BootEntry) (label line : string) (n : nat) :
  one_per_line fw = true →
  length (matching label fw) ≤ 1 →
  find_os_entry (split_on "010" (listing fw)) label = Z.of_nat n →
  getitem (split_on "010" (listing fw)) (Z.of_nat n) = Some line →
  matching label (delete_entry (slice 4 8 line) fw) = [].
Proof.
  intros Hone Hatmost Hfind Hline.
  destruct (decide (fw = [])) as [->|Hfw]; [done|].
  rewrite listing_lines in Hfind, Hline by done.
  apply find_os_entry_first in Hfind as [(line' & Hn & Hsub) _].
  rewrite getitem_nat in Hline. rewrite Hline in Hn. injection Hn as <-.
  rewrite list_lookup_fmap in Hline.
  destruct (fw !! n) as [e|] eqn:He; [|done]. injection Hline as <-.
  rewrite slice_entry_line.
  assert (e ∈ matching label fw) as Hin.
  { unfold matching. apply list_elem_of_In, filter_In. split.
    - apply list_elem_of_In. by eapply list_elem_of_lookup_2.
    - by apply contains_spec. }
  assert (matching label fw = [e]) as Hsingle.
  { destruct (matching label fw) as [|e1 [|e2 rest]]; simpl in *.
    - by apply elem_of_nil in Hin.
    - by apply list_elem_of_singleton in Hin as ->.
    - lia. }
  unfold matching, delete_entry in *. rewrite filter_filter_comm, Hsingle.
  cbn [List.filter]. by rewrite String.eqb_refl.
Qed.

Lemma matching_app (label : string) (fw1 fw2 : list BootEntry) :
  matching label (fw1 ++ fw2) = matching label fw1 ++ matching label fw2.
Proof. apply List.filter_app. Qed.

(** What a real run of the replacement leaves in the firmware. *)
Lemma replace_entry_real (a : Resolved) (entryIndex : Z) (orderNum : string)
    (w : World) :
  noRun a = false →
  ∃ w', replace_entry a entryIndex orderNum w = (Ok tt, w') ∧
        firmware w' =
          create_entry (osLabel a)
            (if (entryIndex >=? 0)%Z then delete_entry orderNum (firmware w)
             else firmware w).
Proof.
  intros Hrun.
  unfold replace_entry, del_boot_entry, add_boot_entry, run_command, bind.
  rewrite Hrun. destruct (entryIndex >=? 0)%Z; by eexists.
Qed.

Lemma one_per_line_create (label : string) (fw : list BootEntry) :
  one_line label = true → one_per_line fw = true →
  one_per_line (create_entry label fw) = true.
Proof.
  unfold one_per_line, create_entry. rewrite forallb_app.
  cbn [forallb description]. by intros -> ->.
Qed.

Lemma one_per_line_delete (index : string) (fw : list BootEntry) :
  one_per_line fw = true → one_per_line (delete_entry index fw) = true.
Proof.
  unfold one_per_line, delete_entry. rewrite !forallb_forall.
  intros Hone e [He _]%filter_In. by apply Hone.
Qed.

(** A created entry is the only match when nothing matched before. *)
Lemma matching_create (label : string) (fw : list BootEntry) :
  matching label fw = [] → length (matching label (create_entry label fw)) = 1.
Proof.
  intros Hnil. unfold create_entry. rewrite matching_app, Hnil.
  unfold matching. cbn [List.filter app].
  pose proof (entry_line_contains_description
                {| boot_num := free_num fw; description := label |}) as Hc.
  cbn [description] in Hc. by rewrite Hc.
Qed.

(** One real run on a listing in which at most one entry matches the label
    leaves exactly one matching entry. *)
Lemma reconcile_once (a : Resolved) (w : World) :
  noRun a = false →
  one_line (osLabel a) = true →
  one_per_line (firmware w) = true →
  length (matching (osLabel a) (firmware w)) ≤ 1 →
  ∃ w', reconcile a w = (Ok tt, w') ∧
        one_per_line (firmware w') = true ∧
        length (matching (osLabel a) (firmware w')) = 1.
Proof.
  intros Hrun Hlabel Hone Hatmost.
  destruct (nvram_information_ok a w) as (line & Hline & Hinfo).
  cbv zeta in Hline, Hinfo.
  set (nvram := split_on "010" (listing (firmware w))) in *.
  set (entryIndex := find_os_entry nvram (osLabel a)) in *.
  destruct (replace_entry_real a entryIndex (slice 4 8 line)
              (after_command Efibootmgr (firmware w) w) Hrun)
    as (w' & Hrep & Hfw).
  exists w'. split.
  { unfold reconcile. by rewrite (bind_Ok _ _ _ _ _ Hinfo). }
  rewrite Hfw. cbn [firmware after_command].
  assert (entryIndex = -1 ∨ 0 ≤ entryIndex)%Z as [Hnone|Hsome].
  { unfold entryIndex, find_os_entry.
    destruct (find_os_entry_from_range 0 nvram (osLabel a)); [by left | right; lia]. }
  - rewrite Hnone. cbn [Z.geb Z.compare]. split.
    + by apply one_per_line_create.
    + apply matching_create. by apply not_found_no_match.
  - destruct (Z.geb_spec entryIndex 0) as [_|?]; [|lia]. split.
    + apply one_per_line_create; [done|]. by apply one_per_line_delete.
    + apply matching_create.
      assert (∃ n : nat, entryIndex = Z.of_nat n)
        as [n Hn] by (exists (Z.to_nat entryIndex); lia).
      rewrite Hn in Hline. by eapply found_then_deleted.
Qed.

(** C1, amended: in a real run (not simulated), on a listing with one entry
    per line in which at most one entry's line contains the OS label (itself
    without a line break), running the reconciliation step twice succeeds
    both times and leaves exactly one entry whose line contains the label. *)
Theorem reconcile_twice_one_entry (a : Resolved) (w : World) :
  noRun a = false →
  one_line (osLabel a) = true →
  one_per_line (firmware w) = true →
  length (matching (osLabel a) (firmware w)) ≤ 1 →
  ∃ w1 w2, reconcile a w = (Ok tt, w1) ∧ reconcile a w1 = (Ok tt, w2) ∧
           length (matching (osLabel a) (firmware w1)) = 1 ∧
           length (matching (osLabel a) (firmware w2)) = 1.
Proof.
  intros Hrun Hlabel Hone Hatmost.
  destruct (reconcile_once a w) as (w1 & Hrec1 & Hone1 & Hlen1); [done..|].
  destruct (reconcile_once a w1) as (w2 & Hrec2 & _ & Hlen2); [done..|lia|].
  by exists w1, w2.
Qed.

Lemma reconcile_twice_one_entry_witness :
  let a := ubuntu false in
  let w := host windows_ubuntu [] (8, 1)%Z (fun _ => false) in
  (noRun a = false ∧ one_line (osLabel a) = true ∧
   one_per_line (firmware w) = true ∧
   length (matching (osLabel a) (firmware w)) ≤ 1) ∧
  ∃ w1 w2, reconcile a w = (Ok tt, w1) ∧ reconcile a w1 = (Ok tt, w2) ∧
           length (matching (osLabel a) (firmware w1)) = 1 ∧
           length (matching (osLabel a) (firmware w2)) = 1.
Proof.
  intros a w.
  assert (Hatmost : length (matching (osLabel a) (firmware w)) ≤ 1)
    by (vm_compute; lia).
  split; [by split_and!|].
  exact (reconcile_twice_one_entry a w eq_refl eq_refl eq_refl Hatmost).
Defined.

(** C1 as stated fails: when two entries already carry the label, each run
    deletes the first of them and adds one, so two runs leave two matching
    entries. *)
Lemma reconcile_twice_two_entries :
  let a := ubuntu false in
  let w := host ubuntu_twice [] (8, 1)%Z (fun _ => false) in
  ∃ w1 w2, reconcile a w = (Ok tt, w1) ∧ reconcile a w1 = (Ok tt, w2) ∧
           length (matching (osLabel a) (firmware w2)) = 2 ∧
           length (matching (osLabel a) (firmware w2)) ≠ 1.
Proof.
  intros a w.
  exists (snd (reconcile a w)), (snd (reconcile a (snd (reconcile a w)))).
  by vm_compute.
Qed.

End Reconciliation.

(** ** Drives *)

Section Drives.
Import Py Mbdrive.

(** In a dictionary, looking up the key of an item gives its value. *)
Lemma mtab_getitem_item (m : Mtab) (k : string) (r : MountRecord) :
  NoDup (map fst m) → (k, r) ∈ m → mtab_getitem m k = Some r.
Proof.
  unfold mtab_getitem. induction m as [|[k0 r0] m IH]; intros Hnd Hin.
  - by apply elem_of_nil in Hin.
  - apply NoDup_cons in Hnd as [Hk0 Hnd]. cbn [List.find fst].
    destruct (String.eqb_spec k0 k) as [->|Hne].
    + apply elem_of_cons in Hin as [[= ->] | Hin]; [done|].
      destruct Hk0. apply list_elem_of_In, in_map_iff.
      exists (k, r). split; [done | by apply list_elem_of_In].
    + apply elem_of_cons in Hin as [[= -> ->] | Hin]; [done|]. by apply IH.
Qed.

Lemma carries_node (r : MountRecord) : carries (node r) r = true.
Proof. unfold carries, values. cbn [existsb]. by rewrite String.eqb_refl. Qed.

Lemma carries_mount_point (r : MountRecord) : carries (mount_point r) r = true.
Proof.
  unfold carries, values. cbn [existsb].
  by rewrite (String.eqb_refl (mount_point r)), orb_true_r.
Qed.

(** The scan returns the first record that carries [part]. *)
Lemma equate_loop_first (m pre post : Mtab) (key part : string)
    (r : MountRecord) :
  (∀ k' r', (k', r') ∈ pre ++ (key, r) :: post → mtab_getitem m k' = Some r') →
  (∀ k' r', (k', r') ∈ pre → carries part r' = false) →
  carries part r = true →
  equate_loop m (map fst (pre ++ (key, r) :: post)) part
    = Ok (node r, mount_point r).
Proof.
  intros Hget Hpre Hr. induction pre as [|[k0 r0] pre IH]; cbn [map app fst equate_loop].
  - rewrite (Hget key r) by left. by rewrite Hr.
  - rewrite (Hget k0 r0) by left. rewrite (Hpre k0 r0) by left.
    apply IH.
    + intros k' r' Hin. apply Hget. by right.
    + intros k' r' Hin. apply (Hpre k' r'). by right.
Qed.

(** C9, amended: let [r] be a record of the snapshot with node [x] such that
    no record before it carries [x] or the mount point of [r] among its
    values.  Then resolving [x] returns the pair of [r], whose node is [x],
    and resolving that pair's mount point returns the same pair: the first
    match in insertion order wins. *)
Theorem equate_round_trip (h : Host) (pre post : Mtab) (key : string)
    (r : MountRecord) :
  NoDup (map fst (mtab h)) →
  mtab h = pre ++ (key, r) :: post →
  (∀ k' r', (k', r') ∈ pre →
            carries (node r) r' = false ∧ carries (mount_point r) r' = false) →
  equate_node_mountpoint h (node r) = Ok (node r, mount_point r) ∧
  equate_node_mountpoint h (mount_point r) = Ok (node r, mount_point r).
Proof.
  intros Hnd Hm Hpre. unfold equate_node_mountpoint.
  assert (Hget : ∀ k' r', (k', r') ∈ pre ++ (key, r) :: post →
                          mtab_getitem (mtab h) k' = Some r').
  { intros k' r' Hin. apply mtab_getitem_item; [done|]. by rewrite Hm. }
  rewrite Hm at 2 4. split.
  - apply equate_loop_first; [done | | apply carries_node].
    intros k' r' Hin. by destruct (Hpre k' r' Hin).
  - apply equate_loop_first; [done | | apply carries_mount_point].
    intros k' r' Hin. by destruct (Hpre k' r' Hin).
Qed.

Lemma equate_round_trip_witness :
  let h := host efi_mtab lsblk_sda in
  let r := {| node := "/dev/sda1"; mount_point := "/boot/efi"; fs_type := "vfat" |} in
  (NoDup (map fst (mtab h)) ∧
   mtab h = [mounted "/dev/sda2" "/" "ext4"] ++ ("/dev/sda1", r) :: []) ∧
  equate_node_mountpoint h "/dev/sda1" = Ok ("/dev/sda1", "/boot/efi") ∧
  equate_node_mountpoint h "/boot/efi" = Ok ("/dev/sda1", "/boot/efi").
Proof.
  intros h r.
  assert (Hnd : NoDup (map fst (mtab h)))
    by (apply (bool_decide_unpack _); by vm_compute).
  split; [done|].
  apply (equate_round_trip h [mounted "/dev/sda2" "/" "ext4"] [] "/dev/sda1" r
           Hnd eq_refl).
  intros k' r' [[= -> ->] | Hin%elem_of_nil]%elem_of_cons; [by vm_compute | done].
Defined.

(** C9 as stated fails: with two devices mounted on the same mount point, the
    node of the second resolves to its own pair, but that pair's mount point
    resolves to the first device. *)
Lemma equate_round_trip_fails :
  let h := host overmounted lsblk_sda in
  (∃ r, ("/dev/sdb1", r) ∈ mtab h ∧ node r = "/dev/sdb1") ∧
  equate_node_mountpoint h "/dev/sdb1" = Ok ("/dev/sdb1", "/mnt") ∧
  equate_node_mountpoint h "/mnt" = Ok ("/dev/sda1", "/mnt") ∧
  "/dev/sda1" ≠ "/dev/sdb1".
Proof.
  intros h. split_and!; [|done..].
  eexists. split; [right; left|done].
Qed.

(** The setters do resolve the missing half: two nested calls are enough. *)
Lemma set_attr_resolves (depth : nat) (h : Host) (n mp : string) :
  n ≠ "" → mp ≠ "" →
  let unset := {| _node := None; _mount_point := None |} in
  let both := {| _node := Some n; _mount_point := Some mp |} in
  (equate_node_mountpoint h n = Ok (n, mp) →
   set_attr (S (S depth)) h Node unset n = Ok both) ∧
  (equate_node_mountpoint h mp = Ok (n, mp) →
   set_attr (S (S depth)) h MountPoint unset mp = Ok both).
Proof.
  intros Hn Hmp. destruct n as [|c1 n']; [done|]. destruct mp as [|c2 mp']; [done|].
  split; intros Heq; cbn; by rewrite Heq.
Qed.

(** C3 fails on the code: the constructor, given the node alone or the mount
    point alone of a mounted device, returns a drive on which neither [node]
    nor [mount_point] is set, whatever the snapshot; the [uuid] and
    [drive_name] queries on such a drive raise [TypeError].  The setters of
    the two attributes, which the constructor does not use, do set both. *)
Theorem init_leaves_drive_unset :
  (∀ (h : Host) (n mp : option string) (d : Drive),
      __init__ h n mp = Ok d → d = {| _node := None; _mount_point := None |}) ∧
  let h := host efi_mtab lsblk_sda in
  let unset := {| _node := None; _mount_point := None |} in
  equate_node_mountpoint h "/dev/sda1" = Ok ("/dev/sda1", "/boot/efi") ∧
  __init__ h (Some "/dev/sda1") None = Ok unset ∧
  __init__ h None (Some "/boot/efi") = Ok unset ∧
  uuid h unset = Raise TypeError ∧
  drive_name h unset = Raise TypeError ∧
  set_attr 2 h Node unset "/dev/sda1"
    = Ok {| _node := Some "/dev/sda1"; _mount_point := Some "/boot/efi" |} ∧
  set_attr 2 h MountPoint unset "/boot/efi"
    = Ok {| _node := Some "/dev/sda1"; _mount_point := Some "/boot/efi" |}.
Proof.
  split; [|by vm_compute].
  intros h n mp d. unfold __init__, is_mounted. cbn [_node].
  repeat match goal with
         | |- context [if ?b then _ else _] => destruct b
         | |- context [match equate_node_mountpoint ?h0 ?p with _ => _ end] =>
             destruct (equate_node_mountpoint h0 p)
         end; congruence.
Qed.

(** The two outcomes of [uuid] the code does make explicit: [DriveError]
    when the probe cannot run, and the last field of the first line that
    contains the basename of the node. *)
Lemma uuid_explicit_outcomes (h : Host) (d : Drive) (n : string) :
  _node d = Some n →
  (lsblk h = None → uuid h d = Raise DriveError) ∧
  (∀ stdout pre fs post u,
      lsblk h = Some stdout →
      split_on "010" stdout = pre ++ fs :: post →
      (∀ fs', fs' ∈ pre → contains (basename n) fs' = false) →
      contains (basename n) fs = true →
      last (split fs) = Some u →
      uuid h d = Ok (Some u)).
Proof.
  intros Hn. unfold uuid. split; [by intros ->|].
  intros stdout pre fs post u -> -> Hpre Hfs Hu.
  induction pre as [|fs' pre IH]; cbn [app uuid_loop]; rewrite Hn.
  - by rewrite Hfs, Hu.
  - rewrite (Hpre fs') by left. apply IH. intros ? ?. apply Hpre. by right.
Qed.

(** C8 fails on the code: when no line of the probe's output contains the
    basename of the node, [uuid] returns [None] instead of raising. *)
Theorem uuid_none_when_no_match :
  (∀ (h : Host) (d : Drive) (n stdout : string),
      _node d = Some n → lsblk h = Some stdout →
      (∀ fs, fs ∈ split_on "010" stdout → contains (basename n) fs = false) →
      uuid h d = Ok None) ∧
  uuid (host efi_mtab lsblk_sda)
       {| _node := Some "/dev/sdb1"; _mount_point := Some "/mnt" |} = Ok None.
Proof.
  split; [|by vm_compute].
  intros h d n stdout Hn Hout Hnone. unfold uuid. rewrite Hout.
  induction (split_on "010" stdout) as [|fs l IH]; [done|].
  cbn [uuid_loop]. rewrite Hn, (Hnone fs) by left.
  apply IH. intros fs' Hin. apply Hnone. by right.
Qed.

End Drives.

(** ** The partition queries *)

Section PartitionQueries.
Import Py PyMore Kernelstub.

Lemma no_space_app (s t : string) :
  no_space (s +:+ t) = no_space s && no_space t.
Proof.
  induction s as [|c s IH]; [done|].
  rewrite sapp_cons. cbn [no_space]. by rewrite IH, andb_assoc.
Qed.

(** [split] only returns words, whatever field it was reading. *)
Lemma split_go_words (s : string) (cur : option string) :
  (∀ c, cur = Some c → is_word c) → Forall is_word (split_go cur s).
Proof.
  revert cur. induction s as [|a s IH]; intros cur Hcur; cbn [split_go].
  - destruct cur as [c|]; cbn; [|constructor].
    constructor; [by apply Hcur | constructor].
  - destruct (isspace a) eqn:Ha.
    + apply Forall_app. split; [|by apply IH].
      destruct cur as [c|]; cbn; [|constructor].
      constructor; [by apply Hcur | constructor].
    + apply IH. intros c [= <-]. split.
      * destruct cur as [[|b c]|]; done.
      * rewrite no_space_app. cbn [no_space]. rewrite Ha. cbn.
        destruct cur as [c|]; cbn; [|done].
        destruct (Hcur c eq_refl) as [_ ->]. done.
Qed.

Lemma split_words (s : string) : Forall is_word (split s).
Proof. apply split_go_words. done. Qed.

Lemma parse_line_word (line : string) (key : Z * Z) (name : string) :
  parse_line line = Some (key, name) → is_word name.
Proof.
  unfold parse_line. intros Hparse.
  destruct (split line !! 0 ≫= int) as [tmaj|]; [|done].
  destruct (split line !! 1 ≫= int) as [tmin|]; [|done]. cbn in Hparse.
  destruct (split line !! 3) as [n|] eqn:Hn; [|done].
  injection Hparse as _ <-.
  eapply Forall_lookup_1; [apply split_words | exact Hn].
Qed.

(** X1: every name in the parsed partition table is the fourth
    whitespace-delimited field of some line of the file, a line whose first
    two fields read as the major and minor number it is stored under; as a
    field it is a non-empty string without whitespace. *)
Theorem parsed_names_are_words (f : list string) (key : Z * Z) (name : string) :
  parse_lines ∅ f !! key = Some name →
  is_word name ∧
  ∃ line, line ∈ f ∧ split line !! 3 = Some name ∧
          data_line line (fst key) (snd key) name.
Proof.
  intros Hname.
  apply parse_lines_lookup in Hname
    as [(pre & line & post & Hf & Hline & _) | [Hempty _]];
    [|by rewrite lookup_empty in Hempty].
  split; [by apply parse_line_word in Hline|].
  exists line. destruct key as [major minor].
  pose proof (proj1 (parse_line_spec line major minor name) Hline) as Hdata.
  split_and!; [|  |done].
  - rewrite Hf. apply elem_of_app. right. by left.
  - destruct Hdata as (f0 & f1 & f2 & rest & -> & _). done.
Qed.

Lemma parsed_names_are_words_witness :
  is_word "sda12" ∧
  ∃ line, line ∈ KernelstubStart.sda_table ∧
          split line !! 3 = Some "sda12" ∧ data_line line 8 12 "sda12".
Proof.
  apply (parsed_names_are_words KernelstubStart.sda_table (8, 12)%Z "sda12").
  by vm_compute.
Defined.

End PartitionQueries.

(** ** Runs of [main] *)

Section MainRuns.
Import Py PyMore Kernelstub.

Lemma getitem_last {A} (l : list A) : l ≠ [] → getitem l (-1) = last l.
Proof.
  intros Hl. unfold getitem. cbn [Z.leb Z.compare].
  assert (0 < length l) by (destruct l; [done | simpl; lia]).
  destruct (Z.leb_spec (- Z.of_nat (length l)) (-1)); [|lia].
  rewrite last_lookup. f_equal. lia.
Qed.

(** X3: the NVRAM query of [main] never fails.  When a line contains the
    label, the boot number is characters 4 to 8 of the first such line;
    when none does, the index is -1 and the boot number is read off the
    last line of the listing, which index -1 selects. *)
Theorem nvram_information_total (a : Resolved) (w : World) :
  ∃ (idx : Z) (line : string),
    nvram_information a w
      = (Ok (idx, slice 4 8 line), after_command Efibootmgr (firmware w) w) ∧
    ((idx = (-1)%Z ∧
      last (split_on "010" (listing (firmware w))) = Some line ∧
      ∀ l, l ∈ split_on "010" (listing (firmware w)) →
           ¬ is_substring (osLabel a) l) ∨
     (∃ n : nat, idx = Z.of_nat n ∧
        split_on "010" (listing (firmware w)) !! n = Some line ∧
        is_substring (osLabel a) line ∧
        ∀ j l, j < n → split_on "010" (listing (firmware w)) !! j = Some l →
               ¬ is_substring (osLabel a) l)).
Proof.
  destruct (nvram_information_ok a w) as (line & Hline & Hinfo).
  cbv zeta in Hline, Hinfo.
  set (nvram := split_on "010" (listing (firmware w))) in *.
  exists (find_os_entry nvram (osLabel a)), line. split; [done|].
  destruct (find_os_entry_from_range 0 nvram (osLabel a)) as [Hnone|Hsome];
    fold (find_os_entry nvram (osLabel a)) in *.
  - left. rewrite Hnone in Hline |- *. split; [done|]. split.
    + rewrite <- Hline. symmetry. apply getitem_last. apply split_on_nonempty.
    + by apply find_os_entry_none.
  - right. exists (Z.to_nat (find_os_entry nvram (osLabel a))).
    assert (Hn : find_os_entry nvram (osLabel a)
                 = Z.of_nat (Z.to_nat (find_os_entry nvram (osLabel a)))) by lia.
    split; [done|].
    pose proof (proj1 (find_os_entry_first _ _ _) Hn)
      as [(line' & Hl' & Hsub) Hfirst].
    rewrite Hn, getitem_nat in Hline. rewrite Hline in Hl'.
    injection Hl' as <-. done.
Qed.

(** What [ensure_dir] does, by cases. *)
Lemma ensure_dir_cases (file_path : string) (w : World) :
  (dirname file_path ∈ dirs w ∧ ensure_dir file_path w = (Ok tt, w)) ∨
  ((dirname file_path ∉ dirs w) ∧ makedirs_ok w (dirname file_path) = true ∧
   ensure_dir file_path w = (Ok tt, add_dir (dirname file_path) w)) ∨
  ((dirname file_path ∉ dirs w) ∧ makedirs_ok w (dirname file_path) = false ∧
   ensure_dir file_path w = (Raise OSError, w)).
Proof.
  unfold ensure_dir. case_bool_decide as Hin; [by left|]. right.
  destruct (makedirs_ok w (dirname file_path)); [by left | by right].
Qed.

Lemma replace_entry_simulated (a : Resolved) (entryIndex : Z)
    (orderNum : string) (w : World) :
  noRun a = true → replace_entry a entryIndex orderNum w = (Ok tt, w).
Proof.
  intros Hsim.
  unfold replace_entry, del_boot_entry, add_boot_entry, run_command, bind.
  rewrite Hsim. by destruct (entryIndex >=? 0)%Z.
Qed.

(** A simulated run goes through once the work directory is there. *)
Lemma main_simulated_value (a : Resolved) (w : World) :
  noRun a = true →
  main a w =
    match ensure_dir (workDir a) (after_command Efibootmgr (firmware w) w) with
    | (Ok _, w2) => (Ok 0%Z, w2)
    | (Raise e, w2) => (Raise e, w2)
    end.
Proof.
  intros Hsim.
  destruct (nvram_information_ok a w) as (line & _ & Hinfo).
  cbv zeta in Hinfo.
  unfold main. rewrite (bind_Ok _ _ _ _ _ Hinfo). unfold bind at 1.
  destruct (ensure_dir _ _) as [[[]|e] w2]; [|done].
  rewrite Hsim. unfold try_except_unbound, copy_files, ret. cbn [fst snd].
  by rewrite (bind_Ok _ _ w2 w2 tt) by (by apply replace_entry_simulated).
Qed.

(** X4: a simulated run copies nothing and leaves the boot entries alone,
    but it is not free of effects: it still queries the firmware for the
    listing and still creates the work directory on the ESP when it is
    missing.  It returns 0 unless that directory cannot be made, in which
    case it raises [OSError]. *)
Theorem main_simulated (a : Resolved) (w : World) :
  noRun a = true →
  ∃ w', snd (main a w) = w' ∧
    firmware w' = firmware w ∧ copied w' = copied w ∧
    executed w' = Efibootmgr :: executed w ∧
    ((dirname (workDir a) ∈ dirs w ∧ dirs w' = dirs w ∧
      fst (main a w) = Ok 0%Z) ∨
     ((dirname (workDir a) ∉ dirs w) ∧
      makedirs_ok w (dirname (workDir a)) = true ∧
      dirs w' = dirname (workDir a) :: dirs w ∧ fst (main a w) = Ok 0%Z) ∨
     ((dirname (workDir a) ∉ dirs w) ∧
      makedirs_ok w (dirname (workDir a)) = false ∧
      dirs w' = dirs w ∧ fst (main a w) = Raise OSError)).
Proof.
  intros Hsim. eexists. split; [reflexivity|].
  rewrite (main_simulated_value a w Hsim).
  destruct (ensure_dir_cases (workDir a)
              (after_command Efibootmgr (firmware w) w))
    as [[Hin ->] | [(Hin & Hmk & ->) | (Hin & Hmk & ->)]];
    cbn [fst snd]; (split_and!; [done..|]).
  - by left.
  - right. by left.
  - right. by right.
Qed.

Lemma main_simulated_witness :
  let a := ubuntu true in
  let w := host windows_ubuntu [] (8, 1)%Z (fun _ => true) in
  noRun a = true ∧
  ∃ w', snd (main a w) = w' ∧
    firmware w' = firmware w ∧ copied w' = copied w ∧
    executed w' = Efibootmgr :: executed w ∧
    ((dirname (workDir a) ∈ dirs w ∧ dirs w' = dirs w ∧
      fst (main a w) = Ok 0%Z) ∨
     ((dirname (workDir a) ∉ dirs w) ∧
      makedirs_ok w (dirname (workDir a)) = true ∧
      dirs w' = dirname (workDir a) :: dirs w ∧ fst (main a w) = Ok 0%Z) ∨
     ((dirname (workDir a) ∉ dirs w) ∧
      makedirs_ok w (dirname (workDir a)) = false ∧
      dirs w' = dirs w ∧ fst (main a w) = Raise OSError)).
Proof.
  intros a w. split; [done|]. exact (main_simulated a w eq_refl).
Defined.

End MainRuns.

Section RealRuns.
Import Py PyMore Kernelstub KernelstubRuns.

Lemma replace_entry_run (a : Resolved) (entryIndex : Z) (orderNum : string)
    (w : World) :
  noRun a = false →
  replace_entry a entryIndex orderNum w
    = (Ok tt, after_replace a entryIndex orderNum w).
Proof.
  intros Hrun.
  unfold replace_entry, del_boot_entry, add_boot_entry, run_command, bind,
    after_replace, after_delete.
  rewrite Hrun. by destruct (entryIndex >=? 0)%Z.
Qed.

Lemma ensure_dir_copy_ok (file_path : string) (w : World) :
  copy_ok (snd (ensure_dir file_path w)) = copy_ok w.
Proof.
  destruct (ensure_dir_cases file_path w)
    as [[_ ->] | [(_ & _ & ->) | (_ & _ & ->)]]; done.
Qed.

(** The value of a real run, by the outcome of each step. *)
Lemma main_real_value (a : Resolved) (w : World) :
  noRun a = false →
  ∃ line,
    let nvram := split_on "010" (listing (firmware w)) in
    let entryIndex := find_os_entry nvram (osLabel a) in
    getitem nvram entryIndex = Some line ∧
    main a w =
      match ensure_dir (workDir a) (after_command Efibootmgr (firmware w) w) with
      | (Raise e, w2) => (Raise e, w2)
      | (Ok _, w2) =>
          if negb (copy_ok w (linuxPath a) (linuxDest a))
          then (Raise NameError, w2)
          else
            let w3 := add_copy (linuxPath a) (linuxDest a) w2 in
            if negb (copy_ok w (initrdPath a) (initrdDest a))
            then (Raise NameError, w3)
            else
              let w4 := add_copy (initrdPath a) (initrdDest a) w3 in
              let w5 := after_replace a entryIndex (slice 4 8 line) w4 in
              if copy_ok w "/proc/cmdline" (cmdlineDest a)
              then (Ok 0%Z, add_copy "/proc/cmdline" (cmdlineDest a) w5)
              else (Raise NameError, w5)
      end.
Proof.
  intros Hrun.
  destruct (nvram_information_ok a w) as (line & Hline & Hinfo).
  exists line. cbv zeta in *. split; [done|].
  unfold main. rewrite (bind_Ok _ _ _ _ _ Hinfo). unfold bind at 1.
  pose proof (ensure_dir_copy_ok (workDir a)
                (after_command Efibootmgr (firmware w) w)) as Hcopy.
  destruct (ensure_dir _ _) as [[[]|e] w2]; [|done].
  cbn [fst snd] in *. change (copy_ok (after_command _ _ w)) with (copy_ok w) in Hcopy.
  rewrite Hrun.
  destruct (copy_ok w (linuxPath a) (linuxDest a)) eqn:Hk; cbn [negb].
  2: { erewrite try_except_unbound_raised; [done|].
       apply copy_files_failed. by rewrite Hcopy. }
  erewrite try_except_unbound_Ok by (apply copy_files_done; by rewrite Hcopy).
  destruct (copy_ok w (initrdPath a) (initrdDest a)) eqn:Hi; cbn [negb].
  2: { erewrite try_except_unbound_raised; [done|].
       apply copy_files_failed. cbn [copy_ok add_copy]. by rewrite Hcopy. }
  erewrite try_except_unbound_Ok
    by (apply copy_files_done; cbn [copy_ok add_copy]; by rewrite Hcopy).
  erewrite bind_Ok by (by apply replace_entry_run).
  set (w5 := after_replace _ _ _ _).
  assert (Hc5 : copy_ok w5 = copy_ok w).
  { unfold w5, after_replace, after_delete.
    destruct (_ >=? 0)%Z; cbn [copy_ok after_command add_copy]; done. }
  unfold cmdlineDest.
  destruct (copy_ok w "/proc/cmdline" (workDir a +:+ "cmdline.txt")) eqn:Hc.
  - erewrite try_except_unbound_Ok; [done|].
    apply copy_files_done. by rewrite Hc5.
  - erewrite try_except_unbound_raised; [done|].
    apply copy_files_failed. by rewrite Hc5.
Qed.



(** X6: from the NVRAM query on, [main] returns 0 or raises [OSError] or
    [NameError]; it never returns 2 or 3.  It raises [OSError] exactly when
    the work directory is missing and cannot be made, and [NameError]
    exactly when, in a real run with the directory in place, one of the
    three copies cannot be made; reading the boot number never fails. *)
Theorem main_outcomes (a : Resolved) (w : World) :
  (fst (main a w) = Ok 0%Z ∨ fst (main a w) = Raise OSError ∨
   fst (main a w) = Raise NameError) ∧
  (fst (main a w) = Raise OSError ↔
   (dirname (workDir a) ∉ dirs w) ∧
   makedirs_ok w (dirname (workDir a)) = false) ∧
  (fst (main a w) = Raise NameError ↔
   noRun a = false ∧ dir_ready a w ∧
   (copy_ok w (linuxPath a) (linuxDest a) = false ∨
    copy_ok w (initrdPath a) (initrdDest a) = false ∨
    copy_ok w "/proc/cmdline" (cmdlineDest a) = false)).
Proof.
  unfold dir_ready.
  destruct (noRun a) eqn:Hrun.
  - rewrite (main_simulated_value a w Hrun).
    destruct (ensure_dir_cases (workDir a)
                (after_command Efibootmgr (firmware w) w))
      as [[Hin ->] | [(Hin & Hmk & ->) | (Hin & Hmk & ->)]];
      cbn [fst dirs makedirs_ok after_command] in *;
      intuition congruence.
  - destruct (main_real_value a w Hrun) as (line & _ & ->). cbv zeta.
    destruct (ensure_dir_cases (workDir a)
                (after_command Efibootmgr (firmware w) w))
      as [[Hin ->] | [(Hin & Hmk & ->) | (Hin & Hmk & ->)]];
      cbn [fst dirs makedirs_ok after_command] in *;
      [| |intuition congruence];
      (destruct (copy_ok w (linuxPath a) (linuxDest a)) eqn:Hk; cbn [negb];
       [destruct (copy_ok w (initrdPath a) (initrdDest a)) eqn:Hi; cbn [negb];
        [destruct (copy_ok w "/proc/cmdline" (cmdlineDest a)) eqn:Hc|]|]);
      cbn [fst]; intuition congruence.
Qed.

End RealRuns.

(** ** Which entry a real reconciliation replaces *)

Section Replacement.
Import Py PyMore Kernelstub KernelstubRuns.

Lemma matching_nil_inv (label : string) (fw : list BootEntry) (e : BootEntry) :
  matching label fw = [] → e ∈ fw → contains label (entry_line e) = false.
Proof.
  unfold matching. intros Hnil Hin.
  destruct (contains label (entry_line e)) eqn:Hc; [|done].
  assert (In e (List.filter (λ e, contains label (entry_line e)) fw)) as Hf
    by (apply filter_In; split; [by apply list_elem_of_In | done]).
  by rewrite Hnil in Hf.
Qed.

(** The value of a real reconciliation. *)
Lemma reconcile_real_value (a : Resolved) (w : World) :
  noRun a = false →
  ∃ line,
    getitem (split_on "010" (listing (firmware w)))
            (find_os_entry (split_on "010" (listing (firmware w))) (osLabel a))
      = Some line ∧
    reconcile a w
      = (Ok tt,
         after_replace a
           (find_os_entry (split_on "010" (listing (firmware w))) (osLabel a))
           (slice 4 8 line) (after_command Efibootmgr (firmware w) w)).
Proof.
  intros Hrun. destruct (nvram_information_ok a w) as (line & Hline & Hinfo).
  cbv zeta in *. exists line. split; [done|].
  unfold reconcile. rewrite (bind_Ok _ _ _ _ _ Hinfo).
  by apply replace_entry_run.
Qed.

(** X7: a real reconciliation deletes the first entry whose line contains
    the label, whatever else that line says: the entries left are those
    printed under another boot number, in their order, followed by the new
    entry.  An entry found this way whose description is not the label
    itself is gone afterwards. *)
Theorem reconcile_replaces_first_match (a : Resolved) (w : World)
    (pre post : list BootEntry) (e : BootEntry) :
  noRun a = false →
  one_per_line (firmware w) = true →
  firmware w = pre ++ e :: post →
  matching (osLabel a) pre = [] →
  contains (osLabel a) (entry_line e) = true →
  ∃ w', reconcile a w = (Ok tt, w') ∧
    firmware w' =
      create_entry (osLabel a) (delete_entry (hex4 (boot_num e)) (firmware w)) ∧
    (∀ e', e' ∈ firmware w → hex4 (boot_num e') ≠ hex4 (boot_num e) →
           e' ∈ firmware w') ∧
    (description e ≠ osLabel a → e ∉ firmware w').
Proof.
  intros Hrun Hone Hfw Hpre He.
  destruct (reconcile_real_value a w Hrun) as (line & Hline & Hrec).
  assert (Hne : firmware w ≠ []) by (rewrite Hfw; by destruct pre).
  rewrite listing_lines in Hline, Hrec by done.
  assert (Hidx : find_os_entry (map entry_line (firmware w)) (osLabel a)
                 = Z.of_nat (length pre)).
  { apply find_os_entry_first. split.
    - exists (entry_line e). split; [|by apply contains_spec].
      rewrite Hfw, list_lookup_fmap, lookup_app_r by done.
      by rewrite Nat.sub_diag.
    - intros j l Hj Hl. apply contains_false.
      rewrite Hfw, list_lookup_fmap, lookup_app_l in Hl by done.
      destruct (pre !! j) as [e'|] eqn:Hej; [|done]. injection Hl as <-.
      eapply matching_nil_inv; [done|]. by eapply list_elem_of_lookup_2. }
  rewrite Hidx in Hline, Hrec. rewrite getitem_nat in Hline.
  rewrite Hfw, list_lookup_fmap, lookup_app_r in Hline by done.
  rewrite Nat.sub_diag in Hline. injection Hline as <-.
  rewrite slice_entry_line in Hrec.
  eexists. split; [exact Hrec|].
  unfold after_replace, after_delete.
  destruct (Z.geb_spec (Z.of_nat (length pre)) 0) as [_|?]; [|lia].
  cbn [firmware after_command]. split; [done|]. split.
  - intros e' Hin Hnum. unfold create_entry. apply elem_of_app. left.
    unfold delete_entry. apply list_elem_of_In, filter_In. split.
    + by apply list_elem_of_In.
    + apply negb_true_iff. by apply String.eqb_neq.
  - intros Hdesc [Hin | Hin%list_elem_of_singleton]%elem_of_app.
    + unfold delete_entry in Hin.
      apply list_elem_of_In, filter_In in Hin as [_ Hin].
      by rewrite String.eqb_refl in Hin.
    + by rewrite Hin in Hdesc.
Qed.

Lemma reconcile_replaces_first_match_witness :
  let a := ubuntu false in
  let other := {| boot_num := 1; description := "Ubuntu 22.04.1 LTS rescue" |} in
  let w := host [ {| boot_num := 0; description := "Windows" |}; other ] []
                (8, 1)%Z (fun _ => false) in
  (noRun a = false ∧ one_per_line (firmware w) = true ∧
   contains (osLabel a) (entry_line other) = true ∧
   description other ≠ osLabel a) ∧
  ∃ w', reconcile a w = (Ok tt, w') ∧
        firmware w' = [ {| boot_num := 0; description := "Windows" |};
                        {| boot_num := 1; description := "Ubuntu 22.04" |} ] ∧
        other ∉ firmware w'.
Proof.
  intros a other w. split; [by split_and!|].
  destruct (reconcile_replaces_first_match a w
              [ {| boot_num := 0; description := "Windows" |} ] [] other
              eq_refl eq_refl eq_refl eq_refl eq_refl)
    as (w' & Hrec & Hfw & _ & Hgone).
  exists w'. split; [done|]. split; [by rewrite Hfw|]. by apply Hgone.
Defined.

(** X8: when no entry's line contains the label, a real reconciliation
    removes nothing: it appends the new entry to the old ones. *)
Theorem reconcile_appends_when_absent (a : Resolved) (w : World) :
  noRun a = false →
  one_per_line (firmware w) = true →
  matching (osLabel a) (firmware w) = [] →
  ∃ w', reconcile a w = (Ok tt, w') ∧
        firmware w' = create_entry (osLabel a) (firmware w).
Proof.
  intros Hrun Hone Hnil.
  destruct (reconcile_real_value a w Hrun) as (line & Hline & Hrec).
  eexists. split; [exact Hrec|].
  unfold after_replace, after_delete.
  destruct (Z.geb_spec
              (find_os_entry (split_on "010" (listing (firmware w))) (osLabel a))
              0) as [Hfound|_]; [|done].
  cbn [firmware after_command].
  destruct (decide (firmware w = [])) as [Hfw|Hfw]; [by rewrite Hfw|].
  exfalso. rewrite listing_lines in Hfound by done.
  destruct (find_os_entry_from_range 0 (map entry_line (firmware w)) (osLabel a))
    as [Hm|Hr]; fold (find_os_entry (map entry_line (firmware w)) (osLabel a)) in *;
    [lia|].
  assert (Hn : find_os_entry (map entry_line (firmware w)) (osLabel a)
               = Z.of_nat (Z.to_nat (find_os_entry (map entry_line (firmware w))
                                                   (osLabel a)))) by lia.
  apply find_os_entry_first in Hn as [(l & Hl & Hsub) _].
  rewrite list_lookup_fmap in Hl.
  destruct (firmware w !! _) as [e|] eqn:He; [|done]. injection Hl as <-.
  apply contains_spec in Hsub.
  rewrite (matching_nil_inv _ _ e Hnil) in Hsub; [done|].
  by eapply list_elem_of_lookup_2.
Qed.

Lemma reconcile_appends_when_absent_witness :
  let a := ubuntu false in
  let w := host [ {| boot_num := 0; description := "Windows" |} ] []
                (8, 1)%Z (fun _ => false) in
  (noRun a = false ∧ one_per_line (firmware w) = true ∧
   matching (osLabel a) (firmware w) = []) ∧
  ∃ w', reconcile a w = (Ok tt, w') ∧
        firmware w' = [ {| boot_num := 0; description := "Windows" |};
                        {| boot_num := 1; description := "Ubuntu 22.04" |} ].
Proof.
  intros a w. split; [by split_and!|].
  destruct (reconcile_appends_when_absent a w eq_refl eq_refl eq_refl)
    as (w' & Hrec & Hfw).
  exists w'. split; [done|]. by rewrite Hfw.
Defined.

End Replacement.

(** ** The first part of [main] *)

Section Start.
Import Py PyMore Kernelstub KernelstubStart.

Lemma last_char_spec (s : string) :
  s ≠ "" → ∃ pre c, s = pre +:+ String c "" ∧ last_char s = Some (String c "").
Proof.
  unfold last_char. induction s as [|a s IH]; [done|]. intros _.
  rewrite getitem_last by done.
  destruct s as [|b s].
  - by exists "", a.
  - destruct IH as (pre & c & Hs & Hlast); [done|].
    exists (String a pre), c. rewrite sapp_cons, <- Hs. split; [done|].
    rewrite getitem_last in Hlast by done.
    cbn [list_ascii_of_string] in *. by rewrite last_cons_cons.
Qed.

Lemma get_drive_name_value (w : World) (path : string) (f : list string)
    (major minor : Z) :
  st_dev w path = Some (major, minor) → proc_partitions w = Some f →
  get_drive_name path w =
    (match parse_lines ∅ f !! (major, 0%Z) with
     | Some name => Ok name
     | None => Raise KeyError
     end, w).
Proof.
  intros Hdev Hf.
  unfold get_drive_name, get_maj, bind, os_stat_dev, ret, _parse_proc_partitions.
  rewrite Hdev, Hf. cbn [fst].
  unfold dict_get. by destruct (parse_lines ∅ f !! (major, 0%Z)).
Qed.

Lemma get_part_name_value (w : World) (path : string) (f : list string)
    (major minor : Z) :
  st_dev w path = Some (major, minor) → proc_partitions w = Some f →
  get_part_name path w =
    (match parse_lines ∅ f !! (major, minor) with
     | Some name => Ok name
     | None => Raise KeyError
     end, w).
Proof.
  intros Hdev Hf.
  unfold get_part_name, get_maj, get_min, bind, os_stat_dev.
  rewrite Hdev. simpl. rewrite Hdev. simpl.
  unfold _parse_proc_partitions. rewrite Hf. unfold dict_get.
  by destruct (parse_lines ∅ f !! (major, minor)).
Qed.

(** X2: on a host where both paths can be examined and the partition table
    can be read, the partition look-ups of [main] either find the three
    names, and then the ESP partition number is the last character of the
    ESP partition's name and nothing more, or raise [KeyError]; reading
    that character never fails.  The host is left as it was. *)
Theorem partition_information_outcomes (w : World) (f : list string)
    (major minor esp_major esp_minor : Z) :
  st_dev w "/" = Some (major, minor) →
  st_dev w "/boot/efi" = Some (esp_major, esp_minor) →
  proc_partitions w = Some f →
  match parse_lines ∅ f !! (major, 0%Z),
        parse_lines ∅ f !! (major, minor),
        parse_lines ∅ f !! (esp_major, esp_minor) with
  | Some driveName, Some rootFs, Some espFs =>
      ∃ pre c, espFs = pre +:+ String c "" ∧
               partition_information w
                 = (Ok (driveName, rootFs, espFs, String c ""), w)
  | _, _, _ => partition_information w = (Raise KeyError, w)
  end.
Proof.
  intros Hroot Hesp Hf. unfold partition_information, bind.
  rewrite (get_drive_name_value w "/" f major minor) by done.
  destruct (parse_lines ∅ f !! (major, 0%Z)) as [d|]; [|done].
  rewrite (get_part_name_value w "/" f major minor) by done.
  destruct (parse_lines ∅ f !! (major, minor)) as [r|]; [|done].
  rewrite (get_part_name_value w "/boot/efi" f esp_major esp_minor) by done.
  destruct (parse_lines ∅ f !! (esp_major, esp_minor)) as [e|] eqn:He; [|done].
  apply parse_lines_lookup in He
    as [(? & line & ? & _ & Hline & _) | [Hempty _]];
    [|by rewrite lookup_empty in Hempty].
  apply parse_line_word in Hline as [Hne _].
  destruct (last_char_spec e Hne) as (pre & c & Hpre & ->). by exists pre, c.
Qed.

Lemma partition_information_outcomes_witness :
  let w := host [] sda_table (8, 12)%Z (fun _ => false) in
  (st_dev w "/" = Some (8, 12)%Z ∧ st_dev w "/boot/efi" = Some (8, 12)%Z ∧
   proc_partitions w = Some sda_table) ∧
  partition_information w = (Ok ("sda", "sda12", "sda12", "2"), w).
Proof.
  intros w. split; [done|].
  pose proof (partition_information_outcomes w sda_table 8 12 8 12
                eq_refl eq_refl eq_refl) as H.
  vm_compute in H. destruct H as (pre & c & Hname & Hres).
  by vm_compute.
Defined.

(** *** [get_uuid] *)

Lemma get_uuid_loop_untagged (l : list string) (k : nat) (index : option nat) :
  untagged l → get_uuid_loop l k index = index.
Proof.
  revert k. induction l as [|i l IH]; intros k Hl; [done|].
  apply Forall_cons in Hl as [Hi Hl]. cbn [get_uuid_loop]. rewrite Hi.
  by apply IH.
Qed.

(** The index is the position after the last tagged entry. *)
Lemma get_uuid_loop_last (pre : list string) (tag : string) (rest : list string)
    (k : nat) (index : option nat) :
  uuid_tag tag = true → untagged rest →
  get_uuid_loop (pre ++ tag :: rest) k index = Some (k + length pre + 1).
Proof.
  intros Htag Hrest. revert k index.
  induction pre as [|i pre IH]; intros k index; cbn [app get_uuid_loop length].
  - rewrite Htag, get_uuid_loop_untagged by done. f_equal. lia.
  - destruct (uuid_tag i); rewrite IH; f_equal; lia.
Qed.

(** A list has no tagged entry or a last one. *)
Lemma last_tagged (l : list string) :
  untagged l ∨
  ∃ pre tag rest, l = pre ++ tag :: rest ∧ uuid_tag tag = true ∧ untagged rest.
Proof.
  induction l as [|i l IH]; [left; constructor|].
  destruct IH as [Hl | (pre & tag & rest & -> & Htag & Hrest)].
  - destruct (uuid_tag i) eqn:Hi.
    + right. by exists [], i, l.
    + left. by constructor.
  - right. by exists (i :: pre), tag, rest.
Qed.

(** X9: [get_uuid] returns the piece of the quote-separated output that
    follows the last piece ending in [ UUID] and one more character.  It
    raises [UnboundLocalError] when there is no such piece, as when blkid
    prints nothing, and [IndexError] when that piece is the last one. *)
Theorem get_uuid_outcomes (blkid : string → string) (fs : string) :
  let blockList := split_on dquote (blkid ("blkid /dev/" +:+ fs)) in
  (untagged blockList ∧ get_uuid blkid fs = Throws UnboundLocalError) ∨
  (∃ pre tag, blockList = pre ++ [tag] ∧ uuid_tag tag = true ∧
              get_uuid blkid fs = Throws (Builtin IndexError)) ∨
  (∃ pre tag fsUuid post,
      blockList = pre ++ tag :: fsUuid :: post ∧ uuid_tag tag = true ∧
      untagged (fsUuid :: post) ∧ get_uuid blkid fs = Returns fsUuid).
Proof.
  intros blockList. unfold get_uuid. fold blockList.
  destruct (last_tagged blockList) as [Hnone | (pre & tag & rest & Hl & Htag & Hrest)].
  - left. by rewrite get_uuid_loop_untagged.
  - right. rewrite Hl, get_uuid_loop_last by done. cbn [Nat.add].
    replace (length pre + 1) with (length pre + 1 + 0) by lia.
    rewrite <- Nat.add_assoc, lookup_app_r by lia.
    replace (length pre + (1 + 0) - length pre) with 1 by lia.
    destruct rest as [|u post]; cbn [lookup list_lookup].
    + left. by exists pre, tag.
    + right. by exists pre, tag, u, post.
Qed.

(** Splitting commutes with a separator in the middle. *)
Lemma split_on_sep (sep : ascii) (s t : string) :
  split_on sep (s +:+ String sep t) = split_on sep s ++ split_on sep t.
Proof.
  induction s as [|c s IH].
  - rewrite sapp_nil_l. cbn [split_on app]. by rewrite Ascii.eqb_refl.
  - rewrite sapp_cons. cbn [split_on]. destruct (Ascii.eqb c sep); rewrite IH.
    + done.
    + pose proof (split_on_nonempty sep s).
      by destruct (split_on sep s).
Qed.

(** Appending text without a separator extends the last piece. *)
Lemma split_on_extend (sep : ascii) (s t : string) :
  split_on sep t = [t] →
  ∃ init piece, split_on sep s = init ++ [piece] ∧
                split_on sep (s +:+ t) = init ++ [piece +:+ t].
Proof.
  intros Ht. induction s as [|c s IH].
  - exists [], "". by rewrite sapp_nil_l, Ht.
  - destruct IH as (init & piece & Hs & Hst).
    rewrite sapp_cons. cbn [split_on]. rewrite Hs, Hst.
    destruct (Ascii.eqb c sep).
    + by exists ("" :: init), piece.
    + destruct init as [|p init]; cbn [app].
      * by exists [], (String c piece).
      * by exists (String c p :: init), piece.
Qed.

Lemma split_on_quote_free (s : string) :
  quote_free s = true → split_on dquote s = [s].
Proof.
  induction s as [|c s IH]; [done|]. cbn [quote_free split_on].
  intros [Hc Hs]%andb_true_iff. apply negb_true_iff in Hc.
  by rewrite Hc, (IH Hs).
Qed.

Lemma substring_skip (p s : string) (m : nat) :
  String.substring (String.length p) m (p +:+ s) = String.substring 0 m s.
Proof. induction p as [|c p IH]; [done|]. by rewrite sapp_cons. Qed.

Lemma length_app (p s : string) :
  String.length (p +:+ s) = String.length p + String.length s.
Proof. induction p as [|c p IH]; [done|]. rewrite sapp_cons. cbn. by rewrite IH. Qed.

Lemma uuid_tag_suffix (p : string) : uuid_tag (p +:+ " UUID=") = true.
Proof.
  unfold uuid_tag, slice_from_end. rewrite length_app. cbn [String.length].
  replace (String.length p + 6 - 6) with (String.length p) by lia.
  replace (String.length p + 6 - 1 - String.length p) with 5 by lia.
  by rewrite substring_skip.
Qed.

(** X10: when the output of blkid reads [... UUID="u"...] with [u] free of
    quotes, and neither [u] nor any quote-separated piece of what follows
    the closing quote ends in [ UUID] and one more character, [get_uuid]
    returns [u], whatever precedes the tag. *)
Theorem get_uuid_of_tagged_output (blkid : string → string)
    (fs head u tail : string) :
  blkid ("blkid /dev/" +:+ fs)
    = head +:+ " UUID=" +:+ String dquote u +:+ String dquote tail →
  quote_free u = true →
  uuid_tag u = false →
  untagged (split_on dquote tail) →
  get_uuid blkid fs = Returns u.
Proof.
  intros Hout Hu Hutag Htail. unfold get_uuid. rewrite Hout.
  assert (Hsplit : ∃ init piece,
    split_on dquote (head +:+ " UUID=" +:+ String dquote u +:+ String dquote tail)
      = init ++ (piece +:+ " UUID=") :: u :: split_on dquote tail).
  { destruct (split_on_extend dquote head " UUID=" eq_refl)
      as (init & piece & _ & Hhead).
    exists init, piece.
    change (String dquote u +:+ String dquote tail)
      with (String dquote (u +:+ String dquote tail)).
    rewrite <- sapp_assoc, split_on_sep, Hhead, split_on_sep.
    rewrite split_on_quote_free by done. by rewrite <- app_assoc. }
  destruct Hsplit as (init & piece & ->).
  rewrite get_uuid_loop_last;
    [|apply uuid_tag_suffix | by constructor].
  cbn [Nat.add]. replace (length init + 1) with (length init + 1 + 0) by lia.
  rewrite <- Nat.add_assoc, lookup_app_r by lia.
  by replace (length init + (1 + 0) - length init) with 1 by lia.
Qed.

Lemma get_uuid_of_tagged_output_witness :
  let out := "/dev/sda2: LABEL=" +:+ String dquote "root" +:+
             String dquote " UUID=" +:+ String dquote "0a1b2c3d" +:+
             String dquote " TYPE=" +:+ String dquote "ext4" +:+
             String dquote " PARTUUID=" +:+ String dquote "ffff-02" +:+
             String dquote "" in
  get_uuid (fun _ => out) "sda2" = Returns "0a1b2c3d".
Proof.
  intros out.
  apply (get_uuid_of_tagged_output (fun _ => out) "sda2"
           ("/dev/sda2: LABEL=" +:+ String dquote "root" +:+ String dquote "")
           "0a1b2c3d"
           (" TYPE=" +:+ String dquote "ext4" +:+
            String dquote " PARTUUID=" +:+ String dquote "ffff-02" +:+
            String dquote "")).
  - reflexivity.
  - reflexivity.
  - reflexivity.
  - vm_compute. repeat constructor.
Defined.

(** *** Kernel options *)

Lemma readline_line (opts rest : string) (c : ascii) :
  no_line_end opts = true → line_end c = true →
  readline (opts +:+ String c rest) = opts +:+ String "010" "".
Proof.
  intros Hopts Hc. induction opts as [|b opts IH].
  - rewrite !sapp_nil_l. cbn [readline]. by rewrite Hc.
  - cbn [no_line_end] in Hopts.
    apply andb_true_iff in Hopts as [Hb Hopts]. apply negb_true_iff in Hb.
    rewrite !sapp_cons. cbn [readline]. by rewrite Hb, (IH Hopts).
Qed.

Lemma readline_one_line (opts : string) :
  no_line_end opts = true → readline opts = opts.
Proof.
  induction opts as [|c opts IH]; [done|]. cbn [no_line_end readline].
  intros [Hc Hopts]%andb_true_iff. apply negb_true_iff in Hc.
  by rewrite Hc, (IH Hopts).
Qed.

(** X11: without a non-empty [--cmdline], the kernel options are the first
    line of /etc/default/kernelstub, up to its first line feed or carriage
    return, followed by a line feed: the line break is not stripped, and
    the options are a single line only when the file has no line break at
    all.  Where the file is missing or cannot be read, [NameError] is
    raised: [ConfigError] and [CmdLineError] are bound nowhere. *)
Theorem kernel_options_from_config (files : string → at_path)
    (cmdline : option string) :
  (cmdline = None ∨ cmdline = Some "") →
  (files "/etc/default/kernelstub" = Missing ∨
   files "/etc/default/kernelstub" = Unreadable →
   kernel_options files cmdline = Throws (Builtin NameError)) ∧
  (∀ opts rest c,
      no_line_end opts = true → line_end c = true →
      files "/etc/default/kernelstub" = Readable (opts +:+ String c rest) →
      kernel_options files cmdline = Returns (opts +:+ String "010" "") ∧
      one_line (opts +:+ String "010" "") = false) ∧
  (∀ opts,
      no_line_end opts = true →
      files "/etc/default/kernelstub" = Readable opts →
      kernel_options files cmdline = Returns opts).
Proof.
  intros Hcmd.
  assert (Hk : kernel_options files cmdline =
               match check_config files "/etc/default/kernelstub" with
               | Returns kernelOpts => Returns kernelOpts
               | Throws _ => Throws (Builtin NameError)
               end) by (by destruct Hcmd as [-> | ->]).
  rewrite Hk. unfold check_config. split_and!.
  - by intros [-> | ->].
  - intros opts rest c Hopts Hc ->. rewrite (readline_line opts rest c) by done.
    split; [done|]. rewrite one_line_app. cbn. by rewrite andb_false_r.
  - intros opts Hopts ->. by rewrite readline_one_line.
Qed.

Lemma kernel_options_from_config_witness :
  let files (content : string) := fun path : string =>
    if String.eqb path "/etc/default/kernelstub"
    then Readable content else Missing in
  let crlf := String "013" (String "010" "") in
  kernel_options (files ("quiet splash" +:+ crlf +:+ "# options")) None
    = Returns ("quiet splash" +:+ String "010" "") ∧
  kernel_options (files "quiet splash") (Some "") = Returns "quiet splash" ∧
  kernel_options (fun _ => Missing) None = Throws (Builtin NameError).
Proof.
  intros files crlf. split_and!.
  - destruct (kernel_options_from_config
                (files ("quiet splash" +:+ crlf +:+ "# options")) None
                (or_introl eq_refl)) as (_ & Hline & _).
    by apply (Hline "quiet splash" (String "010" "# options") "013"%char).
  - destruct (kernel_options_from_config (files "quiet splash") (Some "")
                (or_intror eq_refl)) as (_ & _ & Hwhole).
    by apply (Hwhole "quiet splash").
  - destruct (kernel_options_from_config (fun _ => Missing) None
                (or_introl eq_refl)) as (Hmissing & _).
    apply Hmissing. by left.
Defined.

End Start.

(** ** Resolving and setting the attributes of a drive *)

Section DriveAttributes.
Import Py Mbdrive MbdriveMount.

Lemma init_returns_unset (h : Host) (n mp : option string) (d : Drive) :
  __init__ h n mp = Ok d → d = {| _node := None; _mount_point := None |}.
Proof.
  unfold __init__, is_mounted. cbn [_node].
  repeat match goal with
         | |- context [if ?b then _ else _] => destruct b
         | |- context [match equate_node_mountpoint ?h0 ?p with _ => _ end] =>
             destruct (equate_node_mountpoint h0 p)
         end; congruence.
Qed.

(** A list of records splits at the first one that carries [part]. *)
Lemma first_carrying (part : string) (m : Mtab) :
  (∀ k r, (k, r) ∈ m → carries part r = false) ∨
  ∃ pre key r post,
    m = pre ++ (key, r) :: post ∧
    (∀ k' r', (k', r') ∈ pre → carries part r' = false) ∧
    carries part r = true.
Proof.
  induction m as [|[k0 r0] m IH].
  - left. intros k r Hin. by apply elem_of_nil in Hin.
  - destruct (carries part r0) eqn:H0.
    + right. exists [], k0, r0, m. split_and!; [done | | done].
      intros k' r' Hin. by apply elem_of_nil in Hin.
    + destruct IH as [Hnone | (pre & key & r & post & -> & Hpre & Hr)].
      * left. intros k r [[= -> ->] | Hin]%elem_of_cons; [done|].
        by apply (Hnone k r).
      * right. exists ((k0, r0) :: pre), key, r, post. split_and!; [done | | done].
        intros k' r' [[= -> ->] | Hin]%elem_of_cons; [done|].
        by apply (Hpre k' r').
Qed.

Lemma equate_loop_none (m l : Mtab) (part : string) :
  (∀ k r, (k, r) ∈ l → mtab_getitem m k = Some r) →
  (∀ k r, (k, r) ∈ l → carries part r = false) →
  equate_loop m (map fst l) part = Raise DriveError.
Proof.
  intros Hget Hnone. induction l as [|[k0 r0] l IH]; [done|].
  cbn [map fst equate_loop].
  rewrite (Hget k0 r0) by left. rewrite (Hnone k0 r0) by left.
  apply IH.
  - intros k r Hin. apply Hget. by right.
  - intros k r Hin. apply (Hnone k r). by right.
Qed.

(** X12: on a mount table with distinct keys, [equate_node_mountpoint]
    either returns the node and the mount point of the first record one of
    whose values is the argument, or raises [DriveError] because no record
    has such a value; it raises nothing else. *)
Theorem equate_outcomes (h : Host) (part : string) :
  NoDup (map fst (mtab h)) →
  (∃ pre key r post,
      mtab h = pre ++ (key, r) :: post ∧
      (∀ k' r', (k', r') ∈ pre → carries part r' = false) ∧
      carries part r = true ∧
      equate_node_mountpoint h part = Ok (node r, mount_point r)) ∨
  ((∀ k r, (k, r) ∈ mtab h → carries part r = false) ∧
   equate_node_mountpoint h part = Raise DriveError).
Proof.
  intros Hnd. unfold equate_node_mountpoint.
  assert (Hget : ∀ k r, (k, r) ∈ mtab h → mtab_getitem (mtab h) k = Some r)
    by (intros k r Hin; by apply mtab_getitem_item).
  destruct (first_carrying part (mtab h))
    as [Hnone | (pre & key & r & post & Hm & Hpre & Hr)].
  - right. split; [done|]. by apply equate_loop_none.
  - left. exists pre, key, r, post. split_and!; [done..|].
    rewrite Hm at 2. apply equate_loop_first; [|done..].
    intros k' r' Hin. apply Hget. by rewrite Hm.
Qed.

Lemma equate_outcomes_witness :
  let h := host efi_mtab lsblk_sda in
  NoDup (map fst (mtab h)) ∧
  equate_node_mountpoint h "/boot/efi" = Ok ("/dev/sda1", "/boot/efi") ∧
  equate_node_mountpoint h "/dev/sdb1" = Raise DriveError.
Proof.
  intros h.
  assert (Hnd : NoDup (map fst (mtab h)))
    by (apply (bool_decide_unpack _); by vm_compute).
  split; [done|].
  pose proof (equate_outcomes h "/boot/efi" Hnd) as Hfound.
  pose proof (equate_outcomes h "/dev/sdb1" Hnd) as Hmissing.
  by vm_compute.
Defined.

(** The value of a setter, without the recursion. *)
Lemma set_attr_value (depth : nat) (h : Host) (which : attr) (self : Drive)
    (value : string) :
  set_attr (S (S depth)) h which self value =
    match value, which with
    | EmptyString, _ => Raise DriveError
    | _, Node =>
        if truthy (_mount_point self)
        then Ok {| _node := Some value; _mount_point := _mount_point self |}
        else match equate_node_mountpoint h value with
             | Ok (_, String c mp) =>
                 Ok {| _node := Some value; _mount_point := Some (String c mp) |}
             | Ok (_, EmptyString) => Raise DriveError
             | Raise e => Raise e
             end
    | _, MountPoint =>
        if truthy (_node self)
        then Ok {| _node := _node self; _mount_point := Some value |}
        else match equate_node_mountpoint h value with
             | Ok (String c n, _) =>
                 Ok {| _node := Some (String c n); _mount_point := Some value |}
             | Ok (EmptyString, _) => Raise DriveError
             | Raise e => Raise e
             end
    end.
Proof.
  destruct value as [|a value]; [by destruct which|].
  destruct which; cbn [set_attr truthy _node _mount_point negb].
  - destruct (truthy (_mount_point self)); [done|]. cbn [negb].
    destruct (equate_node_mountpoint h (String a value)) as [[n [|c mp]]|e]; done.
  - destruct (truthy (_node self)); [done|]. cbn [negb].
    destruct (equate_node_mountpoint h (String a value)) as [[[|c n] mp]|e]; done.
Qed.

(** X13: the two setters call each other, but never more than two calls
    deep: with room for two nested calls a setter does not run into the
    recursion limit, and more room does not change what it returns. *)
Theorem set_attr_two_calls (depth : nat) (h : Host) (which : attr)
    (self : Drive) (value : string) :
  set_attr (S (S depth)) h which self value = set_attr 2 h which self value ∧
  set_attr (S (S depth)) h which self value ≠ Raise RecursionError.
Proof.
  split; [by rewrite !set_attr_value|].
  rewrite set_attr_value.
  destruct value as [|a value]; [by destruct which|].
  destruct which.
  - destruct (truthy (_mount_point self)); [done|].
    destruct (equate_node_mountpoint h (String a value)) as [[n [|c mp]]|e] eqn:He;
      try done.
    intros [= ->]. revert He. unfold equate_node_mountpoint.
    generalize (map fst (mtab h)). intros keys.
    induction keys as [|k keys IH]; cbn [equate_loop]; [done|].
    destruct (mtab_getitem (mtab h) k); [|done].
    by destruct (carries (String a value) m).
  - destruct (truthy (_node self)); [done|].
    destruct (equate_node_mountpoint h (String a value)) as [[[|c n] mp]|e] eqn:He;
      try done.
    intros [= ->]. revert He. unfold equate_node_mountpoint.
    generalize (map fst (mtab h)). intros keys.
    induction keys as [|k keys IH]; cbn [equate_loop]; [done|].
    destruct (mtab_getitem (mtab h) k); [|done].
    by destruct (carries (String a value) m).
Qed.

(** X14: on a drive with neither attribute set, a setter resolves the other
    attribute from the first record one of whose values is the value set,
    and keeps the value set as it was given: setting [node] gives that
    record's mount point, setting [mount_point] gives that record's node,
    whichever of the record's values matched. *)
Theorem set_attr_resolves_from_first (depth : nat) (h : Host)
    (pre post : Mtab) (key value : string) (r : MountRecord) :
  NoDup (map fst (mtab h)) →
  mtab h = pre ++ (key, r) :: post →
  (∀ k' r', (k', r') ∈ pre → carries value r' = false) →
  carries value r = true →
  value ≠ "" → node r ≠ "" → mount_point r ≠ "" →
  let unset := {| _node := None; _mount_point := None |} in
  set_attr (S (S depth)) h Node unset value
    = Ok {| _node := Some value; _mount_point := Some (mount_point r) |} ∧
  set_attr (S (S depth)) h MountPoint unset value
    = Ok {| _node := Some (node r); _mount_point := Some value |}.
Proof.
  intros Hnd Hm Hpre Hr Hv Hn Hmp unset.
  assert (Heq : equate_node_mountpoint h value = Ok (node r, mount_point r)).
  { unfold equate_node_mountpoint. rewrite Hm at 2.
    apply equate_loop_first; [|done..].
    intros k' r' Hin. apply mtab_getitem_item; [done|]. by rewrite Hm. }
  rewrite !set_attr_value, Heq. cbn [truthy _node _mount_point unset].
  destruct value as [|a value]; [done|].
  destruct (node r) as [|c n]; [done|].
  by destruct (mount_point r) as [|c' mp]; [done|].
Qed.

Lemma set_attr_resolves_from_first_witness :
  let h := host efi_mtab lsblk_sda in
  let unset := {| _node := None; _mount_point := None |} in
  set_attr 2 h Node unset "/boot/efi"
    = Ok {| _node := Some "/boot/efi"; _mount_point := Some "/boot/efi" |} ∧
  set_attr 2 h MountPoint unset "/boot/efi"
    = Ok {| _node := Some "/dev/sda1"; _mount_point := Some "/boot/efi" |}.
Proof.
  intros h unset.
  assert (Hnd : NoDup (map fst (mtab h)))
    by (apply (bool_decide_unpack _); by vm_compute).
  apply (set_attr_resolves_from_first 0 h [mounted "/dev/sda2" "/" "ext4"] []
           "/dev/sda1" "/boot/efi"
           {| node := "/dev/sda1"; mount_point := "/boot/efi"; fs_type := "vfat" |}
           Hnd eq_refl); try done.
  intros k' r' [[= -> ->] | Hin%elem_of_nil]%elem_of_cons; [by vm_compute | done].
Defined.

End DriveAttributes.

(** ** Mounting and unmounting *)

Section Mounting.
Import Py Mbdrive MbdriveMount.

(** X15: a drive as the constructor returns it cannot be mounted on a mount
    point the mount table does not list already.  [mount_drive] succeeds on
    it only when a mount point and a node are both passed and the mount
    point resolves in the table; when the mount point does not resolve it
    raises [DriveError] whatever the mount command would do, and without a
    mount point it raises [TypeError]. *)
Theorem mount_fresh_drive (run : Runner) (h : Host) (n0 mp0 : option string)
    (d : Drive) (mount_point node type : option string) :
  __init__ h n0 mp0 = Ok d →
  (∀ d', mount_drive run h d mount_point node type = Ok d' →
         truthy mount_point = true ∧ truthy node = true ∧
         ∃ found, equate_node_mountpoint h (default "" mount_point) = Ok found) ∧
  (truthy mount_point = true →
   equate_node_mountpoint h (default "" mount_point) = Raise DriveError →
   ∀ run' : Runner,
     mount_drive run' h d mount_point node type = Raise DriveError) ∧
  (truthy mount_point = false →
   mount_drive run h d mount_point node type = Raise TypeError).
Proof.
  intros Hinit. apply init_returns_unset in Hinit as ->.
  assert (Hnone : ∀ run0 : Runner, truthy mount_point = false →
            mount_drive run0 h {| _node := None; _mount_point := None |}
                        mount_point node type = Raise TypeError).
  { intros run0 Hmp. unfold mount_drive. rewrite Hmp.
    cbn [negb _node _mount_point]. unfold subprocess_run.
    destruct (truthy node), (truthy type), node as [n|]; reflexivity. }
  destruct mount_point as [[|a mp]|];
    [split_and!; [intros d'; by rewrite Hnone | done | by apply Hnone]
    | | split_and!; [intros d'; by rewrite Hnone | done | by apply Hnone]].
  assert (Hset : ∀ run0 : Runner,
            mount_drive run0 h {| _node := None; _mount_point := None |}
                        (Some (String a mp)) node type =
            match equate_node_mountpoint h (String a mp) with
            | Ok (String c n, _) =>
                match subprocess_run run0
                        (([Some "sudo"; Some "mount"] ++
                          (if truthy type
                           then [Some ("-t " +:+ default "" type)] else [])) ++
                         [if truthy node then node else None;
                          Some (String a mp)]) with
                | Ok done =>
                    if negb (returncode done =? 0)%Z then Raise DriveError
                    else Ok {| _node := Some (String c n);
                               _mount_point := Some (String a mp) |}
                | Raise e => Raise e
                end
            | Ok (EmptyString, _) => Raise DriveError
            | Raise e => Raise e
            end).
  { intros run0. unfold mount_drive. change recursion_limit with (S (S 998)).
    cbn [truthy negb _node _mount_point]. unfold default. cbn [from_option id].
    rewrite set_attr_value. cbn [truthy _node].
    destruct (equate_node_mountpoint h (String a mp)) as [[[|c n] p]|e];
      [done | | done].
    by destruct (truthy type), (truthy node). }
  cbn [default from_option id truthy]. split_and!.
  - intros d'. rewrite Hset.
    destruct (equate_node_mountpoint h (String a mp)) as [[[|c n] p]|e];
      [done | | done].
    destruct (truthy node); [eauto|]. unfold subprocess_run.
    by destruct (truthy type).
  - intros _ Heq run'. by rewrite Hset, Heq.
  - done.
Qed.

Lemma mount_fresh_drive_witness :
  let h := host efi_mtab lsblk_sda in
  let unset := {| _node := None; _mount_point := None |} in
  __init__ h (Some "/dev/sda1") None = Ok unset ∧
  mount_drive succeeds h unset (Some "/mnt/usb") (Some "/dev/sdb1") None
    = Raise DriveError ∧
  mount_drive succeeds h unset None (Some "/dev/sdb1") None = Raise TypeError.
Proof.
  intros h unset.
  assert (Hinit : __init__ h (Some "/dev/sda1") None = Ok unset) by reflexivity.
  split; [done|].
  destruct (mount_fresh_drive succeeds h (Some "/dev/sda1") None unset
              (Some "/mnt/usb") (Some "/dev/sdb1") None Hinit)
    as (_ & Hunlisted & _).
  destruct (mount_fresh_drive succeeds h (Some "/dev/sda1") None unset
              None (Some "/dev/sdb1") None Hinit)
    as (_ & _ & Hnone).
  split; [by apply Hunlisted | by apply Hnone].
Defined.

(** X16: on a drive whose node and mount point are set, [mount_drive] and
    [unmount_drive] called without arguments do not consult the mount
    table.  They run [sudo mount] with the node and the mount point, the
    file-system type when given being passed as the single argument
    [-t type], and [sudo umount] with the node; they raise [DriveError]
    exactly when the command ends with a non-zero status. *)
Theorem mount_by_exit_status (run : Runner) (h : Host) (self : Drive)
    (n mp : string) (type : option string) :
  _node self = Some n → _mount_point self = Some mp → n ≠ "" → mp ≠ "" →
  let opts := if truthy type then ["-t " +:+ default "" type] else [] in
  let status (argv : list string) {A} (value : A) : result A :=
    match run argv with
    | Ok done => if (returncode done =? 0)%Z then Ok value else Raise DriveError
    | Raise e => Raise e
    end in
  mount_drive run h self None None type
    = status (["sudo"; "mount"] ++ opts ++ [n; mp]) self ∧
  unmount_drive run self None = status ["sudo"; "umount"; n] tt.
Proof.
  intros Hn Hmp Hne Hmpe. destruct self as [sn smp]. cbn in Hn, Hmp. subst.
  destruct n as [|a n]; [done|]. destruct mp as [|b mp]; [done|].
  cbv zeta. split.
  - unfold mount_drive. change recursion_limit with (S (S 998)).
    cbn [truthy negb _node _mount_point default]. rewrite set_attr_value.
    cbn [truthy _node]. unfold subprocess_run.
    destruct (truthy type); cbn [app mapM mbind option_bind id mret option_ret];
      cbn; destruct (run _) as [c|e]; try done;
      by destruct (returncode c =? 0)%Z.
  - unfold unmount_drive, subprocess_run. cbn.
    destruct (run _) as [c|e]; [|done]. by destruct (returncode c =? 0)%Z.
Qed.

Lemma mount_by_exit_status_witness :
  let self := {| _node := Some "/dev/sda1"; _mount_point := Some "/boot/efi" |} in
  let h := host efi_mtab lsblk_sda in
  mount_drive succeeds h self None None (Some "vfat") = Ok self ∧
  mount_drive fails h self None None (Some "vfat") = Raise DriveError ∧
  unmount_drive fails self None = Raise DriveError.
Proof.
  intros self h.
  destruct (mount_by_exit_status succeeds h self "/dev/sda1" "/boot/efi"
              (Some "vfat") eq_refl eq_refl) as [Hok _]; [done..|].
  destruct (mount_by_exit_status fails h self "/dev/sda1" "/boot/efi"
              (Some "vfat") eq_refl eq_refl) as [Hmount Humount]; [done..|].
  rewrite Hok, Hmount, Humount. done.
Defined.

End Mounting.

(** ** The probe and the parent disk *)

Section Probe.
Import Py Mbdrive.

Lemma uuid_explicit_outcomes_witness :
  let h := host efi_mtab lsblk_sda in
  uuid h {| _node := Some "/dev/sda2"; _mount_point := None |}
    = Ok (Some "0a1b2c3d-0000-4000-8000-123456789abc") ∧
  uuid h {| _node := Some "/dev/sda"; _mount_point := None |} = Ok (Some "sda").
Proof.
  intros h. split.
  - destruct (uuid_explicit_outcomes h
                {| _node := Some "/dev/sda2"; _mount_point := None |}
                "/dev/sda2" eq_refl) as [_ Hfound].
    apply (Hfound lsblk_sda ["NAME   UUID"; "sda"; "sda1 1234-ABCD"]
             "sda2 0a1b2c3d-0000-4000-8000-123456789abc" []);
      try reflexivity.
    intros fs Hin. repeat (apply elem_of_cons in Hin as [-> | Hin]; [reflexivity|]).
    by apply elem_of_nil in Hin.
  - destruct (uuid_explicit_outcomes h
                {| _node := Some "/dev/sda"; _mount_point := None |}
                "/dev/sda" eq_refl) as [_ Hfound].
    apply (Hfound lsblk_sda ["NAME   UUID"] "sda"
             ["sda1 1234-ABCD"; "sda2 0a1b2c3d-0000-4000-8000-123456789abc"]);
      try reflexivity.
    intros fs Hin. repeat (apply elem_of_cons in Hin as [-> | Hin]; [reflexivity|]).
    by apply elem_of_nil in Hin.
Defined.

(** [s] holds no slash. *)
Lemma slash_free_cons (c : ascii) (s : string) :
  contains "/" (String c s) = false ↔
  Ascii.eqb c "/" = false ∧ contains "/" s = false.
Proof.
  cbn [contains startswith]. rewrite andb_true_r, orb_false_iff.
  by rewrite (Ascii.eqb_sym "/" c).
Qed.

Lemma split_on_slash_free (s : string) :
  contains "/" s = false → split_on "/" s = [s].
Proof.
  induction s as [|c s IH]; [done|].
  intros [Hc Hs]%slash_free_cons. cbn [split_on]. by rewrite Hc, (IH Hs).
Qed.

Lemma basename_app (dir leaf : string) :
  contains "/" leaf = false → basename (dir +:+ String "/" leaf) = leaf.
Proof.
  intros Hleaf. unfold basename.
  by rewrite split_on_sep, (split_on_slash_free leaf), last_snoc.
Qed.

Lemma contains_slash_app (dir rest : string) :
  contains "/" (dir +:+ String "/" rest) = true.
Proof. apply contains_spec. by exists dir, rest. Qed.

Lemma upto_last_slash_free (s : string) :
  contains "/" s = false → upto_last_slash s = "".
Proof. intros Hs. destruct s; [done|]. cbn [upto_last_slash]. by rewrite Hs. Qed.

Lemma upto_last_slash_app (dir leaf : string) :
  contains "/" leaf = false →
  upto_last_slash (dir +:+ String "/" leaf) = dir +:+ "/".
Proof.
  intros Hleaf. induction dir as [|c dir IH].
  - rewrite sapp_nil_l. cbn [upto_last_slash].
    pose proof (contains_slash_app "" leaf) as Hs. rewrite sapp_nil_l in Hs.
    by rewrite Hs, upto_last_slash_free.
  - rewrite sapp_cons. cbn [upto_last_slash].
    pose proof (contains_slash_app (String c dir) leaf) as Hs.
    rewrite sapp_cons in Hs. by rewrite Hs, IH.
Qed.

Lemma all_slashes_app (s t : string) :
  all_slashes (s +:+ t) = all_slashes s && all_slashes t.
Proof.
  induction s as [|c s IH]; [done|]. rewrite sapp_cons. cbn [all_slashes].
  by rewrite IH, andb_assoc.
Qed.

(** A slash-free, non-empty name is not made of slashes. *)
Lemma name_not_all_slashes (s : string) :
  s ≠ "" → contains "/" s = false → all_slashes s = false.
Proof.
  destruct s as [|c s]; [done|]. intros _ [Hc _]%slash_free_cons.
  cbn [all_slashes]. by rewrite Hc.
Qed.

(** Stripping trailing slashes stops at a name. *)
Lemma rstrip_slashes_name (dir name : string) :
  name ≠ "" → contains "/" name = false →
  rstrip_slashes (dir +:+ name +:+ "/") = dir +:+ name.
Proof.
  intros Hne Hname.
  assert (Hname' : rstrip_slashes (name +:+ "/") = name).
  { clear Hne. induction name as [|c name IH]; [done|].
    apply slash_free_cons in Hname as [Hc Hname].
    rewrite sapp_cons. cbn [rstrip_slashes all_slashes]. rewrite Hc.
    cbn [andb]. by rewrite (IH Hname). }
  induction dir as [|c dir IH]; [by rewrite !sapp_nil_l|].
  rewrite !sapp_cons. cbn [rstrip_slashes all_slashes].
  rewrite !all_slashes_app, (name_not_all_slashes name) by done.
  destruct (Ascii.eqb c "/"), (all_slashes dir); cbn [andb]; by rewrite IH.
Qed.

Lemma dirname_app (dir name leaf : string) :
  name ≠ "" → contains "/" name = false → contains "/" leaf = false →
  dirname (dir +:+ name +:+ String "/" leaf) = dir +:+ name.
Proof.
  intros Hne Hname Hleaf. unfold dirname.
  rewrite <- sapp_assoc, upto_last_slash_app by done.
  rewrite sapp_assoc, !all_slashes_app, (name_not_all_slashes name) by done.
  rewrite andb_false_r. by apply rstrip_slashes_name.
Qed.

(** X18: when the sysfs link of the device reads [up/parent/leaf], with
    [parent] and [leaf] single path components, [drive_name] returns
    [leaf], the device itself, if [virtual] occurs in [up/parent], and
    [parent] otherwise, be it a disk or not.  When the link cannot be read
    it raises [OSError]. *)
Theorem drive_name_of_link (h : Host) (self : Drive)
    (n up parent leaf : string) :
  _node self = Some n →
  parent ≠ "" → contains "/" parent = false → contains "/" leaf = false →
  (readlink h ("/sys/class/block/" +:+ basename (realpath h n))
     = Some (up +:+ "/" +:+ parent +:+ "/" +:+ leaf) →
   drive_name h self =
     Ok (if contains "virtual" (up +:+ "/" +:+ parent) then leaf
         else parent)) ∧
  (readlink h ("/sys/class/block/" +:+ basename (realpath h n)) = None →
   drive_name h self = Raise OSError).
Proof.
  intros Hn Hne Hparent Hleaf. unfold drive_name. rewrite Hn.
  split; intros ->; [|done].
  assert (Hlink : up +:+ "/" +:+ parent +:+ "/" +:+ leaf
                  = ((up +:+ "/") +:+ parent) +:+ String "/" leaf).
  { by rewrite !sapp_assoc. }
  assert (Hdir : dirname (up +:+ "/" +:+ parent +:+ "/" +:+ leaf)
                 = up +:+ "/" +:+ parent).
  { rewrite Hlink, sapp_assoc, dirname_app by done. by rewrite sapp_assoc. }
  assert (Hbase : basename (up +:+ "/" +:+ parent +:+ "/" +:+ leaf) = leaf).
  { by rewrite Hlink, basename_app. }
  rewrite Hdir, Hbase.
  destruct (contains "virtual" (up +:+ "/" +:+ parent)); [done|].
  f_equal. by apply (basename_app up parent).
Qed.

Lemma drive_name_of_link_witness :
  let sys (link : string) :=
    {| mtab := efi_mtab; lsblk := Some lsblk_sda; realpath := λ p, p;
       readlink := λ _, Some link |} in
  let esp := {| _node := Some "/dev/sda1"; _mount_point := None |} in
  drive_name (sys "../../devices/pci0000:00/ata1/host0/block/sda/sda1") esp
    = Ok "sda" ∧
  drive_name (sys "../../devices/virtual/block/loop0") esp = Ok "loop0" ∧
  drive_name (sys "../../devices/virtual/block/dm-0/dm-1") esp = Ok "dm-1".
Proof.
  intros sys esp. split_and!.
  - by apply (drive_name_of_link
             (sys "../../devices/pci0000:00/ata1/host0/block/sda/sda1") esp
             "/dev/sda1" "../../devices/pci0000:00/ata1/host0/block"
             "sda" "sda1" eq_refl).
  - by apply (drive_name_of_link (sys "../../devices/virtual/block/loop0") esp
             "/dev/sda1" "../../devices/virtual" "block" "loop0" eq_refl).
  - by apply (drive_name_of_link (sys "../../devices/virtual/block/dm-0/dm-1")
             esp "/dev/sda1" "../../devices/virtual/block" "dm-0" "dm-1"
             eq_refl).
Defined.

End Probe.

(** ** The system configuration *)

Section SystemConfiguration.
Import Py Mbdrive Mbconfig.

Lemma eqb_empty_false (s : string) : s ≠ "" → String.eqb s "" = false.
Proof. by destruct s. Qed.

Lemma bind_Returns {A B} (m : M A) (k : A → M B) (st st' : State) (a : A) :
  m st = (Returns a, st') → bind m k st = k a st'.
Proof. unfold bind. by intros ->. Qed.

Lemma bind_Throws {A B} (m : M A) (k : A → M B) (st st' : State) (e : exc) :
  m st = (Throws e, st') → bind m k st = (Throws e, st').
Proof. unfold bind. by intros ->. Qed.

(** What [save_loader_conf] does, by the keys of the configuration. *)
Lemma save_loader_conf_value (env : Env) (st : State) :
  save_loader_conf env st =
    match config (self st) !! "esp_path" with
    | None => (Throws (KeyError "esp_path"), st)
    | Some e =>
        match os_path_join e "loader/loader.conf" with
        | Throws x => (Throws x, st)
        | Returns loader_conf_path =>
            match config (self st) !! "default_entry" with
            | None => (Throws (KeyError "default_entry"), st)
            | Some entry =>
                match config (self st) !! "menu_timeout" with
                | None => (Throws (KeyError "menu_timeout"), st)
                | Some timeout =>
                    match open_write env loader_conf_path with
                    | Some x => (Throws x, st)
                    | None =>
                        (Returns tt,
                         wrote loader_conf_path
                           (Text (loader_lines entry timeout)) st)
                    end
                end
            end
        end
    end.
Proof.
  unfold save_loader_conf, bind, esp_path, default_entry, menu_timeout,
    getitem, lift, write.
  destruct (config (self st) !! "esp_path") as [e|]; [|done].
  destruct (os_path_join e "loader/loader.conf"); [|done].
  destruct (config (self st) !! "default_entry"); [|done].
  by destruct (config (self st) !! "menu_timeout").
Qed.

Lemma save_config_value (env : Env) (st : State) (p : string) :
  _config_path (self st) = Some p →
  save_config env st =
    match open_write env p with
    | Some x => (Throws x, st)
    | None => save_loader_conf env (wrote p (Json (config (self st))) st)
    end.
Proof.
  intros Hp. unfold save_config, bind, config_path, write. rewrite Hp.
  by destruct (open_write env p).
Qed.

(** [load_config] when the directory is there and the file can be read. *)
Lemma load_config_found (env : Env) (st : State) (p : string) (c : Config) :
  _config_path (self st) = Some p →
  path_exists env (dirname p) st = (Returns true, st) →
  load env p st = (Returns c, st) →
  load_config env st = (Returns tt, assigned (with_config c) st).
Proof.
  intros Hp Hdir Hload. unfold load_config.
  rewrite (bind_Returns _ _ st st p) by (unfold config_path; by rewrite Hp).
  rewrite (bind_Returns _ _ st st true Hdir).
  rewrite (bind_Returns _ _ st st tt) by done.
  unfold except_FileNotFoundError.
  rewrite (bind_Returns _ _ st st p) by (unfold config_path; by rewrite Hp).
  by rewrite (bind_Returns _ _ st st c Hload).
Qed.

(** [load_config] when there is no file: the defaults are set on the
    state [st1] in which the directory is there. *)
Lemma load_config_defaults (env : Env) (st st1 : State) (p : string) :
  _config_path (self st) = Some p →
  load env p st = (Throws FileNotFoundError, st) →
  dirname p ≠ "" →
  (path_exists env (dirname p) st = (Returns true, st) ∧ st1 = st) ∨
  (path_exists env (dirname p) st = (Returns false, st) ∧
   os_makedirs env (dirname p) = None ∧ st1 = did_make (dirname p) st) →
  load_config env st =
    bind (set_esp_path env (VStr "/boot/efi")) (fun _ =>
    bind (set_menu_timeout env (VInt 0)) (fun _ =>
    set_config_rev (VInt CURRENT_CONFIGURATION_REVISION))) st1.
Proof.
  intros Hp Hload Hne Hdir. unfold load_config.
  rewrite (bind_Returns _ _ st st p) by (unfold config_path; by rewrite Hp).
  assert (Hload1 : load env p st1 = (Throws FileNotFoundError, st1)).
  { destruct Hdir as [[_ ->] | (_ & _ & ->)]; [done|].
    unfold load in *. cbn [written did_make].
    repeat case_match; simplify_eq; done. }
  assert (Hp1 : _config_path (self st1) = Some p).
  { by destruct Hdir as [[_ ->] | (_ & _ & ->)]. }
  assert (Hstep : bind (path_exists env (dirname p))
            (fun there => if there then ret tt else makedirs env (dirname p)) st
          = (Returns tt, st1)).
  { destruct Hdir as [[Hthere ->] | (Hthere & Hmake & ->)];
      rewrite (bind_Returns _ _ _ _ _ Hthere); [done|].
    unfold makedirs. by rewrite (eqb_empty_false _ Hne), Hmake. }
  unfold bind at 1 in Hstep. unfold bind at 1.
  destruct (path_exists env (dirname p) st) as [[there|e] st'];
    [|discriminate].
  rewrite (bind_Returns _ _ _ _ _ Hstep).
  unfold except_FileNotFoundError.
  rewrite (bind_Returns _ _ st1 st1 p) by (unfold config_path; by rewrite Hp1).
  by rewrite (bind_Throws _ _ _ _ _ Hload1).
Qed.

(** The setters, once their guard is passed. *)
Lemma set_esp_path_value (env : Env) (st : State) (v : value) :
  truthy_value v = true →
  set_esp_path env v st
    = save_config env (assigned (with_item "esp_path" v) st).
Proof. intros Hv. unfold set_esp_path. by rewrite Hv. Qed.

Lemma set_default_entry_value (env : Env) (st : State) (v : value) :
  truthy_value v = true →
  set_default_entry env v st
    = save_config env (assigned (with_item "default_entry" v) st).
Proof. intros Hv. unfold set_default_entry. by rewrite Hv. Qed.

Lemma set_menu_timeout_value (env : Env) (st : State) (v : value) (z : Z) :
  int_of v = Returns z →
  set_menu_timeout env v st
    = save_config env (assigned (with_item "menu_timeout" (VInt z)) st).
Proof. intros Hv. unfold set_menu_timeout, bind, lift. by rewrite Hv. Qed.

(** The constructor, up to [load_config]. *)
Lemma init_value (env : Env) (path : string)
    (w : list (string * content)) (m : list string) :
  path ≠ "" →
  __init__ env path (blank w m) =
    bind (load_config env) (fun _ =>
    bind update_config (fun _ =>
    bind (set_config_rev (VInt CURRENT_CONFIGURATION_REVISION)) (fun _ =>
    bind esp_path (fun e =>
    bind (lift (new_drive env e)) (fun d =>
    with_self (fun s => {| config := config s;
                           _config_path := _config_path s;
                           esp := Some d |}))))))
      {| self := {| config := ∅; _config_path := Some path; esp := None |};
         written := w; made := m |}.
Proof.
  intros Hpath. unfold __init__, set_config_path.
  rewrite (eqb_empty_false path Hpath). cbn [negb].
  by unfold bind at 1 2 3.
Qed.

(** The first run on a host without a configuration file. *)
Lemma construct_defaults (env : Env) (path : string) :
  path ≠ "" → dirname path ≠ "" →
  open_read env path = Throws FileNotFoundError →
  os_path_exists env (dirname path) = true ∨
    os_makedirs env (dirname path) = None →
  let st0 := {| self := {| config := ∅; _config_path := Some path;
                           esp := None |}; written := []; made := [] |} in
  let st1 := assigned (with_item "esp_path" (VStr "/boot/efi"))
               (if os_path_exists env (dirname path) then st0
                else did_make (dirname path) st0) in
  construct env path =
    match open_write env path with
    | Some x => (Throws x, st1)
    | None =>
        (Throws (KeyError "default_entry"),
         wrote path (Json {[ "esp_path" := VStr "/boot/efi" ]}) st1)
    end.
Proof.
  intros Hpath Hdir Hread Hthere st0 st1'.
  unfold construct. rewrite init_value by done. fold st0.
  set (st1 := if os_path_exists env (dirname path) then st0
              else did_make (dirname path) st0) in *.
  assert (Hdefaults : load_config env st0 =
    bind (set_esp_path env (VStr "/boot/efi")) (fun _ =>
    bind (set_menu_timeout env (VInt 0)) (fun _ =>
    set_config_rev (VInt CURRENT_CONFIGURATION_REVISION))) st1).
  { apply (load_config_defaults env st0 st1 path); [done| |done|].
    - unfold load. cbn [written st0 find]. by rewrite Hread.
    - unfold path_exists, st1. cbn [made written st0 app map existsb orb].
      rewrite (eqb_empty_false _ Hdir). cbn [negb andb].
      destruct (os_path_exists env (dirname path)); [by left|].
      right. by destruct Hthere. }
  assert (Hp1 : _config_path (self st1) = Some path).
  { unfold st1. by destruct (os_path_exists env (dirname path)). }
  assert (Hsave : set_esp_path env (VStr "/boot/efi") st1 =
    match open_write env path with
    | Some x => (Throws x, st1')
    | None =>
        (Throws (KeyError "default_entry"),
         wrote path (Json {[ "esp_path" := VStr "/boot/efi" ]}) st1')
    end).
  { rewrite set_esp_path_value by done. fold st1'.
    rewrite (save_config_value env _ path) by done.
    destruct (open_write env path); [done|].
    rewrite save_loader_conf_value.
    assert (Hcfg : config (self st1') = {[ "esp_path" := VStr "/boot/efi" ]}).
    { unfold st1', st1. by destruct (os_path_exists env (dirname path)). }
    cbn [self wrote]. rewrite Hcfg.
    rewrite lookup_singleton_eq. cbn [os_path_join].
    by rewrite lookup_singleton_ne. }
  destruct (open_write env path) as [x|];
    by rewrite (bind_Throws _ _ _ _ _
                  (eq_trans Hdefaults (bind_Throws _ _ _ _ _ Hsave))).
Qed.

(** X19: where there is no configuration file yet, the constructor does
    not return.  It makes the directory of the file if need be, writes a
    file that holds the default ESP path and nothing else, and raises
    [KeyError] for [default_entry] when it comes to write [loader.conf];
    when the file cannot be opened for writing it raises that error and
    writes nothing. *)
Theorem construct_without_file (env : Env) (path : string) :
  path ≠ "" → dirname path ≠ "" →
  open_read env path = Throws FileNotFoundError →
  os_path_exists env (dirname path) = true ∨
    os_makedirs env (dirname path) = None →
  ∃ st, made st = (if os_path_exists env (dirname path) then []
                   else [dirname path]) ∧
        config (self st) = {[ "esp_path" := VStr "/boot/efi" ]} ∧
        match open_write env path with
        | None =>
            construct env path = (Throws (KeyError "default_entry"), st) ∧
            written st = [(path, Json {[ "esp_path" := VStr "/boot/efi" ]})]
        | Some e =>
            construct env path = (Throws e, st) ∧ written st = []
        end.
Proof.
  intros Hpath Hdir Hread Hthere.
  rewrite (construct_defaults env path) by done.
  destruct (open_write env path) as [x|]; eexists; (split_and!; [| |done|]);
    by destruct (os_path_exists env (dirname path)).
Qed.

Lemma construct_without_file_witness :
  ∃ st, made st = [] ∧
        config (self st) = {[ "esp_path" := VStr "/boot/efi" ]} ∧
        construct (sample None) "/etc/kernelstub/system"
          = (Throws (KeyError "default_entry"), st) ∧
        written st = [("/etc/kernelstub/system",
                       Json {[ "esp_path" := VStr "/boot/efi" ]})].
Proof.
  apply (construct_without_file (sample None) "/etc/kernelstub/system");
    [done|done|done|by left].
Defined.

(** The constructor once [load_config] has read [c]. *)
Lemma construct_loaded (env : Env) (path : string) (c : Config)
    (w : list (string * content)) (m : list string) :
  path ≠ "" →
  load_config env
    {| self := {| config := ∅; _config_path := Some path; esp := None |};
       written := w; made := m |}
  = (Returns tt,
     {| self := {| config := c; _config_path := Some path; esp := None |};
        written := w; made := m |}) →
  let object (c' : Config) (d : option Drive) :=
    {| self := {| config := c'; _config_path := Some path; esp := d |};
       written := w; made := m |} in
  let current := <["config_rev" := VInt CURRENT_CONFIGURATION_REVISION]> c in
  __init__ env path (blank w m) =
    match c !! "config_rev" with
    | None => (Throws (KeyError "config_rev"), object c None)
    | Some rev =>
        if eq_int rev CURRENT_CONFIGURATION_REVISION then
          match c !! "esp_path" with
          | None => (Throws (KeyError "esp_path"), object current None)
          | Some e =>
              match new_drive env e with
              | Throws x => (Throws x, object current None)
              | Returns d => (Returns tt, object current (Some d))
              end
          end
        else (Throws ConfigError, object c None)
    end.
Proof.
  intros Hpath Hload object current. rewrite init_value by done.
  rewrite (bind_Returns _ _ _ _ _ Hload). fold (object c None).
  unfold update_config, config_rev, getitem, bind at 1 2.
  cbn [object self config].
  destruct (c !! "config_rev") as [rev|] eqn:Hrev; [|done].
  destruct (eq_int rev CURRENT_CONFIGURATION_REVISION) eqn:Heq; [|done].
  unfold ret, set_config_rev, setitem, with_self, bind at 1.
  change (assigned (with_item "config_rev"
            (VInt CURRENT_CONFIGURATION_REVISION)) (object c None))
    with (object current None).
  unfold esp_path, getitem, bind at 1. cbn [object self config].
  unfold current at 1. rewrite lookup_insert_ne by done.
  destruct (c !! "esp_path") as [e|]; [|done].
  unfold lift, bind. by destruct (new_drive env e).
Qed.

(** What the constructor makes of the value under [esp_path]. *)
Lemma new_drive_unset (env : Env) (e : value) (d : Drive) :
  new_drive env e = Returns d → d = {| _node := None; _mount_point := None |}.
Proof.
  unfold new_drive.
  assert (Hinit : ∀ n mp built,
            match Mbdrive.__init__ (drives env) n mp with
            | Ok d0 => Returns d0
            | Raise x => Throws (Builtin x)
            end = Returns built →
            built = {| _node := None; _mount_point := None |}).
  { intros n mp built.
    destruct (Mbdrive.__init__ (drives env) n mp) as [d'|] eqn:Hd; [|done].
    intros [= <-]. by apply (init_returns_unset _ _ _ _ Hd). }
  destruct e; try apply Hinit;
    (destruct (truthy_value _); [done | apply Hinit]).
Qed.

(** X20: where the configuration file holds the object [c] and its
    directory is there, the constructor writes and makes nothing, and [c]
    decides what it does.  It raises [KeyError] when [c] has no
    [config_rev], [ConfigError] when the value there does not equal 4 (the
    float 4.0 does, the string [4] does not), [KeyError] when [c] has no
    [esp_path], and what building the drive of the ESP raises.  Otherwise
    it returns with [c] as its configuration, [config_rev] being set to
    the integer 4, and with a drive that has neither node nor mount
    point. *)
Theorem construct_from_file (env : Env) (path : string) (c : Config) :
  path ≠ "" → dirname path ≠ "" →
  os_path_exists env (dirname path) = true →
  open_read env path = Returns (Json c) →
  let object (c' : Config) (d : option Drive) :=
    {| self := {| config := c'; _config_path := Some path; esp := d |};
       written := []; made := [] |} in
  let current := <["config_rev" := VInt CURRENT_CONFIGURATION_REVISION]> c in
  (c !! "config_rev" = None →
   construct env path = (Throws (KeyError "config_rev"), object c None)) ∧
  (∀ rev, c !! "config_rev" = Some rev →
          eq_int rev CURRENT_CONFIGURATION_REVISION = false →
          construct env path = (Throws ConfigError, object c None)) ∧
  (∀ rev, c !! "config_rev" = Some rev →
          eq_int rev CURRENT_CONFIGURATION_REVISION = true →
     (c !! "esp_path" = None →
      construct env path = (Throws (KeyError "esp_path"), object current None)) ∧
     (∀ e x, c !! "esp_path" = Some e → new_drive env e = Throws x →
             construct env path = (Throws x, object current None)) ∧
     (∀ e d, c !! "esp_path" = Some e → new_drive env e = Returns d →
             construct env path
               = (Returns tt,
                  object current
                    (Some {| _node := None; _mount_point := None |})))).
Proof.
  intros Hpath Hdir Hthere Hread object current.
  assert (Hrun := construct_loaded env path c [] [] Hpath).
  cbv zeta in Hrun. unfold construct. rewrite Hrun; clear Hrun.
  - fold current. split_and!.
    + by intros ->.
    + by intros rev -> ->.
    + intros rev -> ->. split_and!.
      * by intros ->.
      * by intros e x -> ->.
      * intros e d -> Hd. rewrite Hd.
        by rewrite (new_drive_unset env e d Hd).
  - rewrite (load_config_found env _ path c); [done|done| |].
    + unfold path_exists. cbn [made written app map existsb orb].
      by rewrite (eqb_empty_false _ Hdir), Hthere.
    + unfold load. cbn [written find]. by rewrite Hread.
Qed.

Lemma construct_from_file_witness :
  let four := VFloat {| magnitude := Finite 1 2; printed := "4.0" |} in
  let c (rev : value) : Config :=
    {[ "config_rev" := rev; "esp_path" := VStr "/boot/efi";
       "default_entry" := VStr "Pop_OS-current"; "menu_timeout" := VInt 5 ]} in
  let object (c' : Config) (d : option Drive) :=
    {| self := {| config := c';
                  _config_path := Some "/etc/kernelstub/system"; esp := d |};
       written := []; made := [] |} in
  construct (sample (Some (c four))) "/etc/kernelstub/system"
    = (Returns tt,
       object (c (VInt 4)) (Some {| _node := None; _mount_point := None |})) ∧
  construct (sample (Some (c (VStr "4")))) "/etc/kernelstub/system"
    = (Throws ConfigError, object (c (VStr "4")) None).
Proof.
  intros four c object. split.
  - destruct (construct_from_file (sample (Some (c four)))
                "/etc/kernelstub/system" (c four))
      as (_ & _ & Hcurrent); [done..|].
    destruct (Hcurrent four eq_refl eq_refl) as (_ & _ & Hreturns).
    rewrite (Hreturns (VStr "/boot/efi")
               {| _node := None; _mount_point := None |} eq_refl eq_refl).
    by vm_compute.
  - destruct (construct_from_file (sample (Some (c (VStr "4"))))
                "/etc/kernelstub/system" (c (VStr "4")))
      as (_ & Hother & _); [done..|].
    by apply (Hother (VStr "4")).
Defined.

(** X21: the file the first run leaves behind is not one the constructor
    accepts.  On a host without a configuration file, where the file can
    be written, the first run raises [KeyError] for [default_entry]; a
    second run reads the file the first one wrote, finds no [config_rev] in
    it and raises [KeyError] in turn, writing nothing. *)
Theorem construct_twice (env : Env) (path : string) :
  path ≠ "" → dirname path ≠ "" →
  open_read env path = Throws FileNotFoundError →
  os_path_exists env (dirname path) = true ∨
    os_makedirs env (dirname path) = None →
  open_write env path = None →
  ∃ st st',
    construct env path = (Throws (KeyError "default_entry"), st) ∧
    construct_again env path st = (Throws (KeyError "config_rev"), st') ∧
    written st' = written st ∧ made st' = made st ∧
    written st = [(path, Json {[ "esp_path" := VStr "/boot/efi" ]})].
Proof.
  intros Hpath Hdir Hread Hthere Hwrite.
  set (c := {[ "esp_path" := VStr "/boot/efi" ]} : Config).
  pose proof (construct_defaults env path Hpath Hdir Hread Hthere) as Hfirst.
  cbv zeta in Hfirst. rewrite Hwrite in Hfirst.
  match type of Hfirst with _ = (_, ?s) => set (st := s) in * end.
  assert (Hw : written st = [(path, Json c)]).
  { unfold st. by destruct (os_path_exists env (dirname path)). }
  assert (Hm : made st = [] ∧ os_path_exists env (dirname path) = true ∨
               made st = [dirname path]).
  { unfold st. destruct (os_path_exists env (dirname path)); [by left|].
    by right. }
  exists st,
    {| self := {| config := c; _config_path := Some path; esp := None |};
       written := written st; made := made st |}.
  split; [done|]. split; [|done].
  unfold construct_again. rewrite Hw.
  assert (Hrun := construct_loaded env path c [(path, Json c)] (made st) Hpath).
  cbv zeta in Hrun. rewrite Hrun; clear Hrun.
  - unfold c. by rewrite lookup_singleton_ne.
  - rewrite (load_config_found env _ path c); [done|done| |].
    + unfold path_exists. cbn [made written].
      rewrite (eqb_empty_false _ Hdir). cbn [negb andb].
      destruct Hm as [[-> ->] | ->]; [by rewrite orb_true_r|].
      cbn [app existsb]. unfold above at 1. by rewrite String.eqb_refl.
    + unfold load. cbn [written find fst snd]. by rewrite String.eqb_refl.
Qed.

Lemma construct_twice_witness :
  ∃ st st',
    construct (sample None) "/etc/kernelstub/system"
      = (Throws (KeyError "default_entry"), st) ∧
    construct_again (sample None) "/etc/kernelstub/system" st
      = (Throws (KeyError "config_rev"), st') ∧
    written st' = written st ∧ made st' = made st ∧
    written st = [("/etc/kernelstub/system",
                   Json {[ "esp_path" := VStr "/boot/efi" ]})].
Proof.
  apply (construct_twice (sample None) "/etc/kernelstub/system");
    [done|done|done|by left|done].
Defined.

Lemma dirname_bare (path : string) :
  contains "/" path = false → dirname path = "".
Proof. intros Hbare. unfold dirname. by rewrite upto_last_slash_free. Qed.

(** X22: a configuration path without a slash never works, whatever the
    host holds: the directory part of the path is empty, [os.makedirs] is
    called on it and raises [FileNotFoundError] before the file is looked
    at. *)
Theorem construct_bare_file_name (env : Env) (path : string) :
  path ≠ "" → contains "/" path = false →
  construct env path
    = (Throws FileNotFoundError,
       {| self := {| config := ∅; _config_path := Some path; esp := None |};
          written := []; made := [] |}).
Proof.
  intros Hpath Hbare. unfold construct. rewrite init_value by done.
  apply bind_Throws. unfold load_config.
  rewrite (bind_Returns _ _ _ _ path) by done.
  rewrite (dirname_bare path Hbare).
  rewrite (bind_Returns _ _ _ _ false) by done.
  by apply bind_Throws.
Qed.

Lemma construct_bare_file_name_witness :
  let c : Config :=
    {[ "config_rev" := VInt 4; "esp_path" := VStr "/boot/efi" ]} in
  let env :=
    {| os_path_exists := fun _ => true; os_makedirs := fun _ => None;
       open_read := fun _ => Returns (Json c); open_write := fun _ => None;
       drives := Mbdrive.host efi_mtab lsblk_sda |} in
  construct env "system"
    = (Throws FileNotFoundError,
       {| self := {| config := ∅; _config_path := Some "system";
                     esp := None |};
          written := []; made := [] |}).
Proof. intros c env. by apply (construct_bare_file_name env "system"). Defined.

(** X23: [save_config] replaces the configuration file before it looks
    at what [loader.conf] needs.  Once the file can be opened, every
    outcome leaves the file written with the configuration in memory and
    the object as it was: either the call raises, and nothing else is
    written, or it returns, and then [loader.conf] under the ESP path holds
    the four lines made of [default_entry] and [menu_timeout], and loading
    the configuration file again gives the configuration back. *)
Theorem save_config_writes_first (env : Env) (st : State) (p : string) :
  _config_path (self st) = Some p →
  open_write env p = None →
  let c := config (self st) in
  ∃ st', snd (save_config env st) = st' ∧
    self st' = self st ∧ made st' = made st ∧
    ((∃ x, fst (save_config env st) = Throws x ∧
           written st' = (p, Json c) :: written st) ∨
     (∃ e entry timeout loader_conf_path,
        c !! "esp_path" = Some e ∧ c !! "default_entry" = Some entry ∧
        c !! "menu_timeout" = Some timeout ∧
        os_path_join e "loader/loader.conf" = Returns loader_conf_path ∧
        fst (save_config env st) = Returns tt ∧
        written st' =
          (loader_conf_path, Text (loader_lines entry timeout))
            :: (p, Json c) :: written st ∧
        (loader_conf_path ≠ p → load env p st' = (Returns c, st')))).
Proof.
  intros Hp Hopen c. eexists. split; [done|].
  rewrite (save_config_value env st p Hp), Hopen, save_loader_conf_value.
  cbn [self wrote]. fold c.
  destruct (c !! "esp_path") as [e|] eqn:He;
    [|split_and!; [done..|left; by eexists]].
  destruct (os_path_join e "loader/loader.conf") as [lp|x] eqn:Hlp;
    [|split_and!; [done..|left; by eexists]].
  destruct (c !! "default_entry") as [entry|] eqn:Hentry;
    [|split_and!; [done..|left; by eexists]].
  destruct (c !! "menu_timeout") as [timeout|] eqn:Htimeout;
    [|split_and!; [done..|left; by eexists]].
  destruct (open_write env lp) as [x|];
    [split_and!; [done..|left; by eexists]|].
  split_and!; [done..|]. right. exists e, entry, timeout, lp.
  split_and!; [done..|].
  intros Hne. unfold load. cbn [snd written wrote find fst].
  destruct (String.eqb lp p) eqn:Heq; [by apply String.eqb_eq in Heq|].
  by rewrite String.eqb_refl.
Qed.

Lemma save_config_writes_first_witness :
  let c : Config :=
    {[ "config_rev" := VInt 4; "esp_path" := VStr "/boot/efi";
       "default_entry" := VStr "Pop_OS-current"; "menu_timeout" := VInt 5 ]} in
  let st :=
    {| self := {| config := c; _config_path := Some "/etc/kernelstub/system";
                  esp := None |};
       written := []; made := [] |} in
  save_config (sample None) st
    = (Returns tt,
       {| self := self st;
          written :=
            [("/boot/efi/loader/loader.conf",
              Text ["## THIS FILE IS AUTOMATICALLY GENERATED!" +:+ nl;
                    "## To modify this file, use `kernelstub`" +:+ nl +:+ nl;
                    "default Pop_OS-current" +:+ nl;
                    "timeout 5" +:+ nl]);
             ("/etc/kernelstub/system", Json c)];
          made := [] |}).
Proof.
  intros c st.
  destruct (save_config_writes_first (sample None) st
              "/etc/kernelstub/system" eq_refl eq_refl)
    as (st' & Hst' & _ & _ & [(x & Hx & _) | Hreturns]).
  - by vm_compute in Hx.
  - by vm_compute.
Defined.

(** X24: the setters change the configuration in memory before they save
    it, and do not undo the change when the file cannot be opened: the
    call raises with the new value in memory and nothing written.  A value
    that is false, such as an empty string or a zero, is ignored by
    [esp_path] and [default_entry] without an error; [menu_timeout] has no
    such guard, it converts its argument with [int] first, and an argument
    for which [int] raises [ValueError], such as a string that is not an
    integer literal between spaces, changes nothing. *)
Theorem setters_on_failed_save (env : Env) (st : State) (p : string)
    (x : exc) (v : value) :
  _config_path (self st) = Some p →
  open_write env p = Some x →
  (truthy_value v = true →
   set_esp_path env v st
     = (Throws x, assigned (with_item "esp_path" v) st) ∧
   set_default_entry env v st
     = (Throws x, assigned (with_item "default_entry" v) st)) ∧
  (truthy_value v = false →
   set_esp_path env v st = (Returns tt, st) ∧
   set_default_entry env v st = (Returns tt, st)) ∧
  (∀ z, int_of v = Returns z →
        set_menu_timeout env v st
          = (Throws x, assigned (with_item "menu_timeout" (VInt z)) st)) ∧
  (int_of v = Throws ValueError →
   set_menu_timeout env v st = (Throws ValueError, st)).
Proof.
  intros Hp Hopen. split_and!.
  - intros Hv. rewrite set_esp_path_value, set_default_entry_value by done.
    by rewrite !(save_config_value env _ p), Hopen.
  - intros Hv. unfold set_esp_path, set_default_entry. by rewrite Hv.
  - intros z Hz. rewrite (set_menu_timeout_value env st v z Hz).
    by rewrite (save_config_value env _ p), Hopen.
  - intros Hz. unfold set_menu_timeout, bind, lift. by rewrite Hz.
Qed.

Lemma setters_on_failed_save_witness :
  let c : Config :=
    {[ "config_rev" := VInt 4; "esp_path" := VStr "/boot/efi" ]} in
  let st :=
    {| self := {| config := c; _config_path := Some "/read-only/system";
                  esp := None |};
       written := []; made := [] |} in
  set_menu_timeout (sample None) (VStr " 7 ") st
    = (Throws FileNotFoundError,
       assigned (with_item "menu_timeout" (VInt 7)) st) ∧
  set_menu_timeout (sample None) (VStr "seven") st = (Throws ValueError, st) ∧
  set_menu_timeout (sample None) (VStr (String "028" "7")) st
    = (Throws ValueError, st) ∧
  set_default_entry (sample None) (VStr "") st = (Returns tt, st).
Proof.
  intros c st.
  pose proof (setters_on_failed_save (sample None) st "/read-only/system"
                FileNotFoundError) as Hset.
  split_and!.
  - by apply (Hset (VStr " 7 ") eq_refl eq_refl).
  - by apply (Hset (VStr "seven") eq_refl eq_refl).
  - by apply (Hset (VStr (String "028" "7")) eq_refl eq_refl).
  - by apply (Hset (VStr "") eq_refl eq_refl).
Defined.

End SystemConfiguration.
